(** * Change tracking and media relay: a shallow embedding

    The development embeds the tracking pipeline of the repository
    (statistics recording and aggregation, the per-target check cycle,
    media delivery, the archive, resource extraction, the tracker that
    keeps its targets in JSON files, the large-file splitter and the
    download handler) as Rocq functions and states the behavioural
    properties of the specification and of the code over them.

    Layout: library conventions, the effect monad, the document store,
    then one block of definitions per source file ([d5c.py], [d5.py],
    [b.py], [D5dl.py]); all lemmas and theorems follow the definitions. *)

From Stdlib Require Import ZArith QArith String Ascii List Lia.
From Stdlib Require Import DecimalString DecimalN.
From Stdlib Require Import Sorted Permutation.
From Stdlib Require Import Strings.Byte.
From stdpp Require Import gmap strings list.

Local Open Scope string_scope.
Local Open Scope list_scope.
Local Open Scope Z_scope.

(** ** Effects

    The source is written as [async] methods that read and write the
    document store, talk to the transport and raise exceptions.  A
    computation is a function from the state to an outcome and the state
    reached; a raised exception keeps every effect performed before it
    (Python has no rollback). *)

Inductive exn : Type :=
| ValueError (msg : string)
| WriteError (msg : string)
| TransportError (msg : string)
| OSError (msg : string)
| NameError (msg : string)
| DownloadError (msg : string)
| RoundsExhausted.

Inductive outcome (A : Type) : Type :=
| Ret (a : A)
| Raise (e : exn).
Arguments Ret {A} a.
Arguments Raise {A} e.

Definition M (S A : Type) : Type := S -> outcome A * S.

Definition ret {S A} (a : A) : M S A := fun s => (Ret a, s).

Definition bind {S A B} (c : M S A) (k : A -> M S B) : M S B :=
  fun s =>
    match c s with
    | (Ret a, s') => k a s'
    | (Raise e, s') => (Raise e, s')
    end.

Definition raise {S A} (e : exn) : M S A := fun s => (Raise e, s).

Definition gets {S A} (f : S -> A) : M S A := fun s => (Ret (f s), s).

Definition modify {S} (f : S -> S) : M S unit := fun s => (Ret tt, f s).

(** [try: body except Exception as e: handler e]. *)
Definition try_except {S A} (body : M S A) (handler : exn -> M S A) : M S A :=
  fun s =>
    match body s with
    | (Ret a, s') => (Ret a, s')
    | (Raise e, s') => handler e s'
    end.

(** [try: body finally: cleanup]. *)
Definition try_finally {S A} (body : M S A) (cleanup : M S unit) : M S A :=
  fun s =>
    match body s with
    | (r, s') =>
        match cleanup s' with
        | (Ret _, s'') => (r, s'')
        | (Raise e, s'') => (Raise e, s'')
        end
    end.

Declare Scope monad_scope.
Delimit Scope monad_scope with monad.
Notation "x <- c ;; k" := (bind c (fun x => k))
  (at level 100, c at next level, right associativity) : monad_scope.
Notation "c ;;; k" := (bind c (fun _ => k))
  (at level 100, right associativity) : monad_scope.
Local Open Scope monad_scope.

(** [for x in xs: body x]. *)
Fixpoint for_each {S A} (xs : list A) (body : A -> M S unit) : M S unit :=
  match xs with
  | [] => ret tt
  | x :: xs' => body x ;;; for_each xs' body
  end.

Definition exec {S A} (c : M S A) (s : S) : S := snd (c s).
Definition result {S A} (c : M S A) (s : S) : outcome A := fst (c s).

(** [str(e)] for the exceptions of the model. *)
Definition exn_message (e : exn) : string :=
  match e with
  | ValueError msg => msg
  | WriteError msg => msg
  | TransportError msg => msg
  | OSError msg => msg
  | NameError msg => msg
  | DownloadError msg => msg
  | RoundsExhausted => "rounds exhausted"
  end.

(** ** The document store

    Four collections are used by the source: [MongoDB.urls],
    [MongoDB.stats], [MongoDB.archives] (and notification settings, which
    the consolidated cycle does not read).  A collection is the list of its
    documents in insertion order; [find_one] and [update_one] act on the
    first document that matches the filter. *)

(** A document of [MongoDB.stats].  The nested object [stats] is kept as a
    finite map from the two path components below it, so the field
    [stats.checks.success] is the key [("checks", "success")].  A key that
    is absent is a field that does not exist in the document. *)
Record StatDoc : Type := {
  sd_user_id : Z;
  sd_url : string;
  sd_stats : gmap (string * string) Z
}.

(** A document of [MongoDB.urls], read by the cycle as [tracked_data].
    Every field the source reads with [.get] may be missing.  The last field
    is a field literally named [$push]: see [update_one_set]. *)
Record TrackedData : Type := {
  td_id : Z;
  td_user_id : Z;
  td_url : string;
  td_name : option string;
  td_night_mode : option bool;
  td_content_hash : option string;
  td_content : option string;
  td_sent_hashes : option (list string);
  td_last_checked : option Z;
  td_dollar_push : option (list string)
}.

Record ArchiveEntry : Type := {
  ar_user_id : Z;
  ar_url : string;
  ar_content : string;
  ar_timestamp : Z
}.

(** What leaves the process during a cycle. *)
Inductive send_method : Type :=
| send_document | send_photo | send_audio | send_video.

Inductive downloader : Type := ytdl_download | direct_download.

Inductive event : Type :=
| EvFetch (url : string)
| EvMessage (user_id : Z) (text : string)
| EvDownload (by_ : downloader) (url : string) (file_path : string)
| EvSend (method : send_method) (user_id : Z) (file_path : string) (caption : string).

Record World : Type := {
  urls : list TrackedData;
  stats : list StatDoc;
  archives : list ArchiveEntry;
  log : list event
}.

Definition set_urls (f : list TrackedData -> list TrackedData) (w : World) : World :=
  {| urls := f (urls w); stats := stats w; archives := archives w; log := log w |}.
Definition set_stats (f : list StatDoc -> list StatDoc) (w : World) : World :=
  {| urls := urls w; stats := f (stats w); archives := archives w; log := log w |}.
Definition set_archives (f : list ArchiveEntry -> list ArchiveEntry) (w : World) : World :=
  {| urls := urls w; stats := stats w; archives := f (archives w); log := log w |}.
Definition emit (e : event) : M World unit :=
  modify (fun w =>
    {| urls := urls w; stats := stats w; archives := archives w; log := log w ++ [e] |}).

(** ** [d5c.py]: statistics *)

(** ["success" if success else "failure"]. *)
Definition outcome_name (success : bool) : string :=
  if success then "success" else "failure".

(** [$inc] of one field by one: a missing field is created with the
    increment as its value. *)
Definition inc_field (k : string * string) (m : gmap (string * string) Z)
  : gmap (string * string) Z :=
  <[k := default 0 (m !! k) + 1]> m.

Definition stat_matches (user_id : Z) (url : string) (d : StatDoc) : bool :=
  (sd_user_id d =? user_id) && String.eqb (sd_url d) url.

(** [MongoDB.stats.update_one({'user_id': .., 'url': ..}, {'$inc': {k: 1}},
    upsert=True)]: the first matching document is updated; without a match
    a document is inserted from the filter and the update. *)
Fixpoint update_one_inc (user_id : Z) (url : string) (k : string * string)
  (docs : list StatDoc) : list StatDoc :=
  match docs with
  | [] => [ {| sd_user_id := user_id; sd_url := url; sd_stats := inc_field k ∅ |} ]
  | d :: ds =>
      if stat_matches user_id url d
      then {| sd_user_id := sd_user_id d; sd_url := sd_url d;
              sd_stats := inc_field k (sd_stats d) |} :: ds
      else d :: update_one_inc user_id url k ds
  end.

Definition valid_events : gset string :=
  {[ "downloads"; "checks"; "content_changes" ]}.

(** [track_statistics] of [d5c.py] (lines 11-23).  The update document is
    read with its braces closed as in the same call of [d5.py] (line 5). *)
Definition track_statistics (event_type : string) (user_id : Z) (url : string)
  (success : bool) : M World unit :=
  if negb (bool_decide (event_type ∈ valid_events))
  then raise (ValueError ("Invalid event type: " +:+ event_type))
  else modify (set_stats (update_one_inc user_id url (event_type, outcome_name success))).

(** *** The function as the store sees it

    The source is an [async] function: between two [await]s of the store
    other tasks of the event loop run.  A task is the sequence of the
    requests it awaits until it returns or raises; the store serves one
    request at a time, and a request is served in one step.  The
    statistics code sends one kind of request. *)
Inductive stats_request : Type :=
| UpdateOneIncUpsert (user_id : Z) (url : string) (k : string * string).

Definition serve (r : stats_request) (docs : list StatDoc) : list StatDoc :=
  match r with
  | UpdateOneIncUpsert user_id url k => update_one_inc user_id url k docs
  end.

Inductive task : Type :=
| Return
| Raises (e : exn)
| Await (r : stats_request) (rest : task).

(** A task that runs alone. *)
Fixpoint run_task (t : task) : M World unit :=
  match t with
  | Return => ret tt
  | Raises e => raise e
  | Await r rest => modify (set_stats (serve r)) ;;; run_task rest
  end.

(** [track_statistics] (lines 11-23) as a task: the validation runs in the
    process, then the one [update_one] is awaited.  Nothing is read from
    the store. *)
Definition track_statistics_task (event_type : string) (user_id : Z) (url : string)
  (success : bool) : task :=
  if negb (bool_decide (event_type ∈ valid_events))
  then Raises (ValueError ("Invalid event type: " +:+ event_type))
  else Await (UpdateOneIncUpsert user_id url (event_type, outcome_name success)) Return.

(** *** Aggregation ([get_statistics], [d5c.py] lines 25-59)

    The pipeline is evaluated with the operators' own treatment of fields
    that do not exist: a field path that is missing evaluates to null, the
    expression [$add] is null as soon as one operand is null, and the
    accumulator [$sum] skips every operand that is not a number. *)

Definition field (d : StatDoc) (event_type outcome_ : string) : option Z :=
  sd_stats d !! (event_type, outcome_).

Definition expr_add (a b : option Z) : option Z :=
  match a, b with
  | Some x, Some y => Some (x + y)
  | _, _ => None
  end.

Definition acc_sum (operands : list (option Z)) : Z :=
  fold_right (fun o acc => default 0 o + acc) 0 operands.

(** The [$group] stage with [_id: None]. *)
Record Grouped : Type := {
  g_total_tracked : Z;
  g_total_checks : Z;
  g_success_checks : Z;
  g_success_downloads : Z;
  g_failed_downloads : Z
}.

Definition group_stage (docs : list StatDoc) : Grouped :=
  {| g_total_tracked := acc_sum (map (fun _ => Some 1) docs);
     g_total_checks :=
       acc_sum (map (fun d => expr_add (field d "checks" "success")
                                       (field d "checks" "failure")) docs);
     g_success_checks := acc_sum (map (fun d => field d "checks" "success") docs);
     g_success_downloads := acc_sum (map (fun d => field d "downloads" "success") docs);
     g_failed_downloads := acc_sum (map (fun d => field d "downloads" "failure") docs) |}.

(** The document returned to the caller.  [$divide] yields a double in the
    store; the ratio is kept exact here. *)
Record Summary : Type := {
  total_tracked : Z;
  success_downloads : Z;
  failed_downloads : Z;
  uptime_percentage : Q
}.

Definition project_stage (g : Grouped) : Summary :=
  {| total_tracked := g_total_tracked g;
     success_downloads := g_success_downloads g;
     failed_downloads := g_failed_downloads g;
     uptime_percentage :=
       if g_total_checks g =? 0 then 0%Q
       else (inject_Z (g_success_checks g) / inject_Z (g_total_checks g))%Q |}.

(** [None] is the empty dictionary [{}] returned when the aggregation has
    no result: with no matching document the group stage emits nothing. *)
Definition get_statistics (user_id : Z) (w : World) : option Summary :=
  match filter (fun d => sd_user_id d = user_id) (stats w) with
  | [] => None
  | docs => Some (project_stage (group_stage docs))
  end.

(** ** Strings and paths

    A Python [str] is modelled by the Rocq string of its UTF-8 encoding;
    the literals of the source are written as they stand in the files.
    Python counts code points: [len] and the slices [s[:n]] and [s[n:]] are
    [py_len], [py_take] and [py_drop] below.  The functions [str_take] and
    [str_drop] count bytes; they serve the path functions, whose offsets are
    found by [rfind] in the same unit. *)

Definition nl : string := String "010"%char EmptyString.

(** Truth value of a list and of a string: empty is false. *)
Definition nonempty_list {A} (l : list A) : bool :=
  match l with
  | [] => false
  | _ :: _ => true
  end.

Definition nonempty (s : string) : bool :=
  match s with
  | EmptyString => false
  | String _ _ => true
  end.

(** The first [n] bytes and the rest. *)
Fixpoint str_take (n : nat) (s : string) : string :=
  match n, s with
  | S n', String c s' => String c (str_take n' s')
  | _, _ => EmptyString
  end.

Fixpoint str_drop (n : nat) (s : string) : string :=
  match n, s with
  | S n', String _ s' => str_drop n' s'
  | _, _ => s
  end.

(** A byte that continues a code point in UTF-8 (binary [10xxxxxx]); every
    other byte starts one. *)
Definition is_continuation (c : ascii) : bool :=
  let n := nat_of_ascii c in
  ((128 <=? n) && (n <? 192))%nat.

(** [len(s)]: the number of code points. *)
Fixpoint py_len (s : string) : nat :=
  match s with
  | EmptyString => O
  | String c s' => if is_continuation c then py_len s' else S (py_len s')
  end.

(** [s[:n]]: the first [n] code points.  A continuation byte goes with the
    code point it belongs to. *)
Fixpoint py_take (n : nat) (s : string) : string :=
  match s with
  | EmptyString => EmptyString
  | String c s' =>
      if is_continuation c then String c (py_take n s')
      else match n with
           | O => EmptyString
           | S n' => String c (py_take n' s')
           end
  end.

(** [s[n:]]: what follows the first [n] code points. *)
Fixpoint py_drop (n : nat) (s : string) : string :=
  match s with
  | EmptyString => EmptyString
  | String c s' =>
      if is_continuation c then py_drop n s'
      else match n with
           | O => s
           | S n' => py_drop n' s'
           end
  end.

(** [s.endswith(suffix)]. *)
Definition endswith (s suffix : string) : bool :=
  String.eqb (str_drop (String.length s - String.length suffix) s) suffix
  && (String.length suffix <=? String.length s)%nat.

(** [s.startswith(prefix)]. *)
Definition startswith (s pre : string) : bool :=
  String.eqb (str_take (String.length pre) s) pre.

(** [s.lower()] on the ASCII letters. *)
Definition lower_char (c : ascii) : ascii :=
  let n := nat_of_ascii c in
  if ((65 <=? n) && (n <=? 90))%nat then ascii_of_nat (n + 32) else c.

Fixpoint lower (s : string) : string :=
  match s with
  | EmptyString => EmptyString
  | String c s' => String (lower_char c) (lower s')
  end.

(** [s.rfind(c)]: the index of the last occurrence, if any. *)
Fixpoint rfind (c : ascii) (s : string) : option nat :=
  match s with
  | EmptyString => None
  | String c' s' =>
      match rfind c s' with
      | Some i => Some (S i)
      | None => if Ascii.eqb c' c then Some O else None
      end
  end.

(** [os.path.basename(p)]: what follows the last slash. *)
Definition basename (p : string) : string :=
  match rfind "/"%char p with
  | Some i => str_drop (S i) p
  | None => p
  end.

Fixpoint all_dots (s : string) : bool :=
  match s with
  | EmptyString => true
  | String c s' => Ascii.eqb c "."%char && all_dots s'
  end.

(** [os.path.splitext(p)]: the extension starts at the last dot of the
    last path component, unless only dots precede it there. *)
Definition splitext (p : string) : string * string :=
  let file_start := match rfind "/"%char p with Some i => S i | None => O end in
  match rfind "."%char p with
  | Some dot =>
      if (file_start <=? dot)%nat
         && negb (all_dots (str_take (dot - file_start) (str_drop file_start p)))
      then (str_take dot p, str_drop dot p)
      else (p, EmptyString)
  | None => (p, EmptyString)
  end.

(** [os.path.join(a, b)] for two components. *)
Definition path_join (a b : string) : string :=
  if startswith b "/" then b
  else if negb (nonempty a) || endswith a "/" then a +:+ b
  else a +:+ "/" +:+ b.

(** The string with the given bytes. *)
Definition utf8 (bytes : list nat) : string :=
  string_of_list_ascii (map ascii_of_nat bytes).

(** The characters removed by [s.strip()], those for which [str.isspace]
    holds, in UTF-8: U+0009 to U+000D, U+001C to U+0020, U+0085, U+00A0,
    U+1680, U+2000 to U+200A, U+2028, U+2029, U+202F, U+205F and U+3000. *)
Definition whitespace : list string :=
  map utf8
    [ [9]; [10]; [11]; [12]; [13]; [28]; [29]; [30]; [31]; [32];
      [194; 133]; [194; 160]; [225; 154; 128];
      [226; 128; 128]; [226; 128; 129]; [226; 128; 130]; [226; 128; 131];
      [226; 128; 132]; [226; 128; 133]; [226; 128; 134]; [226; 128; 135];
      [226; 128; 136]; [226; 128; 137]; [226; 128; 138];
      [226; 128; 168]; [226; 128; 169]; [226; 128; 175];
      [226; 129; 159]; [227; 128; 128] ]%nat.

(** [s.lstrip()] and [s.rstrip()]: a round removes one character of white
    space, so as many rounds as the string has bytes are enough. *)
Fixpoint lstrip_rounds (rounds : nat) (s : string) : string :=
  match rounds with
  | O => s
  | S rounds' =>
      match List.find (startswith s) whitespace with
      | Some w => lstrip_rounds rounds' (str_drop (String.length w) s)
      | None => s
      end
  end.

Definition lstrip (s : string) : string := lstrip_rounds (String.length s) s.

Fixpoint rstrip_rounds (rounds : nat) (s : string) : string :=
  match rounds with
  | O => s
  | S rounds' =>
      match List.find (endswith s) whitespace with
      | Some w => rstrip_rounds rounds' (str_take (String.length s - String.length w) s)
      | None => s
      end
  end.

Definition rstrip (s : string) : string := rstrip_rounds (String.length s) s.

(** [s.strip()]. *)
Definition strip (s : string) : string := rstrip (lstrip s).

(** ** The environment of a cycle

    Everything the cycle obtains from outside the repository: the clock,
    the HTTP client with the HTML parser, the library functions on URLs,
    the digests, the diff, the configuration constants and the methods of
    the tracker class that are not part of the source.

    [d5c.py] and [d5.py] are parts of a module: the first says that its
    imports are assumed at the top, the second is the indented body of a
    class.  The names they use without binding them ([MongoDB], [pytz],
    [logger], the constants) are those of that module; a call of the logger
    changes nothing of the state kept here. *)

Record Resource : Type := {
  r_url : string;
  r_type : string;
  r_hash : string
}.

(** An element returned by [soup.find_all([...])], in document order. *)
Record Tag : Type := {
  tag_name : string;
  tag_href : option string;
  tag_src : option string
}.

Record Env : Type := {
  (** [datetime.now(tz).hour] in the configured [TIMEZONE] *)
  now_hour : Z;
  (** [datetime.now()] *)
  now_time : Z;
  (** the response text and its parsed elements; [None] when anything in
      the [try] block of [get_webpage_content] raises: the request, the
      parse, or [urljoin] for the reference of an element *)
  http_get : string -> option (string * list Tag);
  (** [urljoin] on the references of a page that is returned *)
  urljoin : string -> string -> string;
  unquote : string -> string;
  md5_hexdigest : string -> string;
  sha256_hexdigest : string -> string;
  (** [difflib.unified_diff(old.splitlines(), new.splitlines(),
      fromfile='Previous', tofile='Current', lineterm='')] *)
  unified_diff : string -> string -> list string;
  SUPPORTED_EXTENSIONS : list (string * list string);
  MAX_MESSAGE_LENGTH : nat;
  MAX_FILE_SIZE : Z;
  apply_filters : Resource -> Z -> bool;
  (** a downloader called on a URL and a destination: [None] for a falsy
      result, [Some size] when the file was written with that size *)
  download : downloader -> string -> string -> option Z;
  (** the directory created by [TemporaryDirectory()] *)
  tmpdir : string;
  (** whether the transport takes the file; it raises otherwise *)
  transport_ok : send_method -> string -> bool;
  (** whether the store takes a field whose name starts with a dollar sign;
      it raises a write error otherwise *)
  store_accepts_dollar_fields : bool
}.

(** ** [d5.py]: archive, diff and page fetch *)

(** [create_archive] (lines 34-41). *)
Definition create_archive (env : Env) (user_id : Z) (url : string) (content : string)
  : M World unit :=
  modify (set_archives (fun a =>
    a ++ [ {| ar_user_id := user_id; ar_url := url; ar_content := content;
              ar_timestamp := now_time env |} ])).

(** [sort('timestamp', -1)]: the newest first.  The store does not fix
    the order of documents of the same time; here they stay in the order of
    the collection. *)
Fixpoint insert_newest_first (a : ArchiveEntry) (sorted : list ArchiveEntry)
  : list ArchiveEntry :=
  match sorted with
  | [] => [a]
  | b :: rest =>
      if ar_timestamp b <=? ar_timestamp a then a :: sorted
      else b :: insert_newest_first a rest
  end.

Definition sort_newest_first (l : list ArchiveEntry) : list ArchiveEntry :=
  fold_right insert_newest_first [] l.

Definition archive_matches (user_id : Z) (url : string) (a : ArchiveEntry) : bool :=
  (ar_user_id a =? user_id) && String.eqb (ar_url a) url.

(** [get_archives] (lines 43-48). *)
Definition get_archives (user_id : Z) (url : string) (w : World) : list ArchiveEntry :=
  sort_newest_first (List.filter (archive_matches user_id url) (archives w)).

(** [cleanup_old_archives] (lines 76-80).  The clock counts seconds, so a
    day is 86400 of its units; the retention period is a constant of the
    configuration. *)
Definition cleanup_old_archives (env : Env) (ARCHIVE_RETENTION_DAYS : Z) : M World unit :=
  let cutoff := now_time env - ARCHIVE_RETENTION_DAYS * 86400 in
  modify (set_archives (List.filter (fun a => negb (ar_timestamp a <? cutoff)))).

(** [generate_diff] (lines 51-60). *)
Definition generate_diff (env : Env) (old_content new_content : string) : string :=
  py_take (MAX_MESSAGE_LENGTH env)
    (String.concat nl (unified_diff env old_content new_content)).

(** The inner [for file_type, extensions in SUPPORTED_EXTENSIONS.items()]
    with its [break]. *)
Fixpoint classify (ext : string) (table : list (string * list string)) : option string :=
  match table with
  | [] => None
  | (file_type, extensions) :: rest =>
      if existsb (String.eqb ext) extensions then Some file_type
      else classify ext rest
  end.

Definition truthy_str (o : option string) : option string :=
  match o with
  | Some s => if nonempty s then Some s else None
  | None => None
  end.

(** The URL chosen for one element (lines 200-204). *)
Definition resource_url_of (env : Env) (url : string) (tag : Tag) : option string :=
  match (if String.eqb (tag_name tag) "a" then truthy_str (tag_href tag) else None) with
  | Some href => Some (unquote env (urljoin env url href))
  | None =>
      match truthy_str (tag_src tag) with
      | Some src => Some (unquote env (urljoin env url src))
      | None => None
      end
  end.

(** The body of the loop over the elements (lines 199-216): [resources]
    grows by at most one entry.  The set [seen_hashes] of the source is
    created and never read or written, so it has no counterpart here. *)
Definition scan_tag (env : Env) (url : string) (resources : list Resource) (tag : Tag)
  : list Resource :=
  match truthy_str (resource_url_of env url tag) with
  | Some resource_url =>
      let ext := lower (snd (splitext resource_url)) in
      match classify ext (SUPPORTED_EXTENSIONS env) with
      | Some file_type =>
          resources ++ [ {| r_url := resource_url; r_type := file_type;
                            r_hash := md5_hexdigest env resource_url |} ]
      | None => resources
      end
  | None => resources
  end.

(** [get_webpage_content] (lines 190-221): any exception is logged and
    turned into the pair of an empty text and an empty list. *)
Definition get_webpage_content (env : Env) (url : string)
  : M World (string * list Resource) :=
  emit (EvFetch url) ;;;
  match http_get env url with
  | Some (content, tags) => ret (content, fold_left (scan_tag env url) tags [])
  | None => ret ("", [])
  end.

(** ** [d5c.py]: delivery and the check cycle *)

(** [safe_send_message] (lines 178-184).  Each round sends a non-empty
    chunk, so as many rounds as the text has bytes are enough. *)
Fixpoint safe_send_rounds (rounds : nat) (user_id : Z) (text : string) : M World unit :=
  match rounds with
  | O => ret tt
  | S rounds' =>
      if nonempty text then
        emit (EvMessage user_id (py_take 4096 text)) ;;;
        safe_send_rounds rounds' user_id (py_drop 4096 text)
      else ret tt
  end.

Definition safe_send_message (user_id : Z) (text : string) : M World unit :=
  safe_send_rounds (String.length text) user_id text.

(** The [for downloader in downloaders: ... break ... else: return False]
    of [send_media]: the size of the file left by the first downloader that
    succeeds. *)
Fixpoint try_downloaders (env : Env) (downloaders : list downloader)
  (url file_path : string) : M World (option Z) :=
  match downloaders with
  | [] => ret None
  | d :: rest =>
      emit (EvDownload d url file_path) ;;;
      match download env d url file_path with
      | Some file_size => ret (Some file_size)
      | None => try_downloaders env rest url file_path
      end
  end.

Definition send_methods (type_ : string) : send_method :=
  if String.eqb type_ "pdf" then send_document
  else if String.eqb type_ "image" then send_photo
  else if String.eqb type_ "audio" then send_audio
  else if String.eqb type_ "video" then send_video
  else send_document.

(** A call of a transport send method: the file is handed over, then the
    transport may raise. *)
Definition transport_send (env : Env) (method : send_method) (user_id : Z)
  (file_path caption : string) : M World unit :=
  emit (EvSend method user_id file_path caption) ;;;
  if transport_ok env method file_path then ret tt
  else raise (TransportError "send failed").

Definition media_caption (resource : Resource) (tracked_data : TrackedData) : string :=
  "📁 " +:+ default "Unnamed" (td_name tracked_data) +:+ nl +:+
  "🔗 Source: " +:+ td_url tracked_data +:+ nl +:+
  "📥 Direct URL: " +:+ r_url resource.

(** [send_media] (lines 132-176). *)
Definition send_media (env : Env) (user_id : Z) (resource : Resource)
  (tracked_data : TrackedData) : M World bool :=
  try_except
    (let caption := media_caption resource tracked_data in
     let file_path := path_join (tmpdir env) (basename (r_url resource)) in
     downloaded <- try_downloaders env [ytdl_download; direct_download]
                     (r_url resource) file_path ;;
     match downloaded with
     | None => ret false
     | Some file_size =>
         if file_size >? MAX_FILE_SIZE env then ret false
         else
           transport_send env (send_methods (r_type resource)) user_id file_path
             (py_take 1024 caption) ;;;
           ret true
     end)
    (fun _ => ret false).

(** [MongoDB.urls.find_one({'user_id': .., 'url': ..})]. *)
Definition find_one (user_id : Z) (url : string) (docs : list TrackedData)
  : option TrackedData :=
  find (fun d => (td_user_id d =? user_id) && String.eqb (td_url d) url) docs.

(** The operand of [$set] built at lines 115-119: three keys, the third
    one named [$push]. *)
Record update_data : Type := {
  ud_content_hash : string;
  ud_last_checked : Z;
  ud_dollar_push : list string
}.

Definition apply_set (u : update_data) (d : TrackedData) : TrackedData :=
  {| td_id := td_id d; td_user_id := td_user_id d; td_url := td_url d;
     td_name := td_name d; td_night_mode := td_night_mode d;
     td_content_hash := Some (ud_content_hash u);
     td_content := td_content d;
     td_sent_hashes := td_sent_hashes d;
     td_last_checked := Some (ud_last_checked u);
     td_dollar_push := Some (ud_dollar_push u) |}.

Fixpoint update_first (id : Z) (f : TrackedData -> TrackedData)
  (docs : list TrackedData) : list TrackedData :=
  match docs with
  | [] => []
  | d :: ds => if td_id d =? id then f d :: ds else d :: update_first id f ds
  end.

(** [MongoDB.urls.update_one({'_id': id}, {'$set': update_data})] (lines
    120-123).  [$set] assigns each key of its operand as a field of the
    document.  The key [$push] sits inside the operand of [$set], so it is
    not run as an update operator: the store either refuses the field name
    and the whole update, or stores a field of that name.  In both cases
    the array [sent_hashes] of the document is not touched. *)
Definition update_one_set (env : Env) (id : Z) (u : update_data) : M World unit :=
  if store_accepts_dollar_fields env
  then modify (set_urls (update_first id (apply_set u)))
  else raise (WriteError
         "The dollar ($) prefixed field '$push' in '$push' is not valid for storage.").

(** The loop of lines 102-109; [sent_hashes] is the list local to the
    cycle. *)
Fixpoint send_new_resources (env : Env) (user_id : Z) (url : string)
  (tracked_data : TrackedData) (filtered_resources : list Resource)
  (sent_hashes : list string) : M World (list string) :=
  match filtered_resources with
  | [] => ret sent_hashes
  | resource :: rest =>
      if negb (existsb (String.eqb (r_hash resource))
                 (default [] (td_sent_hashes tracked_data)))
      then
        sent <- send_media env user_id resource tracked_data ;;
        if (sent : bool) then
          track_statistics "downloads" user_id url true ;;;
          send_new_resources env user_id url tracked_data rest
            (sent_hashes ++ [r_hash resource])
        else
          track_statistics "downloads" user_id url false ;;;
          send_new_resources env user_id url tracked_data rest sent_hashes
      else send_new_resources env user_id url tracked_data rest sent_hashes
  end.

(** The night-mode test of lines 69-72. *)
Definition night_mode_skips (env : Env) (tracked_data : TrackedData) : bool :=
  default false (td_night_mode tracked_data)
  && negb ((9 <=? now_hour env) && (now_hour env <? 22)).

(** Lines 83-95: the flag [changes_detected] and the text [text_changes]. *)
Definition detect_changes (env : Env) (user_id : Z) (url : string)
  (tracked_data : TrackedData) (current_content current_hash : string)
  : M World (bool * string) :=
  let previous_hash := default "" (td_content_hash tracked_data) in
  if negb (String.eqb current_hash previous_hash) then
    let old_content := default "" (td_content tracked_data) in
    let text_changes :=
      if nonempty old_content
      then "🔄 Content Updated: " +:+ url +:+ nl +:+
           generate_diff env old_content current_content
      else "🔍 Initial Content Saved: " +:+ url in
    track_statistics "content_changes" user_id url true ;;;
    ret (true, text_changes)
  else ret (false, "").

(** Lines 77-125 of [check_updates]: the cycle of a target that was found
    and is not skipped. *)
Definition run_cycle (env : Env) (user_id : Z) (url : string)
  (tracked_data : TrackedData) : M World unit :=
  page <- get_webpage_content env url ;;
  let current_content := fst page in
  let new_resources := snd page in
  create_archive env user_id url current_content ;;;
  let current_hash := sha256_hexdigest env current_content in
  detected <- detect_changes env user_id url tracked_data
                current_content current_hash ;;
  let changes_detected := fst detected in
  let text_changes := snd detected in
  let filtered_resources :=
    List.filter (fun resource => apply_filters env resource user_id)
      new_resources in
  sent_hashes <- send_new_resources env user_id url tracked_data
                   filtered_resources [] ;;
  (if changes_detected || nonempty_list sent_hashes then
     (if nonempty text_changes
      then safe_send_message user_id text_changes else ret tt) ;;;
     update_one_set env (td_id tracked_data)
       {| ud_content_hash := current_hash;
          ud_last_checked := now_time env;
          ud_dollar_push := sent_hashes |}
   else ret tt) ;;;
  track_statistics "checks" user_id url true.

(** The handler of lines 127-130. *)
Definition cycle_failed (user_id : Z) (url : string) (e : exn) : M World unit :=
  track_statistics "checks" user_id url false ;;;
  emit (EvMessage user_id
          ("⚠️ Error checking " +:+ url +:+ ": " +:+ exn_message e)).

(** [check_updates] (lines 61-130). *)
Definition check_updates (env : Env) (user_id : Z) (url : string) : M World unit :=
  try_except
    (found <- gets (fun w => find_one user_id url (urls w)) ;;
     match found with
     | None => ret tt
     | Some tracked_data =>
         if night_mode_skips env tracked_data then
           track_statistics "checks" user_id url false
         else run_cycle env user_id url tracked_data
     end)
    (cycle_failed user_id url).

(** ** [b.py]: document extraction *)

(** A Python [dict] with string keys: the entries in insertion order.
    Assigning to a key that is present replaces the value in place. *)
Fixpoint dict_set {V} (k : string) (v : V) (d : list (string * V)) : list (string * V) :=
  match d with
  | [] => [(k, v)]
  | (k', v') :: d' =>
      if String.eqb k' k then (k', v) :: d' else (k', v') :: dict_set k v d'
  end.

Definition dict_values {V} (d : list (string * V)) : list V := map snd d.

Record Document : Type := {
  doc_name : string;
  doc_url : string
}.

(** An anchor returned by [soup.find_all('a', href=True)]. *)
Record Link : Type := {
  link_href : string;
  link_text : string
}.

Definition document_extensions : list string :=
  [".pdf"; ".doc"; ".docx"; ".xls"; ".xlsx"; ".ppt"; ".pptx"; ".txt"].

Section ExtractDocuments.

(** The HTML parser and the two URL functions of the libraries.
    [urljoin] returns the absolute URL or raises: [urllib] raises
    [ValueError] on a reference such as [http://[], whose bracket of an
    IPv6 host is not closed. *)
Variable find_all_links : string -> list Link.
Variable requote_uri : string -> string.
Variable urljoin_ : string -> string -> outcome string.

(** The body of the loop of lines 97-112.  Nothing catches what [urljoin]
    raises. *)
Definition scan_link (base_url : string) (documents : list Document) (link : Link)
  : outcome (list Document) :=
  let href := link_href link in
  let encoded_href := requote_uri href in
  match urljoin_ base_url encoded_href with
  | Raise e => Raise e
  | Ret absolute_url =>
      let link_text := strip (link_text link) in
      if existsb (fun ext => endswith (lower absolute_url) ext) document_extensions then
        let link_text :=
          if negb (nonempty link_text)
          then fst (splitext (basename absolute_url))
          else link_text in
        Ret (documents ++ [ {| doc_name := link_text; doc_url := absolute_url |} ])
      else Ret documents
  end.

(** The loop over the anchors: the first exception ends it. *)
Fixpoint scan_links (base_url : string) (documents : list Document) (links : list Link)
  : outcome (list Document) :=
  match links with
  | [] => Ret documents
  | link :: rest =>
      match scan_link base_url documents link with
      | Ret documents' => scan_links base_url documents' rest
      | Raise e => Raise e
      end
  end.

(** [{doc['url']: doc for doc in documents}]. *)
Definition by_url (documents : list Document) : list (string * Document) :=
  fold_left (fun d doc => dict_set (doc_url doc) doc d) documents [].

(** [extract_documents] (lines 91-115). *)
Definition extract_documents (html_content base_url : string) : outcome (list Document) :=
  match scan_links base_url [] (find_all_links html_content) with
  | Ret documents => Ret (dict_values (by_url documents))
  | Raise e => Raise e
  end.

End ExtractDocuments.

(** ** [b.py]: the tracker on JSON files *)

(** The identifiers the program compares: Telegram gives integers, the
    constant [OWNER_ID] is a string, and the JSON files hold what was
    written to them.  [==] between an integer and a string is false. *)
Inductive pyval : Type :=
| PyInt (n : Z)
| PyStr (s : string).

Definition py_eq (a b : pyval) : bool :=
  match a, b with
  | PyInt m, PyInt n => m =? n
  | PyStr s, PyStr t => String.eqb s t
  | _, _ => false
  end.

(** [str(v)]. *)
Definition py_str (v : pyval) : string :=
  match v with
  | PyInt n => NilZero.string_of_int (Z.to_int n)
  | PyStr s => s
  end.

(** [x in xs] for a list. *)
Definition py_in (x : pyval) (xs : list pyval) : bool := existsb (py_eq x) xs.

Definition OWNER_ID : pyval := PyStr "6556141430".

(** An entry of [tracked_urls]. *)
Record UrlInfo : Type := {
  ui_url : string;
  ui_hash : string;
  ui_documents : list Document
}.

Inductive bot_event : Type :=
| Reply (text : string)
| SendMessage (chat : string) (text : string)
| SendDocument (chat : string) (document caption : string)
| RemoveFile (path : string).

(** The files of the program and what it sent.  A JSON file that is
    missing or does not parse is [None].  [user_data.json], as the program
    writes it, maps [str] of a user id to the object with the single key
    [tracked_urls]; it is kept as the list of its entries in insertion
    order. *)
Record Bot : Type := {
  user_data_json : option (list (string * list UrlInfo));
  sudo_users_json : option (list pyval);
  channels_json : option (list pyval);
  text_files : gmap string string;
  outbox : list bot_event
}.

Record BotEnv : Type := {
  (** [requests.get(url, timeout=10)] followed by [raise_for_status()]:
      the text of the response, [None] when either raises *)
  requests_get : string -> option string;
  bot_sha256 : string -> string;
  bot_find_all_links : string -> list Link;
  bot_requote_uri : string -> string;
  bot_urljoin : string -> string -> outcome string;
  (** [urlparse(url).netloc] *)
  netloc : string -> string;
  (** [datetime.now().strftime("%Y%m%d_%H%M%S")] *)
  timestamp : string;
  (** whether the transport takes the message or the document; it raises
      otherwise *)
  send_message_ok : string -> string -> bool;
  send_document_ok : string -> string -> bool
}.

(** A command as the handlers read it: [message.from_user.id],
    [message.chat.type], [message.chat.id] and [message.command].  The
    message has a sender. *)
Record BotMessage : Type := {
  from_user_id : pyval;
  chat_type : string;
  bm_chat_id : pyval;
  bm_command : list string
}.

Definition bot_emit (e : bot_event) : M Bot unit :=
  modify (fun b =>
    {| user_data_json := user_data_json b; sudo_users_json := sudo_users_json b;
       channels_json := channels_json b; text_files := text_files b;
       outbox := outbox b ++ [e] |}).

(** [message.reply_text(text)]; the answer to a command is taken to reach
    the user. *)
Definition reply_text (text : string) : M Bot unit := bot_emit (Reply text).

(** [load_channels], [load_sudo_users], [load_user_data] (lines 37-43,
    50-56, 68-74): a missing or broken file reads as empty. *)
Definition load_channels (b : Bot) : list pyval := default [] (channels_json b).
Definition load_sudo_users (b : Bot) : list pyval := default [] (sudo_users_json b).
Definition load_user_data (b : Bot) : list (string * list UrlInfo) :=
  default [] (user_data_json b).

(** [save_user_data] (lines 76-79). *)
Definition save_user_data (user_data : list (string * list UrlInfo)) : M Bot unit :=
  modify (fun b =>
    {| user_data_json := Some user_data; sudo_users_json := sudo_users_json b;
       channels_json := channels_json b; text_files := text_files b;
       outbox := outbox b |}).

(** [is_authorized_user] (lines 27-30) and [is_authorized_channel] (lines
    32-35). *)
Definition is_authorized_user (user_id : pyval) : M Bot bool :=
  sudo_users <- gets load_sudo_users ;;
  ret (py_eq user_id OWNER_ID || py_in user_id sudo_users).

Definition is_authorized_channel (channel_id : pyval) : M Bot bool :=
  authorized_channels <- gets load_channels ;;
  ret (py_in channel_id authorized_channels).

(** [fetch_url_content] (lines 81-89). *)
Definition fetch_url_content (env : BotEnv) (url : string) : option string :=
  requests_get env url.

(** [d[k]] and [k in d] for the dictionaries of [dict_set]. *)
Fixpoint dict_get {V} (k : string) (d : list (string * V)) : option V :=
  match d with
  | [] => None
  | (k', v) :: d' => if String.eqb k' k then Some v else dict_get k d'
  end.

Definition bot_extract_documents (env : BotEnv) (html_content base_url : string)
  : outcome (list Document) :=
  extract_documents (bot_find_all_links env) (bot_requote_uri env) (bot_urljoin env)
    html_content base_url.

(** A call of a function that returns or raises and touches no state. *)
Definition call {S A} (o : outcome A) : M S A := fun s => (o, s).

(** Equality of two document dictionaries, and [doc in documents]. *)
Definition document_eqb (a b : Document) : bool :=
  String.eqb (doc_name a) (doc_name b) && String.eqb (doc_url a) (doc_url b).

Definition document_in (doc : Document) (documents : list Document) : bool :=
  existsb (document_eqb doc) documents.

(** [str(n)] for a length. *)
Definition str_of_nat (n : nat) : string := NilZero.string_of_uint (Nat.to_uint n).

(** [create_document_file] (lines 117-127): the name of the file written. *)
Definition document_lines (documents : list Document) : string :=
  String.concat ""
    (map (fun doc => doc_name doc +:+ " " +:+ doc_url doc +:+ nl +:+ nl) documents).

Definition create_document_file (env : BotEnv) (url : string) (documents : list Document)
  : M Bot string :=
  let domain := netloc env url in
  let filename := domain +:+ "_documents_" +:+ timestamp env +:+ ".txt" in
  modify (fun b =>
    {| user_data_json := user_data_json b; sudo_users_json := sudo_users_json b;
       channels_json := channels_json b;
       text_files := <[filename := document_lines documents]> (text_files b);
       outbox := outbox b |}) ;;;
  ret filename.

(** [client.send_message] and [client.send_document]: the call is made,
    then the transport may raise. *)
Definition bot_send_message (env : BotEnv) (chat text : string) : M Bot unit :=
  bot_emit (SendMessage chat text) ;;;
  if send_message_ok env chat text then ret tt else raise (TransportError "send failed").

Definition bot_send_document (env : BotEnv) (chat document caption : string)
  : M Bot unit :=
  bot_emit (SendDocument chat document caption) ;;;
  if send_document_ok env chat document then ret tt
  else raise (TransportError "send failed").

(** [os.remove(path)] on the text files. *)
Definition bot_remove (path : string) : M Bot unit :=
  present <- gets (fun b => text_files b !! path) ;;
  match present with
  | Some _ =>
      bot_emit (RemoveFile path) ;;;
      modify (fun b =>
        {| user_data_json := user_data_json b; sudo_users_json := sudo_users_json b;
           channels_json := channels_json b;
           text_files := delete path (text_files b);
           outbox := outbox b |})
  | None => raise (OSError ("No such file: " +:+ path))
  end.

(** The body of the inner loop of [check_website_updates] (lines 134-174)
    for one entry: the entry as it is after the pass.  The source updates
    the dictionary [url_info] in place.  The documents of the page are
    extracted (line 143) before the fingerprints are compared and outside
    the [try] blocks. *)
Definition check_url (env : BotEnv) (user_id : string) (url_info : UrlInfo)
  : M Bot UrlInfo :=
  let url := ui_url url_info in
  let stored_hash := ui_hash url_info in
  let stored_documents := ui_documents url_info in
  match truthy_str (fetch_url_content env url) with
  | None => ret url_info
  | Some current_content =>
      let current_hash := bot_sha256 env current_content in
      current_documents <- call (bot_extract_documents env current_content url) ;;
      if negb (String.eqb current_hash stored_hash) then
        try_except
          (bot_send_message env user_id ("🚨 Website changed! " +:+ url))
          (fun _ => ret tt) ;;;
        let new_docs :=
          List.filter (fun doc => negb (document_in doc stored_documents))
            current_documents in
        if nonempty_list new_docs then
          try_except
            (txt_file <- create_document_file env url new_docs ;;
             bot_send_document env user_id txt_file
               ("📄 New documents found at " +:+ url +:+ " (" +:+
                str_of_nat (length new_docs) +:+ ")") ;;;
             bot_remove txt_file)
            (fun _ => ret tt) ;;;
          ret {| ui_url := url; ui_hash := current_hash;
                 ui_documents := current_documents |}
        else ret url_info
      else ret url_info
  end.

(** [for x in xs] where the body gives the new value of the element. *)
Fixpoint map_m {S A B} (f : A -> M S B) (xs : list A) : M S (list B) :=
  match xs with
  | [] => ret []
  | x :: xs' => y <- f x ;; ys <- map_m f xs' ;; ret (y :: ys)
  end.

(** [check_website_updates] (lines 129-176).  The file is written after
    the loops, so an exception in a loop leaves it as it was. *)
Definition check_website_updates (env : BotEnv) : M Bot unit :=
  user_data <- gets load_user_data ;;
  user_data <- map_m (fun entry : string * list UrlInfo =>
                        tracked_urls <- map_m (check_url env (fst entry)) (snd entry) ;;
                        ret (fst entry, tracked_urls)) user_data ;;
  save_user_data user_data.

(** The three guards shared by the command handlers (lines 195-205 and
    the like): [None] when the command may go on, the refusal otherwise. *)
Definition command_guard (message : BotMessage) (unauthorized : string)
  : M Bot (option string) :=
  authorized <- is_authorized_user (from_user_id message) ;;
  if negb authorized then ret (Some unauthorized)
  else if negb (existsb (String.eqb (chat_type message)) ["private"; "channel"]) then
    ret (Some
      "❌ This command can only be used in private chats or authorized channels.")
  else if String.eqb (chat_type message) "channel" then
    channel_ok <- is_authorized_channel (bm_chat_id message) ;;
    if negb channel_ok
    then ret (Some "❌ This channel is not authorized to use this bot.")
    else ret None
  else ret None.

(** [track] (lines 193-237). *)
Definition track (env : BotEnv) (message : BotMessage) : M Bot unit :=
  refused <- command_guard message "❌ You are not authorized to use this command." ;;
  match refused with
  | Some text => reply_text text
  | None =>
      let user_id := py_str (from_user_id message) in
      let url := strip (String.concat " " (tail (bm_command message))) in
      if negb (startswith url "http://" || startswith url "https://") then
        reply_text "⚠ Please enter a valid URL (with http/https)"
      else
        user_data <- gets load_user_data ;;
        let user_data :=
          match dict_get user_id user_data with
          | Some _ => user_data
          | None => dict_set user_id [] user_data
          end in
        let tracked_urls := default [] (dict_get user_id user_data) in
        if existsb (fun u => String.eqb (ui_url u) url) tracked_urls then
          reply_text "❌ This URL is already being tracked"
        else
          match truthy_str (fetch_url_content env url) with
          | None => reply_text "❌ Could not access URL"
          | Some content =>
              let current_hash := bot_sha256 env content in
              current_documents <- call (bot_extract_documents env content url) ;;
              save_user_data
                (dict_set user_id
                   (tracked_urls ++ [ {| ui_url := url; ui_hash := current_hash;
                                         ui_documents := current_documents |} ])
                   user_data) ;;;
              reply_text ("✅ Tracking started: " +:+ url +:+ nl +:+
                          "Found documents: " +:+ str_of_nat (length current_documents))
          end
  end.

(** [list_urls] (lines 280-302). *)
Definition list_urls (message : BotMessage) : M Bot unit :=
  refused <- command_guard message "❌ You are not authorized to use this command." ;;
  match refused with
  | Some text => reply_text text
  | None =>
      let user_id := py_str (from_user_id message) in
      user_data <- gets load_user_data ;;
      match dict_get user_id user_data with
      | Some (u :: us) =>
          reply_text ("📜 Tracked URLs:" +:+ nl +:+ nl +:+
                      String.concat nl (map ui_url (u :: us)))
      | _ => reply_text "📭 You're not tracking any URLs"
      end
  end.

(** [list_documents] (lines 304-345). *)
Definition list_documents (env : BotEnv) (message : BotMessage) : M Bot unit :=
  refused <- command_guard message "❌ You are not authorized to use this command." ;;
  match refused with
  | Some text => reply_text text
  | None =>
      let user_id := py_str (from_user_id message) in
      let url := strip (String.concat " " (tail (bm_command message))) in
      user_data <- gets load_user_data ;;
      match dict_get user_id user_data with
      | Some (u :: us) =>
          match find (fun u' => String.eqb (ui_url u') url) (u :: us) with
          | None => reply_text "❌ This URL is not being tracked"
          | Some url_info =>
              let documents := ui_documents url_info in
              if negb (nonempty_list documents) then
                reply_text ("ℹ️ No documents found at " +:+ url)
              else
                try_except
                  (txt_file <- create_document_file env url documents ;;
                   bot_send_document env user_id txt_file
                     ("📑 Documents at " +:+ url +:+ " (" +:+
                      str_of_nat (length documents) +:+ ")") ;;;
                   bot_remove txt_file)
                  (fun _ => reply_text "❌ Error sending documents")
          end
      | _ => reply_text "❌ You're not tracking any URLs"
      end
  end.

(** ** [D5dl.py]: the download handler

    [D5dl.py] is a whole module: lines 1-11 are its imports and line 13
    opens its class.  It uses the name [logger] in three handlers and binds
    it nowhere. *)

(** Byte counts are integers; a file is the list of its bytes. *)
Definition size {A} (l : list A) : Z := Z.of_nat (length l).

(** The first [k] elements and the rest, for an integer count. *)
Fixpoint take_z {A} (k : Z) (l : list A) : list A :=
  match l with
  | [] => []
  | x :: l' => if k <=? 0 then [] else x :: take_z (k - 1) l'
  end.

Fixpoint drop_z {A} (k : Z) (l : list A) : list A :=
  match l with
  | [] => []
  | x :: l' => if k <=? 0 then l else drop_z (k - 1) l'
  end.

(** A file opened with [open(path, 'wb')].  Writes go through the buffer of
    the file object: [pf_data] is everything written so far, [pf_disk] the
    number of bytes already passed to the operating system, which is what
    [os.path.getsize] sees while the file is open.  Closing the file
    flushes the rest. *)
Record PartFile : Type := {
  pf_data : list byte;
  pf_disk : Z
}.

Definition pf_buffered (pf : PartFile) : Z := size (pf_data pf) - pf_disk pf.

(** [part_file.write(data)] with a buffer of [bufsize] bytes: data that
    fits in the free part of the buffer stays there; otherwise the buffer
    is flushed first, data longer than the buffer is written through, and
    shorter data becomes the new buffer content. *)
Definition pf_write (bufsize : Z) (pf : PartFile) (data : list byte) : PartFile :=
  let n := size data in
  if n <=? bufsize - pf_buffered pf then
    {| pf_data := pf_data pf ++ data; pf_disk := pf_disk pf |}
  else if n >? bufsize then
    {| pf_data := pf_data pf ++ data; pf_disk := size (pf_data pf) + n |}
  else
    {| pf_data := pf_data pf ++ data; pf_disk := size (pf_data pf) |}.

Definition READ_SIZE : Z := 100 * 1024 * 1024.

(** The inner loop of [split_file] (lines 89-94): [f] is what is left to
    read of the input.  The result is [remaining], the input left and the
    part file.  Every round that does not stop reads at least one byte. *)
Fixpoint copy_rounds (rounds : nat) (bufsize remaining : Z) (f : list byte)
  (part_file : PartFile) : option (Z * list byte * PartFile) :=
  match rounds with
  | O => None
  | S rounds' =>
      if remaining >? 0 then
        let data := take_z (Z.min remaining READ_SIZE) f in
        let f' := drop_z (Z.min remaining READ_SIZE) f in
        match data with
        | [] => Some (remaining, f', part_file)
        | _ :: _ =>
            copy_rounds rounds' bufsize (remaining - size data) f'
              (pf_write bufsize part_file data)
        end
      else Some (remaining, f, part_file)
  end.

(** [f"{part_num:03d}"]. *)
Definition format_03d (part_num : Z) : string :=
  let digits := NilZero.string_of_uint (N.to_uint (Z.to_N part_num)) in
  match String.length digits with
  | 1%nat => "00" +:+ digits
  | 2%nat => "0" +:+ digits
  | _ => digits
  end.

Definition part_path_of (file_path : string) (part_num : Z) : string :=
  file_path +:+ ".part" +:+ format_03d part_num.

Inductive host_event : Type :=
| HReply (chat_id : Z) (text : string)
| HEdit (chat_id : Z) (text : string)
| HSend (method : send_method) (chat_id : Z) (file_path caption : string)
| HRemove (file_path : string).

(** The state of the process that runs the handler. *)
Record Host : Type := {
  files : gmap string (list byte);
  active_tasks : gmap Z bool;
  progress_data : gmap Z (gmap string string);
  hlog : list host_event
}.

Definition set_files (f : gmap string (list byte) -> gmap string (list byte))
  (h : Host) : Host :=
  {| files := f (files h); active_tasks := active_tasks h;
     progress_data := progress_data h; hlog := hlog h |}.
Definition set_active_tasks (f : gmap Z bool -> gmap Z bool) (h : Host) : Host :=
  {| files := files h; active_tasks := f (active_tasks h);
     progress_data := progress_data h; hlog := hlog h |}.
Definition set_progress_data
  (f : gmap Z (gmap string string) -> gmap Z (gmap string string)) (h : Host) : Host :=
  {| files := files h; active_tasks := active_tasks h;
     progress_data := f (progress_data h); hlog := hlog h |}.
Definition host_emit (e : host_event) : M Host unit :=
  modify (fun h =>
    {| files := files h; active_tasks := active_tasks h;
       progress_data := progress_data h; hlog := hlog h ++ [e] |}).

(** [os.remove(path)] and [async_os.remove(path)]. *)
Definition remove (path : string) : M Host unit :=
  present <- gets (fun h => files h !! path) ;;
  match present with
  | Some _ => host_emit (HRemove path) ;;; modify (set_files (delete path))
  | None => raise (OSError ("No such file: " +:+ path))
  end.

(** The outer loop of [split_file] (lines 85-104). *)
Fixpoint split_rounds (rounds : nat) (bufsize chunk_size : Z) (file_path : string)
  (f : list byte) (part_num : Z) (part_paths : list string) : M Host (list string) :=
  match rounds with
  | O => raise RoundsExhausted
  | S rounds' =>
      let part_path := part_path_of file_path part_num in
      modify (set_files (insert part_path [])) ;;;
      match copy_rounds (S (length f)) bufsize chunk_size f
              {| pf_data := []; pf_disk := 0 |} with
      | None => raise RoundsExhausted
      | Some (remaining, f', part_file) =>
          if pf_disk part_file =? 0 then
            remove part_path ;;;
            ret part_paths
          else
            modify (set_files (insert part_path (pf_data part_file))) ;;;
            if remaining >? 0 then ret (part_paths ++ [part_path])
            else split_rounds rounds' bufsize chunk_size file_path f'
                   (part_num + 1) (part_paths ++ [part_path])
      end
  end.

(** [split_file] (lines 79-106); [bufsize] is the buffer size the runtime
    gives to the part files. *)
Definition split_file (bufsize : Z) (file_path : string) (chunk_size : Z)
  : M Host (list string) :=
  opened <- gets (fun h => files h !! file_path) ;;
  match opened with
  | None => raise (OSError ("No such file: " +:+ file_path))
  | Some f =>
      split_rounds (S (length f)) bufsize chunk_size file_path f 0 []
  end.

Definition DEFAULT_CHUNK_SIZE : Z := 2000 * 1024 * 1024.

(** What the handler obtains from outside. *)
Record HostEnv : Type := {
  (** [yt_dlp]: the file name and the bytes written, or a failure *)
  ytdl : string -> option (string * list byte);
  (** whether the transport takes the file; it raises otherwise *)
  send_ok : string -> bool;
  (** [mimetypes.guess_type(path)[0]] *)
  guess_type : string -> option string;
  io_buffer_size : Z
}.

Record Message : Type := {
  chat_id : Z;
  command : list string
}.

(** [logger.error(...)] in [D5dl.py].  The module imports no logging and
    binds the name [logger] nowhere, so evaluating the name raises
    [NameError] before anything is logged. *)
Definition logger_undefined : exn := NameError "name 'logger' is not defined".

Definition logger_error (msg : string) : M Host unit := raise logger_undefined.

(** [ytdl_download] (lines 144-163).  The handler of the [try] block calls
    [logger.error] before it returns [None]. *)
Definition ytdl_download_file (env : HostEnv) (url : string) : M Host (option string) :=
  try_except
    (match ytdl env url with
     | Some (filename, content) =>
         modify (set_files (insert filename content)) ;;;
         ret (Some filename)
     | None => raise (DownloadError "download failed")
     end)
    (fun e => logger_error ("Download Error: " +:+ exn_message e) ;;; ret None).

Definition host_send (env : HostEnv) (method : send_method) (chat : Z)
  (file_path caption : string) : M Host unit :=
  host_emit (HSend method chat file_path caption) ;;;
  if send_ok env file_path then ret tt else raise (TransportError "send failed").

(** [os.path.getsize(path)]. *)
Definition getsize (path : string) : M Host Z :=
  present <- gets (fun h => files h !! path) ;;
  match present with
  | Some content => ret (size content)
  | None => raise (OSError ("No such file: " +:+ path))
  end.

(** The caption of a part (line 209). *)
Definition part_caption (url file_path part : string) : string :=
  "📥 Downloaded from " +:+ url +:+ nl +:+
  "💳 Name: " +:+ basename file_path +:+ nl +:+
  "🔗 Part: " +:+ basename part.

(** Lines 205-213: one part after the other is sent and then removed. *)
Definition send_parts (env : HostEnv) (chat : Z) (url file_path : string)
  (split_parts : list string) : M Host unit :=
  for_each split_parts (fun part =>
    host_send env send_document chat part (part_caption url file_path part) ;;;
    remove part).

(** The type chosen from the file extension (lines 232-239). *)
Definition file_type_of_extension (file_extension : string) : string :=
  if String.eqb file_extension ".pdf" then "pdf"
  else if existsb (String.eqb file_extension) [".jpg"; ".jpeg"; ".png"; ".gif"]
  then "image"
  else if existsb (String.eqb file_extension) [".mp3"; ".wav"; ".ogg"] then "audio"
  else if existsb (String.eqb file_extension) [".mp4"; ".mkv"; ".avi"; ".mov"]
  then "video"
  else "document".

(** Lines 218-239. *)
Definition file_type_of (env : HostEnv) (file_path : string) : string :=
  let file_extension := lower (snd (splitext file_path)) in
  match truthy_str (guess_type env file_path) with
  | Some mime_type =>
      if startswith mime_type "image" then "image"
      else if startswith mime_type "audio" then "audio"
      else if startswith mime_type "video" then "video"
      else if String.eqb mime_type "application/pdf" then "pdf"
      else "document"
  | None => file_type_of_extension file_extension
  end.

(** [is_authorized] (lines 24-26). *)
Definition is_authorized (message : Message) : bool := true.

Definition uploading_entry : gmap string string :=
  {[ "status" := "uploading"; "percent" := "0%";
     "upload_speed" := "Calculating..."; "uploaded" := "0B";
     "upload_total" := "?B" ]}.

(** [ytdl_handler] (lines 165-269).  The progress task that edits the
    status message runs beside the handler and is left out.  An exception
    that reaches the handler of the [try] block meets [logger.error] first:
    the reply of line 263 is never sent, and the [finally] block runs before
    the [NameError] leaves the function. *)
Definition ytdl_handler (env : HostEnv) (message : Message) : M Host unit :=
  let chat := chat_id message in
  busy <- gets (fun h => default false (active_tasks h !! chat)) ;;
  if (busy : bool) then
    host_emit (HReply chat "⏳ A download is already in progress. Please wait...")
  else if negb (is_authorized message) then
    host_emit (HReply chat "❌ Authorization failed!")
  else
    let url := strip (String.concat " " (tail (command message))) in
    if negb (nonempty url) then
      host_emit (HReply chat "❌ Please provide a URL to download")
    else
      try_finally
        (try_except
           (modify (set_active_tasks (insert chat true)) ;;;
            host_emit (HReply chat "📥 Starting download...") ;;;
            downloaded <- ytdl_download_file env url ;;
            match truthy_str downloaded with
            | None => host_emit (HEdit chat "❌ Download failed")
            | Some file_path =>
                modify (set_progress_data (insert chat uploading_entry)) ;;;
                file_size <- getsize file_path ;;
                if file_size >? 2 * 1024 ^ 3 then
                  split_parts <- split_file (io_buffer_size env) file_path
                                   DEFAULT_CHUNK_SIZE ;;
                  send_parts env chat url file_path split_parts ;;;
                  remove file_path
                else
                  let caption :=
                    "📥 Downloaded from " +:+ url +:+ nl +:+
                    "💳 Name: " +:+ basename file_path in
                  host_send env (send_methods (file_type_of env file_path)) chat
                    file_path (py_take 1024 caption) ;;;
                  remove file_path
            end)
           (fun e =>
              logger_error ("Error: " +:+ exn_message e) ;;;
              host_emit (HReply chat "❌ Error processing the request")))
        (modify (set_active_tasks (delete chat)) ;;;
         modify (set_progress_data (delete chat))).

(** ** Observations used in the statements *)

(** The value the accumulator [$sum] gives for one counter over the
    documents of one (user, URL) pair. *)
Definition counter_total (w : World) (user_id : Z) (url : string)
  (event_type outcome_ : string) : Z :=
  acc_sum (map (fun d => field d event_type outcome_)
             (List.filter (stat_matches user_id url) (stats w))).

Definition empty_world : World :=
  {| urls := []; stats := []; archives := []; log := [] |}.

(** Tasks that run concurrently: the store serves the next request of any
    of the tasks that still has one, until every task has returned or
    raised.  [schedule ts w w'] says that [w'] is a state the tasks [ts]
    can leave when they start in [w]. *)
Definition finished (t : task) : Prop :=
  match t with
  | Await _ _ => False
  | _ => True
  end.

Inductive schedule : list task -> World -> World -> Prop :=
| schedule_end ts w : Forall finished ts -> schedule ts w w
| schedule_step ts1 r rest ts2 w w' :
    schedule (ts1 ++ rest :: ts2) (set_stats (serve r) w) w' ->
    schedule (ts1 ++ Await r rest :: ts2) w w'.

(** The requests of a task, and how many requests of some tasks address a
    counter. *)
Fixpoint task_requests (t : task) : list stats_request :=
  match t with
  | Await r rest => r :: task_requests rest
  | _ => []
  end.

Definition addresses (user_id : Z) (url : string) (event_type outcome_ : string)
  (r : stats_request) : bool :=
  match r with
  | UpdateOneIncUpsert u l k =>
      bool_decide ((user_id, url, (event_type, outcome_)) = (u, l, k))
  end.

Definition pending (ts : list task) (user_id : Z) (url : string)
  (event_type outcome_ : string) : Z :=
  Z.of_nat (length (List.filter (addresses user_id url event_type outcome_)
                      (flat_map task_requests ts))).

Definition is_send (e : event) : bool :=
  match e with
  | EvSend _ _ _ _ => true
  | _ => false
  end.

(** The state with more events in the log. *)
Definition add_events (evs : list event) (w : World) : World :=
  {| urls := urls w; stats := stats w; archives := archives w; log := log w ++ evs |}.

(** The destination of the download of a resource (line 142 of
    [send_media]), the size of the file the downloaders leave, and whether
    the delivery step returns [True]. *)
Definition file_path_of (env : Env) (r : Resource) : string :=
  path_join (tmpdir env) (basename (r_url r)).

Definition downloaded_size (env : Env) (r : Resource) : option Z :=
  match download env ytdl_download (r_url r) (file_path_of env r) with
  | Some file_size => Some file_size
  | None => download env direct_download (r_url r) (file_path_of env r)
  end.

Definition oversized (env : Env) (r : Resource) : bool :=
  match downloaded_size env r with
  | Some file_size => file_size >? MAX_FILE_SIZE env
  | None => false
  end.

Definition delivered (env : Env) (r : Resource) : bool :=
  match downloaded_size env r with
  | Some file_size =>
      negb (file_size >? MAX_FILE_SIZE env)
      && transport_ok env (send_methods (r_type r)) (file_path_of env r)
  | None => false
  end.

(** The resources a cycle works on: found on the page and accepted by the
    filters. *)
Definition cycle_resources (env : Env) (user_id : Z) (url : string) : list Resource :=
  match http_get env url with
  | Some (_, tags) =>
      List.filter (fun resource => apply_filters env resource user_id)
        (fold_left (scan_tag env url) tags [])
  | None => []
  end.

Definition already_sent (tracked_data : TrackedData) (r : Resource) : bool :=
  existsb (String.eqb (r_hash r)) (default [] (td_sent_hashes tracked_data)).

(** The fields of a target that no cycle writes. *)
Definition fixed_fields (d : TrackedData) :=
  (td_id d, td_user_id d, td_url d, td_name d, td_night_mode d,
   td_content d, td_sent_hashes d).

(** What every step of a cycle respects: the fixed fields of the targets
    stay, the log only grows, by events that satisfy [P], and no counter
    decreases. *)
Definition advances (P : event -> Prop) (w w' : World) : Prop :=
  map fixed_fields (urls w') = map fixed_fields (urls w) /\
  (exists evs, log w' = log w ++ evs /\ Forall P evs) /\
  (forall u url e o, counter_total w u url e o <= counter_total w' u url e o).

Definition keeps {A} (P : event -> Prop) (c : M World A) : Prop :=
  forall w, advances P w (exec c w).

Definition not_a_send (e : event) : Prop := is_send e = false.

(** A file handed to the transport is the download of one of the
    resources [rs], and that download is within the maximum size. *)
Definition sent_within_limit (env : Env) (user_id : Z) (tracked_data : TrackedData)
  (rs : list Resource) (e : event) : Prop :=
  is_send e = true ->
  exists r, In r rs /\ oversized env r = false /\
    e = EvSend (send_methods (r_type r)) user_id (file_path_of env r)
          (py_take 1024 (media_caption r tracked_data)).

(** The events a computation adds to the log when run from [w]. *)
Definition trace {A} (c : M World A) (w : World) : list event :=
  skipn (length (log w)) (log (exec c w)).

Definition is_fetch (e : event) : bool :=
  match e with
  | EvFetch _ => true
  | _ => false
  end.

(** The names [path.part000], [path.part001], ... of [n] parts from
    [part_num] on. *)
Definition part_names (file_path : string) (part_num : Z) (n : nat) : list string :=
  map (fun i => part_path_of file_path (part_num + Z.of_nat i)) (seq 0 n).

(** The state of a part file: what is on disk is a prefix of what was
    written, the rest fits in the buffer, and nothing is on disk exactly
    when everything written so far fits in the buffer. *)
Definition pf_ok (bufsize : Z) (pf : PartFile) : Prop :=
  0 <= pf_disk pf <= size (pf_data pf) /\
  size (pf_data pf) - pf_disk pf <= bufsize /\
  (pf_disk pf = 0 -> size (pf_data pf) <= bufsize) /\
  (0 < pf_disk pf -> bufsize < size (pf_data pf)).

(** The number written after [.part], read back. *)
Definition parse_digits (s : string) : option N :=
  option_map N.of_uint (NilEmpty.uint_of_string s).

(** The parts the transport takes before it raises for the first time. *)
Fixpoint accepted_prefix (ok : string -> bool) (parts : list string) : list string :=
  match parts with
  | [] => []
  | p :: ps => if ok p then p :: accepted_prefix ok ps else []
  end.

(** What a part that is sent and removed leaves in the log. *)
Definition part_events (chat : Z) (url file_path part : string) : list host_event :=
  [HSend send_document chat part (part_caption url file_path part); HRemove part].

(** The state of the process when [split_file] is called by the handler:
    the task is marked active, the start was announced, the download is on
    disk and the progress entry says uploading. *)
Definition at_split (message : Message) (file_path : string) (content : list byte)
  (h : Host) : Host :=
  {| files := <[file_path := content]> (files h);
     active_tasks := <[chat_id message := true]> (active_tasks h);
     progress_data := <[chat_id message := uploading_entry]> (progress_data h);
     hlog := hlog h ++ [HReply (chat_id message) "📥 Starting download..."] |}.

(** An event that moves a file: a download or a send. *)
Definition is_transfer (e : event) : bool :=
  match e with
  | EvDownload _ _ _ | EvSend _ _ _ _ => true
  | _ => false
  end.

(** A download or a send is made for one of the resources [rs], and the
    fingerprint of that resource is not among the stored ones. *)
Definition for_new_resource (env : Env) (user_id : Z) (tracked_data : TrackedData)
  (rs : list Resource) (e : event) : Prop :=
  is_transfer e = true ->
  exists r d, In r rs /\ already_sent tracked_data r = false /\
    (e = EvDownload d (r_url r) (file_path_of env r) \/
     e = EvSend (send_methods (r_type r)) user_id (file_path_of env r)
           (py_take 1024 (media_caption r tracked_data))).

(** A computation leaves a part of the state as it finds it. *)
Definition leaves {S A X} (f : S -> X) (c : M S A) : Prop :=
  forall s, f (exec c s) = f s.

(** The text a cycle works on: the page, or the empty text when the
    request failed. *)
Definition fetched_text (env : Env) (url : string) : string :=
  match http_get env url with
  | Some (content, _) => content
  | None => ""
  end.

(** The order of [get_archives]. *)
Definition newer_or_same (a b : ArchiveEntry) : Prop := ar_timestamp b <= ar_timestamp a.

(** The state of the tracker of [b.py] after some events: the JSON files
    as they were, the text files and the events given. *)
Definition bot_step (files : gmap string string) (evs : list bot_event) (b : Bot) : Bot :=
  {| user_data_json := user_data_json b; sudo_users_json := sudo_users_json b;
     channels_json := channels_json b; text_files := files;
     outbox := outbox b ++ evs |}.

(** The page of a target is there and its fingerprint is not the stored
    one. *)
Definition page_changed (env : BotEnv) (url_info : UrlInfo) : Prop :=
  exists content,
    fetch_url_content env (ui_url url_info) = Some content /\
    nonempty content = true /\
    bot_sha256 env content <> ui_hash url_info.

(** How a pass may leave an entry: as it was, or with the fingerprint and
    the documents of the page, and then the page lists a document that was
    not stored. *)
Definition entry_after (env : BotEnv) (before after : UrlInfo) : Prop :=
  after = before \/
  exists content documents,
    fetch_url_content env (ui_url before) = Some content /\
    nonempty content = true /\
    bot_sha256 env content <> ui_hash before /\
    bot_extract_documents env content (ui_url before) = Ret documents /\
    (exists doc, In doc documents /\
                 document_in doc (ui_documents before) = false) /\
    after = {| ui_url := ui_url before; ui_hash := bot_sha256 env content;
               ui_documents := documents |}.

(** The page at [url] is there and the extraction of its documents raises
    [e]: one of its links carries a reference that [urljoin] refuses. *)
Definition page_raises (env : BotEnv) (url : string) (e : exn) : Prop :=
  exists content,
    fetch_url_content env url = Some content /\
    nonempty content = true /\
    bot_extract_documents env content url = Raise e.

(** No page of a tracked target makes the extraction raise. *)
Definition pages_readable (env : BotEnv) (user_data : list (string * list UrlInfo))
  : Prop :=
  forall user_id tracked entry e,
    In (user_id, tracked) user_data -> In entry tracked ->
    ~ page_raises env (ui_url entry) e.

(** What a pass may send for an entry of [user_id]. *)
Definition change_event (env : BotEnv) (user_id : string) (url_info : UrlInfo)
  (e : bot_event) : Prop :=
  page_changed env url_info /\
  match e with
  | SendMessage chat text =>
      chat = user_id /\ text = "🚨 Website changed! " +:+ ui_url url_info
  | SendDocument chat _ _ => chat = user_id
  | RemoveFile _ => True
  | Reply _ => False
  end.

Definition announcement (user_id : string) (url_info : UrlInfo) : bot_event :=
  SendMessage user_id ("🚨 Website changed! " +:+ ui_url url_info).

(** The first guard of the commands, the URL a command names and the
    entries stored for a user. *)
Definition sender_authorized (b : Bot) (message : BotMessage) : bool :=
  py_eq (from_user_id message) OWNER_ID
  || py_in (from_user_id message) (load_sudo_users b).

Definition requested_url (message : BotMessage) : string :=
  strip (String.concat " " (tail (bm_command message))).

Definition tracked_by (user_id : string) (user_data : list (string * list UrlInfo))
  : list UrlInfo :=
  default [] (dict_get user_id user_data).

(** No user occurs twice in [user_data.json] and no URL twice in the list
    of a user. *)
Definition urls_unique (user_data : list (string * list UrlInfo)) : Prop :=
  List.NoDup (map fst user_data) /\
  Forall (fun entry => List.NoDup (map ui_url (snd entry))) user_data.

(** What [get_webpage_content] puts in a resource: the fingerprint of its
    URL, and the first type of the table that lists the lower-cased
    extension of the URL. *)
Definition classified (env : Env) (r : Resource) : Prop :=
  r_hash r = md5_hexdigest env (r_url r) /\
  classify (lower (snd (splitext (r_url r)))) (SUPPORTED_EXTENSIONS env)
    = Some (r_type r) /\
  exists extensions,
    In (r_type r, extensions) (SUPPORTED_EXTENSIONS env) /\
    In (lower (snd (splitext (r_url r)))) extensions.

(** The checks counted for a target, whatever their outcome. *)
Definition checks_recorded (w : World) (user_id : Z) (url : string) : Z :=
  counter_total w user_id url "checks" "success"
  + counter_total w user_id url "checks" "failure".

(** The resources of a cycle that the guard on the stored fingerprints
    lets through and whose delivery has the given outcome. *)
Definition attempted (env : Env) (user_id : Z) (url : string)
  (tracked_data : TrackedData) (outcome_ : bool) : list Resource :=
  List.filter (fun r => negb (already_sent tracked_data r)
                        && Bool.eqb (delivered env r) outcome_)
    (cycle_resources env user_id url).

(** ** Concrete inputs

    The runs below need values for what the environment provides.  The
    digests are stand-ins that tag their argument (so distinct texts have
    distinct digests), [urljoin] appends the reference to the base and
    [unquote] is the identity; the constants are small. *)

Definition sample_env (hour : Z) (page : option (string * list Tag))
  (file_size : option Z) (accepts : bool) : Env :=
  {| now_hour := hour;
     now_time := 1000;
     http_get := fun _ => page;
     urljoin := fun base href => base +:+ href;
     unquote := fun s => s;
     md5_hexdigest := fun s => "md5:" +:+ s;
     sha256_hexdigest := fun s => "sha256:" +:+ s;
     unified_diff := fun old new => ["--- Previous"; "+++ Current"; "-" +:+ old; "+" +:+ new];
     SUPPORTED_EXTENSIONS :=
       [("pdf", [".pdf"]); ("image", [".jpg"; ".png"]);
        ("audio", [".mp3"]); ("video", [".mp4"])];
     MAX_MESSAGE_LENGTH := 4096;
     MAX_FILE_SIZE := 50;
     apply_filters := fun _ _ => true;
     download := fun d _ _ =>
       match d with ytdl_download => file_size | direct_download => None end;
     tmpdir := "/tmp/job";
     transport_ok := fun _ _ => true;
     store_accepts_dollar_fields := accepts |}.

Definition url_a : string := "http://a/".

(** A store with the statistics of two targets: user 8 with one successful
    check, user 7 with two. *)
Definition recorded_world : World :=
  {| urls := [];
     stats := [ {| sd_user_id := 8; sd_url := "http://b/";
                   sd_stats := {[ ("checks", "success") := 1 ]} |};
                {| sd_user_id := 7; sd_url := "http://a/";
                   sd_stats := {[ ("checks", "success") := 2 ]} |} ];
     archives := []; log := [] |}.

Definition anchor (href : string) : Tag :=
  {| tag_name := "a"; tag_href := Some href; tag_src := None |}.

(** A target that was never checked, and one checked once on the text
    [v1]. *)
Definition fresh_target (night : bool) : TrackedData :=
  {| td_id := 1; td_user_id := 7; td_url := url_a; td_name := None;
     td_night_mode := Some night; td_content_hash := None; td_content := None;
     td_sent_hashes := None; td_last_checked := None; td_dollar_push := None |}.

Definition checked_target : TrackedData :=
  {| td_id := 1; td_user_id := 7; td_url := url_a; td_name := None;
     td_night_mode := Some false; td_content_hash := Some "sha256:v1";
     td_content := None; td_sent_hashes := None; td_last_checked := Some 900;
     td_dollar_push := None |}.

Definition world_of (td : TrackedData) : World :=
  {| urls := [td]; stats := []; archives := []; log := [] |}.

(** A page with one link to a file larger than the maximum of
    [sample_env]. *)
Definition big_page : string * list Tag := ("v1", [anchor "big.pdf"]).
Definition big_resource : Resource :=
  {| r_url := "http://a/big.pdf"; r_type := "pdf"; r_hash := "md5:http://a/big.pdf" |}.






Definition idle_host : Host :=
  {| files := ∅; active_tasks := ∅; progress_data := ∅; hlog := [] |}.

(** A target whose file [f.pdf] was delivered before, with the fingerprint
    in the stored list. *)
Definition delivered_target : TrackedData :=
  {| td_id := 1; td_user_id := 7; td_url := url_a; td_name := None;
     td_night_mode := Some false; td_content_hash := Some "sha256:v1";
     td_content := None; td_sent_hashes := Some ["md5:http://a/f.pdf"];
     td_last_checked := Some 900; td_dollar_push := None |}.

(** A download of three bytes for one URL and none for the others, a
    transport that takes every file, and three commands in chat 7: for the
    clip, for a URL that cannot be downloaded and without a URL. *)
Definition accepting_transport : HostEnv :=
  {| ytdl := fun url =>
       if String.eqb url "http://a/clip" then Some ("clip.mp4", [x01; x02; x03])
       else None;
     send_ok := fun _ => true;
     guess_type := fun _ => Some "video/mp4";
     io_buffer_size := 8192 |}.

Definition refusing_clip_transport : HostEnv :=
  {| ytdl := ytdl accepting_transport;
     send_ok := fun _ => false;
     guess_type := fun _ => Some "video/mp4";
     io_buffer_size := 8192 |}.

Definition clip_message : Message :=
  {| chat_id := 7; command := ["/dl"; "http://a/clip"] |}.

Definition missing_message : Message :=
  {| chat_id := 7; command := ["/dl"; "http://a/none"] |}.

Definition bare_message : Message := {| chat_id := 7; command := ["/dl"] |}.

Definition busy_host : Host :=
  {| files := ∅; active_tasks := {[ 7 := true ]}; progress_data := ∅; hlog := [] |}.

(** A process with a download running for chat 8 and none for chat 7. *)
Definition busy_elsewhere : Host :=
  {| files := ∅; active_tasks := {[ 8 := true ]}; progress_data := ∅; hlog := [] |}.

(** A file of five bytes on the disk of an idle process. *)
Definition host_with_file : Host :=
  {| files := {[ "video.mp4" := [x01; x02; x03; x04; x05] ]};
     active_tasks := ∅; progress_data := ∅; hlog := [] |}.

(** The tracker of [b.py]: every page has the text given and one link to
    [a.pdf]; user 7 is a sudo user and tracks [http://a/], stored with the
    text [v1] and the document of the link. *)
Definition sample_bot_env (page : option string) : BotEnv :=
  {| requests_get := fun _ => page;
     bot_sha256 := fun s => "sha256:" +:+ s;
     bot_find_all_links := fun _ => [ {| link_href := "a.pdf"; link_text := "A" |} ];
     bot_requote_uri := fun s => s;
     bot_urljoin := fun base href =>
       if String.eqb href "http://[" then Raise (ValueError "Invalid IPv6 URL")
       else Ret (base +:+ href);
     netloc := fun _ => "a";
     timestamp := "20240101_000000";
     send_message_ok := fun _ _ => true;
     send_document_ok := fun _ _ => true |}.

(** The same tracker when every page has a second link, with the reference
    [http://[] that [urljoin] refuses. *)
Definition broken_bot_env : BotEnv :=
  {| requests_get := fun _ => Some "v2";
     bot_sha256 := fun s => "sha256:" +:+ s;
     bot_find_all_links := fun _ =>
       [ {| link_href := "a.pdf"; link_text := "A" |};
         {| link_href := "http://["; link_text := "B" |} ];
     bot_requote_uri := fun s => s;
     bot_urljoin := bot_urljoin (sample_bot_env None);
     netloc := fun _ => "a";
     timestamp := "20240101_000000";
     send_message_ok := fun _ _ => true;
     send_document_ok := fun _ _ => true |}.

Definition stored_entry : UrlInfo :=
  {| ui_url := "http://a/"; ui_hash := "sha256:v1";
     ui_documents := [ {| doc_name := "A"; doc_url := "http://a/a.pdf" |} ] |}.

Definition sample_bot : Bot :=
  {| user_data_json := Some [("7", [stored_entry])];
     sudo_users_json := Some [PyInt 7];
     channels_json := None;
     text_files := ∅;
     outbox := [] |}.

Definition track_message : BotMessage :=
  {| from_user_id := PyInt 7; chat_type := "private"; bm_chat_id := PyInt 7;
     bm_command := ["/track"; "http://b/"] |}.

Definition documents_message : BotMessage :=
  {| from_user_id := PyInt 7; chat_type := "private"; bm_chat_id := PyInt 7;
     bm_command := ["/documents"; "http://a/"] |}.

(* ================================================================== *)
(** * Lemmas and theorems *)
(* ================================================================== *)

(** ** Statistics recording *)

Lemma stat_matches_true user_id url d :
  stat_matches user_id url d = true <-> sd_user_id d = user_id /\ sd_url d = url.
Proof.
  unfold stat_matches. rewrite andb_true_iff, Z.eqb_eq, String.eqb_eq. tauto.
Qed.

Lemma field_inc_field k m e o :
  default 0 (inc_field k m !! (e, o)) =
  default 0 (m !! (e, o)) + (if decide ((e, o) = k) then 1 else 0).
Proof.
  unfold inc_field. case_decide as Hk.
  - subst k. rewrite lookup_insert_eq. reflexivity.
  - rewrite lookup_insert_ne by congruence. lia.
Qed.

Lemma acc_sum_cons o os : acc_sum (o :: os) = default 0 o + acc_sum os.
Proof. reflexivity. Qed.

(** The sum seen for any counter after the upsert-increment: one more for
    the counter addressed, the same for every other one. *)
Lemma update_one_inc_total user_id url k docs u' url' e' o' :
  acc_sum (map (fun d => field d e' o')
             (List.filter (stat_matches u' url') (update_one_inc user_id url k docs))) =
  acc_sum (map (fun d => field d e' o') (List.filter (stat_matches u' url') docs))
  + (if decide ((u', url', (e', o')) = (user_id, url, k)) then 1 else 0).
Proof.
  induction docs as [|d ds IH]; cbn [update_one_inc].
  - cbn [List.filter map]. unfold stat_matches at 1; cbn [sd_user_id sd_url].
    destruct (Z.eqb_spec user_id u') as [Hu|Hu];
      destruct (String.eqb_spec url url') as [Hl|Hl]; cbn [andb map];
      try (rewrite decide_False by congruence; reflexivity).
    subst. rewrite acc_sum_cons. unfold field; cbn [sd_stats].
    rewrite field_inc_field, lookup_empty. cbn.
    destruct (decide ((e', o') = k)) as [->|Hk].
    + rewrite decide_True by reflexivity. reflexivity.
    + rewrite decide_False by congruence. reflexivity.
  - destruct (stat_matches user_id url d) eqn:Hd.
    + apply stat_matches_true in Hd as [Hdu Hdl].
      cbn [List.filter].
      match goal with
      | |- context [stat_matches u' url' (Build_StatDoc ?a ?b ?c)] =>
          change (stat_matches u' url' (Build_StatDoc a b c))
            with (stat_matches u' url' d)
      end.
      destruct (stat_matches u' url' d) eqn:Hm.
      * apply stat_matches_true in Hm as [Hmu Hml].
        cbn [map]. rewrite !acc_sum_cons. unfold field at 1 3; cbn [sd_stats].
        rewrite field_inc_field.
        destruct (decide ((e', o') = k)) as [Hk|Hk].
        -- rewrite decide_True by congruence. lia.
        -- rewrite decide_False by congruence. lia.
      * rewrite decide_False; [lia|].
        intros Heq. inversion Heq; subst.
        assert (stat_matches (sd_user_id d) (sd_url d) d = true)
          by (apply stat_matches_true; auto).
        congruence.
    + cbn [List.filter]. destruct (stat_matches u' url' d); cbn [map].
      * rewrite !acc_sum_cons, IH. lia.
      * apply IH.
Qed.

Lemma valid_events_cases event_type :
  event_type ∈ valid_events <->
  event_type = "downloads" \/ event_type = "checks" \/ event_type = "content_changes".
Proof.
  unfold valid_events. rewrite !elem_of_union, !elem_of_singleton. tauto.
Qed.

Lemma track_statistics_valid event_type user_id url success w :
  event_type ∈ valid_events ->
  track_statistics event_type user_id url success w =
    (Ret tt, set_stats (update_one_inc user_id url (event_type, outcome_name success)) w).
Proof.
  intros Hev. unfold track_statistics.
  rewrite bool_decide_eq_true_2 by exact Hev. reflexivity.
Qed.

Lemma counter_total_recorded user_id url k w u' url' e' o' :
  counter_total (set_stats (update_one_inc user_id url k) w) u' url' e' o' =
  counter_total w u' url' e' o'
  + (if decide ((u', url', (e', o')) = (user_id, url, k)) then 1 else 0).
Proof. unfold counter_total; cbn. apply update_one_inc_total. Qed.

(** The document-level effect of the upsert-increment when a document
    matches: the first match gets the field incremented (created with the
    value one when it was missing), and nothing is inserted. *)
Lemma update_one_inc_match user_id url k before d after :
  Forall (fun d' => stat_matches user_id url d' = false) before ->
  stat_matches user_id url d = true ->
  update_one_inc user_id url k (before ++ d :: after) =
    before ++ {| sd_user_id := sd_user_id d; sd_url := sd_url d;
                 sd_stats := <[k := default 0 (sd_stats d !! k) + 1]> (sd_stats d) |}
           :: after.
Proof.
  intros Hbefore Hd. induction Hbefore as [|x l Hx _ IH]; cbn [app update_one_inc].
  - rewrite Hd. reflexivity.
  - rewrite Hx, IH. reflexivity.
Qed.

(** Without a match one document is inserted, with the one field. *)
Lemma update_one_inc_no_match user_id url k docs :
  Forall (fun d' => stat_matches user_id url d' = false) docs ->
  update_one_inc user_id url k docs =
    docs ++ [ {| sd_user_id := user_id; sd_url := url; sd_stats := {[ k := 1 ]} |} ].
Proof.
  induction 1 as [|x l Hx _ IH]; cbn [app update_one_inc].
  - unfold inc_field. rewrite lookup_empty, insert_empty. reflexivity.
  - rewrite Hx, IH. reflexivity.
Qed.

Lemma pending_finished ts u url e o : Forall finished ts -> pending ts u url e o = 0.
Proof.
  intros Hfin. unfold pending.
  replace (flat_map task_requests ts) with (@nil stats_request); [reflexivity|].
  induction Hfin as [|t l Ht _ IH]; [reflexivity|].
  cbn [flat_map]. rewrite <- IH. destruct t; [reflexivity|reflexivity|destruct Ht].
Qed.

Lemma pending_app ts1 ts2 u url e o :
  pending (ts1 ++ ts2) u url e o = pending ts1 u url e o + pending ts2 u url e o.
Proof.
  unfold pending. rewrite flat_map_app, List.filter_app, length_app. lia.
Qed.

Lemma pending_await r rest ts u url e o :
  pending (Await r rest :: ts) u url e o =
  (if addresses u url e o r then 1 else 0) + pending (rest :: ts) u url e o.
Proof.
  unfold pending. cbn [flat_map task_requests app List.filter].
  destruct (addresses u url e o r); cbn [length]; lia.
Qed.

(** Whatever the order in which the store serves the requests of some
    tasks, every counter ends with the increments of all of them. *)
Lemma schedule_counts ts w w' :
  schedule ts w w' ->
  forall u url e o,
    counter_total w' u url e o = counter_total w u url e o + pending ts u url e o.
Proof.
  induction 1 as [ts w Hfin|ts1 r rest ts2 w w' _ IH]; intros u url e o.
  - rewrite pending_finished by exact Hfin. lia.
  - rewrite IH. rewrite !pending_app, pending_await.
    destruct r as [u0 l0 k0]. cbn [addresses].
    change (set_stats (serve (UpdateOneIncUpsert u0 l0 k0)) w)
      with (set_stats (update_one_inc u0 l0 k0) w).
    rewrite counter_total_recorded.
    destruct (decide ((u, url, (e, o)) = (u0, l0, k0))) as [Heq|Hne].
    + rewrite bool_decide_eq_true_2 by exact Heq. lia.
    + rewrite bool_decide_eq_false_2 by exact Hne. lia.
Qed.

(** C7: recording an event of the closed set adds one to exactly the
    counter addressed.  In the collection, the first document of the user
    and the URL gets the field of the event kind and the outcome
    incremented by one (created with the value one when it was missing)
    and no document is inserted; only when no document matches, one is
    inserted with that field alone.  The sum for every other user, URL,
    event kind or outcome is unchanged, and nothing else in the state
    changes.  Any other event kind raises the validation error, sends no
    request and leaves the state as it was.  The increment is atomic: the
    function awaits a single request, the [update_one] with [$inc] and
    [upsert], which the store serves in one step and which is fixed by the
    arguments alone (nothing is read before the write); the call that runs
    alone is the schedule of that one request, and whatever other tasks run
    concurrently and in whatever order the store serves their requests, no
    increment is lost or counted twice. *)
Theorem track_statistics_closed_set
  (event_type : string) (user_id : Z) (url : string) (success : bool) (w : World) :
  (forall w0,
     track_statistics event_type user_id url success w0 =
     run_task (track_statistics_task event_type user_id url success) w0)
  /\
  (event_type ∈ valid_events ->
     let k := (event_type, outcome_name success) in
     let w' := exec (track_statistics event_type user_id url success) w in
     result (track_statistics event_type user_id url success) w = Ret tt /\
     (forall before d after,
        stats w = before ++ d :: after ->
        Forall (fun d' => stat_matches user_id url d' = false) before ->
        stat_matches user_id url d = true ->
        stats w' =
          before ++ {| sd_user_id := sd_user_id d; sd_url := sd_url d;
                       sd_stats := <[k := default 0 (sd_stats d !! k) + 1]> (sd_stats d) |}
                 :: after) /\
     (Forall (fun d' => stat_matches user_id url d' = false) (stats w) ->
        stats w' =
          stats w ++ [ {| sd_user_id := user_id; sd_url := url; sd_stats := {[ k := 1 ]} |} ]) /\
     counter_total w' user_id url event_type (outcome_name success) =
       counter_total w user_id url event_type (outcome_name success) + 1 /\
     (forall u' url' e' o',
        (u', url', (e', o')) <> (user_id, url, (event_type, outcome_name success)) ->
        counter_total w' u' url' e' o' = counter_total w u' url' e' o') /\
     urls w' = urls w /\ archives w' = archives w /\ log w' = log w /\
     track_statistics_task event_type user_id url success =
       Await (UpdateOneIncUpsert user_id url k) Return /\
     schedule [track_statistics_task event_type user_id url success] w w' /\
     (forall others1 others2 w2,
        schedule (others1 ++ track_statistics_task event_type user_id url success
                          :: others2) w w2 ->
        forall u' url' e' o',
          counter_total w2 u' url' e' o' =
          counter_total w u' url' e' o' + pending (others1 ++ others2) u' url' e' o'
          + (if decide ((u', url', (e', o')) = (user_id, url, k)) then 1 else 0)))
  /\
  (event_type ∉ valid_events ->
     track_statistics event_type user_id url success w =
       (Raise (ValueError ("Invalid event type: " +:+ event_type)), w) /\
     track_statistics_task event_type user_id url success =
       Raises (ValueError ("Invalid event type: " +:+ event_type))).
Proof.
  split; [|split]; [|intros Hev|intros Hev].
  - intros w0. unfold track_statistics, track_statistics_task.
    destruct (bool_decide (event_type ∈ valid_events)); reflexivity.
  - assert (Htask : track_statistics_task event_type user_id url success =
                    Await (UpdateOneIncUpsert user_id url
                             (event_type, outcome_name success)) Return).
    { unfold track_statistics_task. rewrite bool_decide_eq_true_2 by exact Hev.
      reflexivity. }
    cbv zeta. unfold exec, result.
    rewrite (track_statistics_valid event_type user_id url success w Hev).
    cbn [fst snd stats urls archives log set_stats].
    split; [reflexivity|]. split.
    { intros before d after Hstats Hbefore Hd. rewrite Hstats.
      apply update_one_inc_match; assumption. }
    split; [apply update_one_inc_no_match|].
    split.
    { rewrite counter_total_recorded, decide_True by reflexivity. reflexivity. }
    split.
    { intros u' url' e' o' Hne.
      rewrite counter_total_recorded, decide_False by exact Hne. lia. }
    split; [reflexivity|]. split; [reflexivity|]. split; [reflexivity|].
    split; [exact Htask|].
    split.
    { rewrite Htask.
      apply (schedule_step [] _ Return []). apply schedule_end.
      repeat constructor. }
    intros others1 others2 w2 Hsched u' url' e' o'.
    rewrite (schedule_counts _ _ _ Hsched), Htask.
    rewrite !pending_app, pending_await. cbn [addresses].
    rewrite (pending_app [Return] others2).
    replace (pending [Return] u' url' e' o') with 0 by reflexivity.
    destruct (decide ((u', url', (e', o')) =
                      (user_id, url, (event_type, outcome_name success)))) as [Heq|Hne].
    + rewrite bool_decide_eq_true_2 by exact Heq. lia.
    + rewrite bool_decide_eq_false_2 by exact Hne. lia.
  - unfold track_statistics, track_statistics_task.
    rewrite bool_decide_eq_false_2 by exact Hev. split; reflexivity.
Qed.

Lemma track_statistics_closed_set_witness :
  (("checks" ∈ valid_events) /\
   stats (exec (track_statistics "checks" 7 "http://a/" true) recorded_world) =
     [ {| sd_user_id := 8; sd_url := "http://b/";
          sd_stats := {[ ("checks", "success") := 1 ]} |};
       {| sd_user_id := 7; sd_url := "http://a/";
          sd_stats := <[ ("checks", "success") := 3 ]> {[ ("checks", "success") := 2 ]} |} ] /\
   stats (exec (track_statistics "checks" 7 "http://a/" false) empty_world) =
     [ {| sd_user_id := 7; sd_url := "http://a/";
          sd_stats := {[ ("checks", "failure") := 1 ]} |} ]) /\
  (("views" ∉ valid_events) /\
   track_statistics "views" 7 "http://a/" true recorded_world =
     (Raise (ValueError "Invalid event type: views"), recorded_world)).
Proof.
  assert (H1 : "checks" ∈ valid_events) by (apply valid_events_cases; auto).
  assert (H2 : "views" ∉ valid_events)
    by (rewrite valid_events_cases; intros [H|[H|H]]; discriminate H).
  split; (split; [assumption|]).
  - split.
    + destruct (proj1 (proj2 (track_statistics_closed_set "checks" 7 "http://a/" true
                                recorded_world)) H1) as (_ & Hmatch & _).
      rewrite (Hmatch [ {| sd_user_id := 8; sd_url := "http://b/";
                           sd_stats := {[ ("checks", "success") := 1 ]} |} ]
                      {| sd_user_id := 7; sd_url := "http://a/";
                         sd_stats := {[ ("checks", "success") := 2 ]} |} []);
        [reflexivity|reflexivity|repeat constructor|reflexivity].
    + destruct (proj1 (proj2 (track_statistics_closed_set "checks" 7 "http://a/" false
                                empty_world)) H1) as (_ & _ & Hnew & _).
      apply Hnew. constructor.
  - exact (proj1 (proj2 (proj2
      (track_statistics_closed_set "views" 7 "http://a/" true recorded_world)) H2)).
Defined.

(** Two recordings of the same counter that run concurrently: in each of
    the two orders in which the store can serve them the counter ends two
    higher. *)
Example concurrent_recordings_are_both_counted (w w' : World) :
  schedule [track_statistics_task "checks" 7 url_a true;
            track_statistics_task "checks" 7 url_a true] w w' ->
  counter_total w' 7 url_a "checks" "success" =
    counter_total w 7 url_a "checks" "success" + 2.
Proof. intros H. rewrite (schedule_counts _ _ _ H). reflexivity. Qed.

(** ** Statistics aggregation *)

Lemma acc_sum_expr_add (docs : list StatDoc) :
  Forall (fun d => is_Some (field d "checks" "success") /\
                   is_Some (field d "checks" "failure")) docs ->
  acc_sum (map (fun d => expr_add (field d "checks" "success")
                                  (field d "checks" "failure")) docs) =
  acc_sum (map (fun d => field d "checks" "success") docs)
  + acc_sum (map (fun d => field d "checks" "failure") docs).
Proof.
  induction 1 as [|d ds [[s Hs] [f Hf]] _ IH]; [reflexivity|].
  cbn [map]. rewrite !acc_sum_cons, IH, Hs, Hf. cbn. lia.
Qed.

(** X14: where every statistics document of the user carries both counters
    of the checks, the summary is the single ratio of the specification: the
    successes over the successes plus the failures, and zero without any
    check.  It is computed from the counters at each call; nothing is
    stored. *)
Lemma uptime_ratio_when_both_counters_exist (user_id : Z) (w : World) (s : Summary) :
  get_statistics user_id w = Some s ->
  Forall (fun d => is_Some (field d "checks" "success") /\
                   is_Some (field d "checks" "failure"))
    (filter (fun d => sd_user_id d = user_id) (stats w)) ->
  let succ := acc_sum (map (fun d => field d "checks" "success")
                         (filter (fun d => sd_user_id d = user_id) (stats w))) in
  let fail := acc_sum (map (fun d => field d "checks" "failure")
                         (filter (fun d => sd_user_id d = user_id) (stats w))) in
  uptime_percentage s =
    if succ + fail =? 0 then 0%Q else (inject_Z succ / inject_Z (succ + fail))%Q.
Proof.
  unfold get_statistics. intros Hs Hall.
  destruct (filter _ (stats w)) as [|d ds] eqn:Hdocs; [discriminate|].
  injection Hs as <-. cbn [project_stage uptime_percentage group_stage
    g_total_checks g_success_checks].
  rewrite (acc_sum_expr_add _ Hall). reflexivity.
Qed.

Lemma uptime_one_when_no_failure (succ : Z) :
  0 < succ ->
  ((if succ + 0 =? 0 then 0 else inject_Z succ / inject_Z (succ + 0)) == 1)%Q.
Proof.
  intros Hpos. rewrite Z.add_0_r.
  destruct (Z.eqb_spec succ 0) as [->|_]; [lia|].
  apply Qmult_inv_r. unfold Qeq, inject_Z; cbn. lia.
Qed.

(** C4: at the failing input.  Three successful checks are recorded for one
    URL and no failed one: the counter of the failures does not exist in
    the document, the sum of the two counters is null and is skipped by the
    accumulator, the total of the checks is zero and the summary reports an
    uptime of 0 where the ratio of the counters is 3/3. *)
Theorem uptime_zero_although_all_checks_succeeded :
  let w := exec (track_statistics "checks" 7 "http://a/" true ;;;
                 track_statistics "checks" 7 "http://a/" true ;;;
                 track_statistics "checks" 7 "http://a/" true) empty_world in
  counter_total w 7 "http://a/" "checks" "success" = 3 /\
  counter_total w 7 "http://a/" "checks" "failure" = 0 /\
  (uptime_percentage <$> get_statistics 7 w) = Some 0%Q.
Proof. vm_compute. repeat split; reflexivity. Qed.

(** A second run of the same defect: a URL with one success and one failure
    and a URL with two successes give an uptime of 3/2. *)
Example uptime_above_one :
  let w := exec (track_statistics "checks" 7 "http://a/" true ;;;
                 track_statistics "checks" 7 "http://a/" false ;;;
                 track_statistics "checks" 7 "http://b/" true ;;;
                 track_statistics "checks" 7 "http://b/" true) empty_world in
  (uptime_percentage <$> get_statistics 7 w) = Some (3 # 2)%Q.
Proof. vm_compute. reflexivity. Qed.

(** With a success and a failure on the same URL the ratio is the one of
    the specification. *)
Example uptime_half :
  let w := exec (track_statistics "checks" 7 "http://a/" true ;;;
                 track_statistics "checks" 7 "http://a/" false) empty_world in
  (uptime_percentage <$> get_statistics 7 w) = Some (1 # 2)%Q.
Proof. vm_compute. reflexivity. Qed.

(** Without any statistics document the aggregation has no result. *)
Example no_statistics_document : get_statistics 7 empty_world = None.
Proof. reflexivity. Qed.

(** ** The check cycle: night mode *)

(** C3: what the consolidated cycle does for a target with night mode set
    at a local hour outside 9..21.  It fetches nothing, sends nothing,
    archives nothing and leaves the target as it is, as the specification
    says; but line 74 records the skipped cycle with [success=False], so
    the counter of the failed checks grows by one.  The cycle of [d5.py]
    (lines 94-100) has the same guard and returns without recording
    anything. *)
Theorem night_mode_skip_is_recorded_as_failed_check
  (env : Env) (user_id : Z) (url : string) (w : World) (tracked_data : TrackedData) :
  find_one user_id url (urls w) = Some tracked_data ->
  td_night_mode tracked_data = Some true ->
  ~ (9 <= now_hour env < 22) ->
  let w' := exec (check_updates env user_id url) w in
  result (check_updates env user_id url) w = Ret tt /\
  log w' = log w /\ urls w' = urls w /\ archives w' = archives w /\
  counter_total w' user_id url "checks" "failure" =
    counter_total w user_id url "checks" "failure" + 1 /\
  (forall u' url' e' o',
     (u', url', (e', o')) <> (user_id, url, ("checks", "failure")) ->
     counter_total w' u' url' e' o' = counter_total w u' url' e' o').
Proof.
  intros Hfind Hnight Hhour.
  assert (Hskip : night_mode_skips env tracked_data = true).
  { unfold night_mode_skips. rewrite Hnight. cbn.
    apply negb_true_iff, andb_false_iff.
    destruct (Z.leb_spec 9 (now_hour env)); [|auto].
    destruct (Z.ltb_spec (now_hour env) 22); [lia|auto]. }
  assert (Hvalid : "checks" ∈ valid_events) by (apply valid_events_cases; auto).
  assert (Hrun : check_updates env user_id url w =
                 (Ret tt, set_stats (update_one_inc user_id url ("checks", "failure")) w)).
  { unfold check_updates, try_except, bind, gets. rewrite Hfind, Hskip.
    rewrite (track_statistics_valid "checks" user_id url false w Hvalid).
    reflexivity. }
  unfold exec, result. rewrite Hrun. cbn [fst snd].
  repeat split.
  - rewrite counter_total_recorded, decide_True by reflexivity. reflexivity.
  - intros u' url' e' o' Hne.
    rewrite counter_total_recorded, decide_False by exact Hne. lia.
Qed.

Lemma night_mode_skip_is_recorded_as_failed_check_witness :
  counter_total
    (exec (check_updates (sample_env 3 None None true) 7 url_a)
       (world_of (fresh_target true)))
    7 url_a "checks" "failure" = 0 + 1.
Proof.
  refine (proj1 (proj2 (proj2 (proj2 (proj2
    (night_mode_skip_is_recorded_as_failed_check
       (sample_env 3 None None true) 7 url_a (world_of (fresh_target true))
       (fresh_target true) _ _ _)))))).
  - reflexivity.
  - reflexivity.
  - cbn. lia.
Defined.

(** C3, at the failing input: at three o'clock at night the skipped cycle
    is not kept apart from a failure, the counter of the failed checks goes
    from 0 to 1. *)
Lemma night_mode_skip_not_a_failure_refuted :
  let env := sample_env 3 (Some ("v1", [])) None true in
  let w := world_of (fresh_target true) in
  let w' := exec (check_updates env 7 url_a) w in
  ~ ((forall e, In e (trace (check_updates env 7 url_a) w) -> is_fetch e = false) /\
     counter_total w' 7 url_a "checks" "failure" =
       counter_total w 7 url_a "checks" "failure").
Proof.
  intros env w w' [_ Hsame]. vm_compute in Hsame. discriminate Hsame.
Qed.

(** ** The check cycle: runs on concrete inputs *)

(** C1, at the failing input.  A target that was never checked, a page
    with one link to [f.pdf], every download and send succeeding.  The
    cycle is run twice on the unchanged page: the file is handed to the
    transport in the first cycle and again in the second one, and the
    array [sent_hashes] of the target is still missing afterwards.  The
    fingerprint was put under the key [$push] of the operand of [$set]:
    the store that takes the key keeps it as a field of that name, the
    store that refuses it raises.  Both stores are covered. *)
Theorem unchanged_resource_is_delivered_in_every_cycle (accepts : bool) :
  let env := sample_env 12 (Some ("v1", [anchor "f.pdf"])) (Some 10) accepts in
  let w0 := world_of (fresh_target false) in
  let w1 := exec (check_updates env 7 url_a) w0 in
  let w2 := exec (check_updates env 7 url_a) w1 in
  length (List.filter is_send (trace (check_updates env 7 url_a) w0)) = 1%nat /\
  length (List.filter is_send (trace (check_updates env 7 url_a) w1)) = 1%nat /\
  length (List.filter is_send (log w2)) = 2%nat /\
  (td_sent_hashes <$> find_one 7 url_a (urls w2)) = Some None /\
  (td_dollar_push <$> find_one 7 url_a (urls w2)) =
    Some (if accepts then Some ["md5:http://a/f.pdf"] else None).
Proof. destruct accepts; vm_compute; repeat split; reflexivity. Qed.

(** The same link twice on the page is delivered twice within one cycle:
    the test of line 104 reads the list stored before the cycle. *)
Example duplicate_link_is_delivered_twice_in_one_cycle (accepts : bool) :
  let env := sample_env 12 (Some ("v1", [anchor "f.pdf"; anchor "f.pdf"]))
               (Some 10) accepts in
  length (List.filter is_send
            (trace (check_updates env 7 url_a) (world_of (fresh_target false)))) = 2%nat.
Proof. destruct accepts; vm_compute; reflexivity. Qed.

(** C2, at the failing input.  The first check of a target sees the text
    [v1], the next one the text [v2].  Both cycles send the report of an
    initial snapshot and none sends a diff: the cycle never stores the text
    it fetched, so the field [content] is missing at every check. *)
Theorem initial_snapshot_is_reported_at_every_change (accepts : bool) :
  let env1 := sample_env 12 (Some ("v1", [])) None accepts in
  let env2 := sample_env 12 (Some ("v2", [])) None accepts in
  let w0 := world_of (fresh_target false) in
  let w1 := exec (check_updates env1 7 url_a) w0 in
  let w2 := exec (check_updates env2 7 url_a) w1 in
  In (EvMessage 7 "🔍 Initial Content Saved: http://a/")
     (trace (check_updates env1 7 url_a) w0) /\
  In (EvMessage 7 "🔍 Initial Content Saved: http://a/")
     (trace (check_updates env2 7 url_a) w1) /\
  (forall text, In (EvMessage 7 text) (log w2) ->
     startswith text "🔄 Content Updated" = false) /\
  (td_content <$> find_one 7 url_a (urls w2)) = Some None.
Proof.
  destruct accepts; vm_compute; repeat split; auto;
    intros text Hin;
    repeat (destruct Hin as [Hin|Hin]; [inversion Hin; reflexivity|]);
    destruct Hin.
Qed.

(** C5, at the failing input.  The target was checked before and the
    request for the page fails.  [get_webpage_content] turns the failure
    into an empty page: the cycle reports a change to the user, and on the
    store that takes the update it overwrites the stored fingerprint and the
    time of the last check and counts a successful check and no failed
    one. *)
Theorem failed_fetch_is_treated_as_empty_page :
  let w0 := world_of checked_target in
  let env := sample_env 12 None None true in
  let w1 := exec (check_updates env 7 url_a) w0 in
  let env' := sample_env 12 None None false in
  In (EvMessage 7 "🔍 Initial Content Saved: http://a/")
     (trace (check_updates env 7 url_a) w0) /\
  (td_content_hash <$> find_one 7 url_a (urls w0)) = Some (Some "sha256:v1") /\
  (td_content_hash <$> find_one 7 url_a (urls w1)) = Some (Some "sha256:") /\
  (td_last_checked <$> find_one 7 url_a (urls w1)) = Some (Some 1000) /\
  counter_total w1 7 url_a "checks" "success" = 1 /\
  counter_total w1 7 url_a "checks" "failure" = 0 /\
  In (EvMessage 7 "🔍 Initial Content Saved: http://a/")
     (trace (check_updates env' 7 url_a) w0).
Proof. vm_compute. repeat split; auto. Qed.

(** ** The check cycle: what every step respects *)

Lemma advances_refl P w : advances P w w.
Proof.
  split; [reflexivity|]. split; [|intros; reflexivity].
  exists []. split; [symmetry; apply app_nil_r|constructor].
Qed.

Lemma advances_trans P w1 w2 w3 :
  advances P w1 w2 -> advances P w2 w3 -> advances P w1 w3.
Proof.
  intros (Hf1 & (e1 & Hl1 & HP1) & Hc1) (Hf2 & (e2 & Hl2 & HP2) & Hc2).
  split; [congruence|]. split.
  - exists (e1 ++ e2). split; [rewrite Hl2, Hl1, app_assoc; reflexivity|].
    apply Forall_app; auto.
  - intros u url e o. specialize (Hc1 u url e o). specialize (Hc2 u url e o). lia.
Qed.

Lemma advances_weaken (P Q : event -> Prop) w w' :
  (forall e, P e -> Q e) -> advances P w w' -> advances Q w w'.
Proof.
  intros HPQ (Hf & (evs & Hl & HP) & Hc). split; [exact Hf|]. split; [|exact Hc].
  exists evs. split; [exact Hl|]. eapply Forall_impl; [exact HP|exact HPQ].
Qed.

Lemma keeps_ret {A} P (a : A) : keeps P (ret a).
Proof. intros w. apply advances_refl. Qed.

Lemma keeps_raise {A} P (e : exn) : keeps P (@raise World A e).
Proof. intros w. apply advances_refl. Qed.

Lemma keeps_gets {A} P (f : World -> A) : keeps P (gets f).
Proof. intros w. apply advances_refl. Qed.

Lemma keeps_bind {A B} P (c : M World A) (k : A -> M World B) :
  keeps P c -> (forall a, keeps P (k a)) -> keeps P (bind c k).
Proof.
  intros Hc Hk w. specialize (Hc w). unfold exec, bind in *.
  destruct (c w) as [[a|e] w1]; cbn in *; [|exact Hc].
  eapply advances_trans; [exact Hc|apply Hk].
Qed.

Lemma keeps_try_except {A} P (body : M World A) (handler : exn -> M World A) :
  keeps P body -> (forall e, keeps P (handler e)) -> keeps P (try_except body handler).
Proof.
  intros Hb Hh w. specialize (Hb w). unfold exec, try_except in *.
  destruct (body w) as [[a|e] w1]; cbn in *; [exact Hb|].
  eapply advances_trans; [exact Hb|apply Hh].
Qed.

Lemma advances_add_events (P : event -> Prop) evs w :
  Forall P evs -> advances P w (add_events evs w).
Proof.
  intros HP. split; [reflexivity|]. split; [|intros; reflexivity].
  exists evs. split; [reflexivity|exact HP].
Qed.

Lemma keeps_emit (P : event -> Prop) e : P e -> keeps P (emit e).
Proof. intros HP w. apply (advances_add_events P [e]). repeat constructor. exact HP. Qed.

Lemma advances_recorded P user_id url k w :
  advances P w (set_stats (update_one_inc user_id url k) w).
Proof.
  split; [reflexivity|]. split.
  - exists []. split; [symmetry; apply app_nil_r|constructor].
  - intros. rewrite counter_total_recorded. case_decide; lia.
Qed.

Lemma keeps_track_statistics P event_type user_id url success :
  keeps P (track_statistics event_type user_id url success).
Proof.
  intros w. unfold track_statistics.
  destruct (bool_decide (event_type ∈ valid_events)); cbn [negb];
    [apply advances_recorded|apply advances_refl].
Qed.

Lemma keeps_create_archive P env user_id url content :
  keeps P (create_archive env user_id url content).
Proof.
  intros w. split; [reflexivity|]. split; [|intros; reflexivity].
  exists []. split; [symmetry; apply app_nil_r|constructor].
Qed.

Lemma keeps_safe_send_rounds rounds user_id text :
  keeps not_a_send (safe_send_rounds rounds user_id text).
Proof.
  revert text. induction rounds as [|n IH]; intros text; cbn [safe_send_rounds].
  - apply keeps_ret.
  - destruct (nonempty text); [|apply keeps_ret].
    apply keeps_bind; [apply keeps_emit; reflexivity|intros _; apply IH].
Qed.

Lemma fixed_fields_update_first id u docs :
  map fixed_fields (update_first id (apply_set u) docs) = map fixed_fields docs.
Proof.
  induction docs as [|d ds IH]; [reflexivity|]. cbn [update_first].
  destruct (td_id d =? id); cbn [map]; [reflexivity|]. rewrite IH. reflexivity.
Qed.

Lemma keeps_update_one_set P env id u : keeps P (update_one_set env id u).
Proof.
  intros w. unfold update_one_set.
  destruct (store_accepts_dollar_fields env); [|apply advances_refl].
  split; [apply fixed_fields_update_first|]. split; [|intros; reflexivity].
  exists []. split; [symmetry; apply app_nil_r|constructor].
Qed.

Lemma keeps_get_webpage_content env url :
  keeps not_a_send (get_webpage_content env url).
Proof.
  unfold get_webpage_content. apply keeps_bind; [apply keeps_emit; reflexivity|].
  intros _. destruct (http_get env url) as [[content tags]|]; apply keeps_ret.
Qed.

Lemma keeps_detect_changes P env user_id url td content hash :
  keeps P (detect_changes env user_id url td content hash).
Proof.
  unfold detect_changes. destruct (negb _); [|apply keeps_ret].
  apply keeps_bind; [apply keeps_track_statistics|intros _; apply keeps_ret].
Qed.

Lemma keeps_cycle_failed user_id url e :
  keeps not_a_send (cycle_failed user_id url e).
Proof.
  unfold cycle_failed.
  apply keeps_bind; [apply keeps_track_statistics|].
  intros _; apply keeps_emit; reflexivity.
Qed.

Lemma oversized_not_delivered env r : oversized env r = true -> delivered env r = false.
Proof.
  unfold oversized, delivered. destruct (downloaded_size env r); [|reflexivity].
  intros ->. reflexivity.
Qed.

(** One delivery step: it never raises, it returns [delivered], it changes
    the log only; the first downloader is always tried, and a file is
    handed to the transport only if its size is within the maximum. *)
Lemma send_media_run env user_id r td w :
  exists evs,
    send_media env user_id r td w = (Ret (delivered env r), add_events evs w) /\
    In (EvDownload ytdl_download (r_url r) (file_path_of env r)) evs /\
    (forall e, In e evs -> is_send e = true ->
       oversized env r = false /\
       e = EvSend (send_methods (r_type r)) user_id (file_path_of env r)
             (py_take 1024 (media_caption r td))) /\
    (delivered env r = true ->
     In (EvSend (send_methods (r_type r)) user_id (file_path_of env r)
           (py_take 1024 (media_caption r td))) evs).
Proof.
  unfold delivered, oversized, downloaded_size, file_path_of.
  destruct (download env ytdl_download (r_url r) _) as [sz|] eqn:Hy;
    [|destruct (download env direct_download (r_url r) _) as [sz|] eqn:Hd];
    try (destruct (sz >? MAX_FILE_SIZE env) eqn:Hsz;
         [|destruct (transport_ok env (send_methods (r_type r))
                      (path_join (tmpdir env) (basename (r_url r)))) eqn:Ht]);
    (eexists; split;
     [ cbv [send_media try_except bind try_downloaders transport_send emit modify
            ret raise];
       repeat (cbn; rewrite ?Hy, ?Hd, ?Hsz, ?Ht);
       unfold add_events; cbn; rewrite <- ?app_assoc; reflexivity
     | split; [left; reflexivity|]; split;
       [ intros e He Hs; cbn in He;
         repeat (destruct He as [<-|He]; [try discriminate Hs; auto|]);
         destruct He
       | intros Hdel; cbn in Hdel |- *; try discriminate Hdel; auto 6 ] ]).
Qed.

Lemma downloads_valid : "downloads" ∈ valid_events.
Proof. apply valid_events_cases; auto. Qed.

Lemma checks_valid : "checks" ∈ valid_events.
Proof. apply valid_events_cases; auto. Qed.

Lemma bind_run {S A B} (c : M S A) (k : A -> M S B) s a s' :
  c s = (Ret a, s') -> bind c k s = k a s'.
Proof. intros H. unfold bind. rewrite H. reflexivity. Qed.

Lemma sent_within_limit_cons env user_id td r rs e :
  sent_within_limit env user_id td rs e -> sent_within_limit env user_id td (r :: rs) e.
Proof.
  intros H Hs. destruct (H Hs) as (r' & Hin & Hrest). exists r'. split; [right; exact Hin|exact Hrest].
Qed.

(** The loop over the accepted resources: it never raises and it keeps the
    targets; every resource whose fingerprint is not in the stored list is
    downloaded; a delivery that returns [False] adds a failed download;
    only fingerprints of delivered resources are collected; every file
    handed to the transport is within the maximum size. *)
Lemma send_new_resources_run env user_id url td rs :
  forall acc w, exists l evs w',
    send_new_resources env user_id url td rs acc w = (Ret (acc ++ l), w') /\
    advances (sent_within_limit env user_id td rs) w w' /\
    log w' = log w ++ evs /\
    (forall r, In r rs -> already_sent td r = false ->
       In (EvDownload ytdl_download (r_url r) (file_path_of env r)) evs) /\
    (forall r, In r rs -> already_sent td r = false -> delivered env r = false ->
       counter_total w user_id url "downloads" "failure" + 1 <=
       counter_total w' user_id url "downloads" "failure") /\
    (forall h, In h l ->
       exists r, In r rs /\ r_hash r = h /\ delivered env r = true) /\
    (forall r, In r rs -> already_sent td r = false -> delivered env r = true ->
       In (EvSend (send_methods (r_type r)) user_id (file_path_of env r)
             (py_take 1024 (media_caption r td))) evs).
Proof.
  induction rs as [|r rest IH]; intros acc w.
  - exists [], [], w. cbn. rewrite !app_nil_r.
    split; [reflexivity|]. split; [apply advances_refl|].
    split; [reflexivity|].
    split; [intros r []|]. split; [intros r []|]. split; [intros h []|intros r []].
  - cbn [send_new_resources]. fold (already_sent td r).
    destruct (already_sent td r) eqn:Hsent; cbn [negb].
    + destruct (IH acc w) as (l & evs & w' & Hrun & Hadv & Hlog & Hdl & Hfail & Hl & Hsnd).
      exists l, evs, w'. split; [exact Hrun|].
      split; [eapply advances_weaken; [|exact Hadv];
              intros e; apply sent_within_limit_cons|].
      split; [exact Hlog|]. split; [|split; [|split]].
      * intros r' [<-|Hin] Hn; [congruence|auto].
      * intros r' [<-|Hin] Hn Hnd; [congruence|eauto].
      * intros h Hh. destruct (Hl h Hh) as (r' & ? & ? & ?). exists r'. cbn; auto.
      * intros r' [<-|Hin] Hn Hd; [congruence|eauto].
    + destruct (send_media_run env user_id r td w) as (evs0 & Hsm & Hdl0 & Hs0 & Hsnd0).
      rewrite (bind_run _ _ _ _ _ Hsm).
      assert (Hadv0 : advances (sent_within_limit env user_id td (r :: rest)) w
                        (add_events evs0 w)).
      { apply advances_add_events. apply List.Forall_forall. intros e He Hse.
        destruct (Hs0 e He Hse) as [Ho ->]. exists r. cbn; auto. }
      destruct (delivered env r) eqn:Hdel.
      * rewrite (bind_run _ _ _ _ _
          (track_statistics_valid "downloads" user_id url true _ downloads_valid)).
        set (w1 := set_stats _ (add_events evs0 w)).
        destruct (IH (acc ++ [r_hash r]) w1)
          as (l & evs & w' & Hrun & Hadv & Hlog & Hdl & Hfail & Hl & Hsnd).
        assert (Hadv1 : advances (sent_within_limit env user_id td (r :: rest)) w w1).
        { subst w1. eapply advances_trans; [exact Hadv0|apply advances_recorded]. }
        exists (r_hash r :: l), (evs0 ++ evs), w'.
        split; [rewrite Hrun, <- app_assoc; reflexivity|].
        split; [eapply advances_trans; [exact Hadv1|];
                eapply advances_weaken; [|exact Hadv];
                intros e; apply sent_within_limit_cons|].
        split; [rewrite Hlog; cbn; rewrite app_assoc; reflexivity|].
        split; [|split; [|split]].
        -- intros r' [<-|Hin] Hn; apply in_or_app; [left; exact Hdl0|right; auto].
        -- intros r' [<-|Hin] Hn Hnd; [congruence|].
           destruct Hadv1 as (_ & _ & Hmono).
           specialize (Hmono user_id url "downloads" "failure").
           specialize (Hfail r' Hin Hn Hnd). lia.
        -- intros h [<-|Hh]; [exists r; cbn; auto|].
           destruct (Hl h Hh) as (r' & ? & ? & ?). exists r'. cbn; auto.
        -- intros r' [<-|Hin] Hn Hd; apply in_or_app; [left; auto|right; auto].
      * rewrite (bind_run _ _ _ _ _
          (track_statistics_valid "downloads" user_id url false _ downloads_valid)).
        set (w1 := set_stats _ (add_events evs0 w)).
        destruct (IH acc w1)
          as (l & evs & w' & Hrun & Hadv & Hlog & Hdl & Hfail & Hl & Hsnd).
        assert (Hc1 : counter_total w1 user_id url "downloads" "failure" =
                      counter_total w user_id url "downloads" "failure" + 1).
        { subst w1. rewrite counter_total_recorded, decide_True by reflexivity.
          reflexivity. }
        assert (Hadv1 : advances (sent_within_limit env user_id td (r :: rest)) w w1).
        { subst w1. eapply advances_trans; [exact Hadv0|apply advances_recorded]. }
        exists l, (evs0 ++ evs), w'.
        split; [exact Hrun|].
        split; [eapply advances_trans; [exact Hadv1|];
                eapply advances_weaken; [|exact Hadv];
                intros e; apply sent_within_limit_cons|].
        split; [rewrite Hlog; cbn; rewrite app_assoc; reflexivity|].
        split; [|split; [|split]].
        -- intros r' [<-|Hin] Hn; apply in_or_app; [left; exact Hdl0|right; auto].
        -- destruct Hadv as (_ & _ & Hmono).
           specialize (Hmono user_id url "downloads" "failure").
           intros r' [<-|Hin] Hn Hnd; [lia|].
           specialize (Hfail r' Hin Hn Hnd). lia.
        -- intros h Hh. destruct (Hl h Hh) as (r' & ? & ? & ?). exists r'. cbn; auto.
        -- intros r' [<-|Hin] Hn Hd; [congruence|].
           apply in_or_app. right. auto.
Qed.

Lemma not_a_send_within_limit env user_id td rs e :
  not_a_send e -> sent_within_limit env user_id td rs e.
Proof. unfold not_a_send. intros H Hs. congruence. Qed.

Lemma get_webpage_content_run env url w :
  get_webpage_content env url w =
    (Ret match http_get env url with
         | Some (content, tags) => (content, fold_left (scan_tag env url) tags [])
         | None => ("", [])
         end,
     add_events [EvFetch url] w).
Proof.
  unfold get_webpage_content, bind. cbn.
  destruct (http_get env url) as [[content tags]|]; reflexivity.
Qed.

Lemma detect_changes_run env user_id url td content hash w :
  exists detected wd,
    detect_changes env user_id url td content hash w = (Ret detected, wd) /\
    advances not_a_send w wd.
Proof.
  unfold detect_changes. destruct (negb _).
  - eexists _, _. split.
    + erewrite bind_run; [reflexivity|].
      apply track_statistics_valid, valid_events_cases; auto.
    + apply advances_recorded.
  - eexists _, _. split; [reflexivity|apply advances_refl].
Qed.

Lemma keeps_finish_cycle env user_id url td changes_detected text_changes
  current_hash sent_hashes :
  keeps not_a_send
    ((if changes_detected || nonempty_list sent_hashes then
        (if nonempty text_changes
         then safe_send_message user_id text_changes else ret tt) ;;;
        update_one_set env (td_id td)
          {| ud_content_hash := current_hash;
             ud_last_checked := now_time env;
             ud_dollar_push := sent_hashes |}
      else ret tt) ;;;
     track_statistics "checks" user_id url true)%monad.
Proof.
  apply keeps_bind; [|intros _; apply keeps_track_statistics].
  destruct (changes_detected || nonempty_list sent_hashes); [|apply keeps_ret].
  apply keeps_bind; [|intros _; apply keeps_update_one_set].
  destruct (nonempty text_changes); [apply keeps_safe_send_rounds|apply keeps_ret].
Qed.

(** The cycle of a target, cut at its loop: the steps before the loop and
    after it hand nothing to the transport. *)
Lemma run_cycle_run env user_id url td w :
  exists wa wb l,
    advances not_a_send w wa /\
    send_new_resources env user_id url td (cycle_resources env user_id url) [] wa =
      (Ret l, wb) /\
    advances not_a_send wb (exec (run_cycle env user_id url td) w).
Proof.
  unfold exec, run_cycle.
  rewrite (bind_run _ _ _ _ _ (get_webpage_content_run env url w)).
  set (page := match http_get env url with
               | Some (content, tags) => (content, fold_left (scan_tag env url) tags [])
               | None => ("", [])
               end).
  assert (Hres : List.filter (fun resource => apply_filters env resource user_id)
                   (snd page) = cycle_resources env user_id url).
  { unfold cycle_resources, page.
    destruct (http_get env url) as [[content tags]|]; reflexivity. }
  cbv zeta. rewrite Hres.
  erewrite bind_run by reflexivity.
  set (w0 := set_archives _ (add_events [EvFetch url] w)).
  assert (Hadv0 : advances not_a_send w w0).
  { eapply advances_trans; [apply (advances_add_events not_a_send [EvFetch url])|].
    - repeat constructor.
    - apply (keeps_create_archive not_a_send env user_id url (fst page)
               (add_events [EvFetch url] w)). }
  destruct (detect_changes_run env user_id url td (fst page)
              (sha256_hexdigest env (fst page)) w0) as (detected & wd & Hd & Hadvd).
  rewrite (bind_run _ _ _ _ _ Hd).
  destruct (send_new_resources_run env user_id url td
              (cycle_resources env user_id url) [] wd)
    as (l & evs & wb & Hloop & _).
  cbn [app] in Hloop. rewrite (bind_run _ _ _ _ _ Hloop).
  exists wd, wb, l.
  split; [eapply advances_trans; eassumption|]. split; [exact Hloop|].
  apply (keeps_finish_cycle env user_id url td (fst detected) (snd detected)
           (sha256_hexdigest env (fst page)) l wb).
Qed.

Lemma check_updates_found env user_id url td w :
  find_one user_id url (urls w) = Some td ->
  night_mode_skips env td = false ->
  check_updates env user_id url w =
    try_except (run_cycle env user_id url td) (cycle_failed user_id url) w.
Proof.
  intros Hfind Hnight. unfold check_updates, try_except, bind, gets.
  rewrite Hfind, Hnight. reflexivity.
Qed.

Lemma advances_try_except {A} P (body : M World A) handler w :
  (forall e, keeps P (handler e)) ->
  advances P (exec body w) (exec (try_except body handler) w).
Proof.
  intros Hh. unfold exec, try_except.
  destruct (body w) as [[a|e] w1]; cbn; [apply advances_refl|apply Hh].
Qed.

Lemma find_one_fixed_fields user_id url docs docs' td :
  map fixed_fields docs' = map fixed_fields docs ->
  find_one user_id url docs = Some td ->
  exists td', find_one user_id url docs' = Some td' /\
              fixed_fields td' = fixed_fields td.
Proof.
  unfold find_one. revert docs'.
  induction docs as [|d ds IH]; intros [|d' ds'] Hmap Hfind; try discriminate.
  cbn [map] in Hmap.
  assert (Hd : fixed_fields d' = fixed_fields d) by congruence.
  assert (Hds : map fixed_fields ds' = map fixed_fields ds) by congruence.
  clear Hmap.
  assert (Hkey : td_user_id d' = td_user_id d /\ td_url d' = td_url d)
    by (unfold fixed_fields in Hd; split; congruence).
  destruct Hkey as [Hu Hl].
  cbn [find] in *. rewrite Hu, Hl. revert Hfind.
  destruct ((td_user_id d =? user_id) && String.eqb (td_url d) url); intros Hfind.
  - injection Hfind as <-. exists d'. auto.
  - apply IH; assumption.
Qed.

Lemma trace_of_log {A} (c : M World A) w evs :
  log (exec c w) = log w ++ evs -> trace c w = evs.
Proof. intros H. unfold trace. rewrite H. apply drop_app_length. Qed.

(** A cycle keeps the fixed fields of every target, and with them the
    stored fingerprints and the stored text. *)
Lemma keeps_check_updates env user_id url :
  keeps (fun _ => True) (check_updates env user_id url).
Proof.
  intros w. unfold check_updates.
  apply keeps_try_except.
  - apply keeps_bind; [apply keeps_gets|]. intros [td|]; [|apply keeps_ret].
    destruct (night_mode_skips env td); [apply keeps_track_statistics|].
    intros w0. destruct (run_cycle_run env user_id url td w0)
      as (wa & wb & l & Ha & Hloop & Hb).
    destruct (send_new_resources_run env user_id url td
                (cycle_resources env user_id url) [] wa)
      as (l' & evs & wb' & Hloop' & Hadv & _).
    cbn [app] in Hloop'. rewrite Hloop in Hloop'. injection Hloop' as <- <-.
    eapply advances_trans; [eapply advances_weaken; [|exact Ha]; auto|].
    eapply advances_trans; [eapply advances_weaken; [|exact Hadv]; auto|].
    eapply advances_weaken; [|exact Hb]; auto.
  - intros e. intros w0. eapply advances_weaken; [|apply keeps_cycle_failed]. auto.
Qed.

Lemma check_updates_never_writes_sent_hashes env user_id url w :
  map td_sent_hashes (urls (exec (check_updates env user_id url) w)) =
  map td_sent_hashes (urls w).
Proof.
  destruct (keeps_check_updates env user_id url w) as (Hf & _).
  apply (f_equal (map (fun t : _ * _ * _ * _ * _ * _ * _ => snd t))) in Hf.
  rewrite !map_map in Hf. exact Hf.
Qed.

Lemma check_updates_never_writes_content env user_id url w :
  map td_content (urls (exec (check_updates env user_id url) w)) =
  map td_content (urls w).
Proof.
  destruct (keeps_check_updates env user_id url w) as (Hf & _).
  apply (f_equal (map (fun t : _ * _ * _ * _ * _ * _ * _ => snd (fst t)))) in Hf.
  rewrite !map_map in Hf. exact Hf.
Qed.

Lemma night_mode_skips_fixed env td td' :
  fixed_fields td' = fixed_fields td ->
  night_mode_skips env td' = night_mode_skips env td.
Proof.
  intros H. unfold night_mode_skips.
  replace (td_night_mode td') with (td_night_mode td)
    by (unfold fixed_fields in H; congruence).
  reflexivity.
Qed.

Lemma already_sent_fixed td td' r :
  fixed_fields td' = fixed_fields td -> already_sent td' r = already_sent td r.
Proof.
  intros H. unfold already_sent.
  replace (td_sent_hashes td') with (td_sent_hashes td)
    by (unfold fixed_fields in H; congruence).
  reflexivity.
Qed.

(** A cycle of a target that is found and not skipped, around its loop:
    the log of the loop is part of the trace of the cycle, every file
    handed to the transport in the cycle is within the maximum size, and
    the failed downloads of the loop are not lost. *)
Lemma check_updates_run env user_id url td w :
  find_one user_id url (urls w) = Some td ->
  night_mode_skips env td = false ->
  let w' := exec (check_updates env user_id url) w in
  Forall (sent_within_limit env user_id td (cycle_resources env user_id url))
    (trace (check_updates env user_id url) w) /\
  (forall r, In r (cycle_resources env user_id url) -> already_sent td r = false ->
     In (EvDownload ytdl_download (r_url r) (file_path_of env r))
        (trace (check_updates env user_id url) w)) /\
  (forall r, In r (cycle_resources env user_id url) -> already_sent td r = false ->
     delivered env r = false ->
     counter_total w user_id url "downloads" "failure" + 1 <=
     counter_total w' user_id url "downloads" "failure") /\
  (forall r, In r (cycle_resources env user_id url) -> already_sent td r = false ->
     delivered env r = true ->
     In (EvSend (send_methods (r_type r)) user_id (file_path_of env r)
           (py_take 1024 (media_caption r td)))
        (trace (check_updates env user_id url) w)).
Proof.
  intros Hfind Hnight w'. subst w'.
  set (rs := cycle_resources env user_id url).
  pose proof (check_updates_found env user_id url td w Hfind Hnight) as Hcu.
  assert (Hexec : exec (check_updates env user_id url) w =
                  exec (try_except (run_cycle env user_id url td)
                          (cycle_failed user_id url)) w)
    by (unfold exec; rewrite Hcu; reflexivity).
  destruct (run_cycle_run env user_id url td w) as (wa & wb & l & Ha & Hloop & Hb).
  destruct (send_new_resources_run env user_id url td rs [] wa)
    as (l' & evs & wb' & Hloop' & Hadv & Hlog & Hdl & Hfail & _ & Hsnd).
  cbn [app] in Hloop'. fold rs in Hloop. rewrite Hloop in Hloop'.
  injection Hloop' as <- <-.
  pose proof (advances_try_except not_a_send (run_cycle env user_id url td)
                (cycle_failed user_id url) w (keeps_cycle_failed user_id url)) as Hc.
  rewrite <- Hexec in Hc.
  pose proof (advances_trans _ _ _ _ Hb Hc) as Hbc. clear Hb Hc.
  destruct Ha as (_ & (ea & Hla & HPa) & Hca).
  destruct Hbc as (_ & (ec & Hlc & HPc) & Hcc).
  destruct Hadv as (_ & (evs' & Hlog' & HP) & _).
  assert (evs' = evs) by (rewrite Hlog in Hlog'; apply app_inv_head in Hlog'; auto).
  subst evs'.
  assert (Htrace : trace (check_updates env user_id url) w = ea ++ evs ++ ec).
  { apply trace_of_log. rewrite Hlc, Hlog, Hla, <- !app_assoc. reflexivity. }
  rewrite Htrace. split; [|split; [|split]].
  - apply Forall_app. split; [|apply Forall_app; split]; auto;
      eapply Forall_impl; eauto; intros e; apply not_a_send_within_limit.
  - intros r Hin Hns. apply in_or_app. right. apply in_or_app. left. auto.
  - intros r Hin Hns Hnd. specialize (Hfail r Hin Hns Hnd).
    specialize (Hca user_id url "downloads" "failure").
    specialize (Hcc user_id url "downloads" "failure"). lia.
  - intros r Hin Hns Hd. apply in_or_app. right. apply in_or_app. left. auto.
Qed.

(** C6: a resource whose download is larger than the maximum.  The
    delivery step of the resource returns [False] and hands nothing to the
    transport, and every file handed to the transport in the cycle is within
    the maximum; the stored fingerprints of the target are unchanged and the
    fingerprints collected for the update belong to delivered resources
    only; the cycle adds a failed download; and the next cycle that finds
    the resource on the page downloads it again. *)
Theorem oversized_download_is_not_sent_and_is_retried
  (env env' : Env) (user_id : Z) (url : string) (w : World)
  (tracked_data : TrackedData) (r : Resource) :
  find_one user_id url (urls w) = Some tracked_data ->
  night_mode_skips env tracked_data = false ->
  night_mode_skips env' tracked_data = false ->
  In r (cycle_resources env user_id url) ->
  In r (cycle_resources env' user_id url) ->
  already_sent tracked_data r = false ->
  oversized env r = true ->
  let w1 := exec (check_updates env user_id url) w in
  (forall w0, exists evs,
     send_media env user_id r tracked_data w0 = (Ret false, add_events evs w0) /\
     Forall not_a_send evs) /\
  Forall (sent_within_limit env user_id tracked_data (cycle_resources env user_id url))
    (trace (check_updates env user_id url) w) /\
  (exists td1, find_one user_id url (urls w1) = Some td1 /\
               td_sent_hashes td1 = td_sent_hashes tracked_data) /\
  (forall w0 l w0',
     send_new_resources env user_id url tracked_data
       (cycle_resources env user_id url) [] w0 = (Ret l, w0') ->
     forall h, In h l ->
     exists r', In r' (cycle_resources env user_id url) /\ r_hash r' = h /\
                oversized env r' = false) /\
  counter_total w user_id url "downloads" "failure" + 1 <=
    counter_total w1 user_id url "downloads" "failure" /\
  In (EvDownload ytdl_download (r_url r) (file_path_of env' r))
     (trace (check_updates env' user_id url) w1).
Proof.
  intros Hfind Hnight Hnight' Hin Hin' Hns Hover w1.
  pose proof (oversized_not_delivered env r Hover) as Hnd.
  destruct (check_updates_run env user_id url tracked_data w Hfind Hnight)
    as (Hlimit & _ & Hfail & _).
  destruct (keeps_check_updates env user_id url w) as (Hfields & _).
  destruct (find_one_fixed_fields user_id url (urls w) (urls w1) tracked_data
              Hfields Hfind) as (td1 & Hfind1 & Hfix).
  split; [|split; [|split; [|split; [|split]]]].
  - intros w0. destruct (send_media_run env user_id r tracked_data w0)
      as (evs & Hrun & _ & Hs & _).
    exists evs. rewrite Hnd in Hrun. split; [exact Hrun|].
    apply List.Forall_forall. intros e He. unfold not_a_send.
    destruct (is_send e) eqn:Hse; [|reflexivity].
    destruct (Hs e He Hse) as [Ho _]. congruence.
  - exact Hlimit.
  - exists td1. split; [exact Hfind1|]. unfold fixed_fields in Hfix. congruence.
  - intros w0 l w0' Hrun h Hh.
    destruct (send_new_resources_run env user_id url tracked_data
                (cycle_resources env user_id url) [] w0)
      as (l' & evs & wb & Hrun' & _ & _ & _ & _ & Hl & _).
    cbn [app] in Hrun'. rewrite Hrun in Hrun'. injection Hrun' as <- <-.
    destruct (Hl h Hh) as (r' & Hr' & Hhash & Hdel). exists r'.
    split; [exact Hr'|]. split; [exact Hhash|].
    destruct (oversized env r') eqn:Ho; [|reflexivity].
    rewrite (oversized_not_delivered env r' Ho) in Hdel. discriminate.
  - exact (Hfail r Hin Hns Hnd).
  - assert (Hnight1 : night_mode_skips env' td1 = false)
      by (rewrite (night_mode_skips_fixed env' _ _ Hfix); exact Hnight').
    assert (Hns1 : already_sent td1 r = false)
      by (rewrite (already_sent_fixed _ _ r Hfix); exact Hns).
    destruct (check_updates_run env' user_id url td1 w1 Hfind1 Hnight1)
      as (_ & Hdl & _ & _).
    apply (Hdl r Hin' Hns1).
Qed.

Lemma oversized_download_is_not_sent_and_is_retried_witness :
  let env := sample_env 12 (Some big_page) (Some 51) true in
  let w := world_of (fresh_target false) in
  let w1 := exec (check_updates env 7 url_a) w in
  counter_total w 7 url_a "downloads" "failure" + 1 <=
    counter_total w1 7 url_a "downloads" "failure" /\
  In (EvDownload ytdl_download "http://a/big.pdf" "/tmp/job/big.pdf")
     (trace (check_updates env 7 url_a) w1).
Proof.
  intros env w w1.
  assert (Hin : In big_resource (cycle_resources env 7 url_a))
    by (left; reflexivity).
  exact (proj2 (proj2 (proj2 (proj2
    (oversized_download_is_not_sent_and_is_retried env env 7 url_a w
       (fresh_target false) big_resource
       eq_refl eq_refl eq_refl Hin Hin eq_refl eq_refl))))).
Defined.

(** ** Resource extraction *)

Lemma scan_tag_from env url acc tag :
  scan_tag env url acc tag = acc ++ scan_tag env url [] tag.
Proof.
  unfold scan_tag. destruct (truthy_str _) as [u|]; [|symmetry; apply app_nil_r].
  destruct (classify _ _); [reflexivity|symmetry; apply app_nil_r].
Qed.

Lemma scan_tags_from env url tags acc :
  fold_left (scan_tag env url) tags acc = acc ++ fold_left (scan_tag env url) tags [].
Proof.
  revert acc. induction tags as [|t ts IH]; intros acc; cbn [fold_left].
  - symmetry. apply app_nil_r.
  - rewrite (IH (scan_tag env url acc t)), (IH (scan_tag env url [] t)).
    rewrite (scan_tag_from env url acc t), app_assoc. reflexivity.
Qed.

(** The scan of [get_webpage_content] works element by element: the
    candidates of two runs of elements are the candidates of the first run
    followed by those of the second.  Nothing is dropped when a URL comes
    again. *)
Lemma scan_tags_app env url tags1 tags2 :
  fold_left (scan_tag env url) (tags1 ++ tags2) [] =
  fold_left (scan_tag env url) tags1 [] ++ fold_left (scan_tag env url) tags2 [].
Proof. rewrite fold_left_app. apply scan_tags_from. Qed.

(** C9, at the failing input: a page with two links to the same file gives
    two candidates with the same absolute URL. *)
Theorem get_webpage_content_keeps_duplicate_urls :
  let env := sample_env 12 (Some ("v1", [anchor "f.pdf"; anchor "f.pdf"])) None true in
  let r := {| r_url := "http://a/f.pdf"; r_type := "pdf";
              r_hash := "md5:http://a/f.pdf" |} in
  result (get_webpage_content env url_a) empty_world = Ret ("v1", [r; r]) /\
  ~ List.NoDup (map r_url [r; r]).
Proof.
  cbv zeta. split; [reflexivity|].
  intros Hnd. inversion Hnd as [|x l Hnotin _]. apply Hnotin. left. reflexivity.
Qed.

Lemma dict_set_keys {V} k (v : V) d :
  map fst (dict_set k v d) =
  if existsb (fun k' => String.eqb k' k) (map fst d)
  then map fst d else map fst d ++ [k].
Proof.
  induction d as [|[k' v'] d IH]; [reflexivity|]. cbn [dict_set map fst existsb].
  destruct (String.eqb k' k) eqn:Hk; cbn [orb map fst]; [reflexivity|].
  rewrite IH. destruct (existsb _ _); reflexivity.
Qed.

Lemma dict_set_NoDup {V} k (v : V) d :
  List.NoDup (map fst d) -> List.NoDup (map fst (dict_set k v d)).
Proof.
  intros Hnd. rewrite dict_set_keys.
  destruct (existsb _ _) eqn:Hex; [exact Hnd|].
  apply List.NoDup_app; [exact Hnd|repeat constructor; intros []|].
  intros k' Hin [<-|[]].
  assert (existsb (fun k'' => String.eqb k'' k) (map fst d) = true); [|congruence].
  apply existsb_exists. exists k. split; [exact Hin|apply String.eqb_refl].
Qed.

Lemma dict_set_In {V} k (v : V) d k' v' :
  List.NoDup (map fst d) ->
  In (k', v') (dict_set k v d) <-> (k' = k /\ v' = v) \/ (k' <> k /\ In (k', v') d).
Proof.
  induction d as [|[k0 v0] d IH]; intros Hnd.
  - cbn. split.
    + intros [Heq|[]]. injection Heq as <- <-. auto.
    + intros [[-> ->]|[_ []]]. auto.
  - apply List.NoDup_cons_iff in Hnd as [Hnotin Hnd]. cbn [dict_set].
    destruct (String.eqb_spec k0 k) as [->|Hne].
    + cbn [In]. split.
      * intros [Heq|Hin]; [injection Heq as <- <-; auto|].
        right. split; [|auto]. intros ->. apply Hnotin.
        apply (in_map fst) in Hin. exact Hin.
      * intros [[-> ->]|[Hne [Heq|Hin]]]; auto. injection Heq as <- <-. congruence.
    + cbn [In]. rewrite (IH Hnd). split.
      * intros [Heq|[[-> ->]|[Hne' Hin]]]; auto.
        injection Heq as <- <-. auto.
      * intros [[-> ->]|[Hne' [Heq|Hin]]]; auto.
Qed.

Lemma last_occurrence_snoc (l : list Document) x doc :
  (exists l1 l2, l ++ [x] = l1 ++ doc :: l2 /\
                 List.Forall (fun d' => doc_url d' <> doc_url doc) l2) <->
  doc = x \/
  (doc_url x <> doc_url doc /\
   exists l1 l2, l = l1 ++ doc :: l2 /\
                 List.Forall (fun d' => doc_url d' <> doc_url doc) l2).
Proof.
  split.
  - intros (l1 & l2 & Heq & Hall).
    destruct l2 as [|z l2] using rev_ind.
    + left. apply app_inj_tail in Heq as [_ ->]. reflexivity.
    + right. clear IHl2. rewrite app_comm_cons, app_assoc in Heq.
      apply app_inj_tail in Heq as [-> <-].
      apply List.Forall_app in Hall as [Hall Hx].
      inversion Hx; subst. split; [assumption|]. exists l1, l2. auto.
  - intros [->|(Hne & l1 & l2 & -> & Hall)].
    + exists l, []. split; [reflexivity|constructor].
    + exists l1, (l2 ++ [x]). split; [rewrite <- app_assoc; reflexivity|].
      apply List.Forall_app. split; [exact Hall|]. repeat constructor. exact Hne.
Qed.

(** The dictionary built from the documents: one entry per URL, holding
    the last document with that URL. *)
Lemma by_url_spec (documents : list Document) :
  List.NoDup (map fst (by_url documents)) /\
  (forall k doc, In (k, doc) (by_url documents) <->
     doc_url doc = k /\
     exists l1 l2, documents = l1 ++ doc :: l2 /\
                   List.Forall (fun d' => doc_url d' <> doc_url doc) l2).
Proof.
  unfold by_url. induction documents as [|x l IH] using rev_ind.
  - split; [constructor|]. intros k doc. cbn. split; [intros []|].
    intros (_ & l1 & l2 & Heq & _). destruct l1; discriminate.
  - destruct IH as [Hnd IH]. rewrite fold_left_app. cbn [fold_left].
    split; [apply dict_set_NoDup, Hnd|].
    intros k doc. rewrite (dict_set_In _ _ _ _ _ Hnd), IH, last_occurrence_snoc.
    split.
    + intros [[-> ->]|(Hne & Hurl & Hlast)]; [auto|].
      split; [exact Hurl|]. right. split; [congruence|exact Hlast].
    + intros (Hurl & [->|(Hne & Hlast)]); [auto|].
      right. split; [congruence|]. auto.
Qed.

Lemma scan_link_cases requote_uri urljoin_ base_url documents link :
  match scan_link requote_uri urljoin_ base_url documents link with
  | Ret documents' =>
      (exists u, urljoin_ base_url (requote_uri (link_href link)) = Ret u) /\
      exists added, documents' = documents ++ added
  | Raise e => urljoin_ base_url (requote_uri (link_href link)) = Raise e
  end.
Proof.
  unfold scan_link. destruct (urljoin_ _ _) as [u|e]; [|reflexivity].
  destruct (existsb _ _).
  - split; [eauto|]. eexists. reflexivity.
  - split; [eauto|]. exists []. rewrite app_nil_r. reflexivity.
Qed.

(** The loop returns exactly when [urljoin] returns for every anchor, and
    it raises what [urljoin] raises for an anchor of the page. *)
Lemma scan_links_cases requote_uri urljoin_ base_url :
  forall links documents,
    match scan_links requote_uri urljoin_ base_url documents links with
    | Ret _ =>
        Forall (fun link =>
                  exists u, urljoin_ base_url (requote_uri (link_href link)) = Ret u) links
    | Raise e =>
        exists link, In link links /\
          urljoin_ base_url (requote_uri (link_href link)) = Raise e
    end.
Proof.
  induction links as [|link rest IH]; intros documents; cbn [scan_links]; [constructor|].
  pose proof (scan_link_cases requote_uri urljoin_ base_url documents link) as Hlink.
  destruct (scan_link _ _ _ _ _) as [documents'|e].
  - destruct Hlink as [Hu _]. specialize (IH documents').
    destruct (scan_links _ _ _ _ _) as [ds|e].
    + constructor; assumption.
    + destruct IH as (l & Hin & Hl). exists l. split; [right; exact Hin|exact Hl].
  - exists link. split; [left; reflexivity|exact Hlink].
Qed.

Lemma extract_documents_raises find_all_links requote_uri urljoin_ html_content base_url e :
  extract_documents find_all_links requote_uri urljoin_ html_content base_url = Raise e ->
  exists link, In link (find_all_links html_content) /\
    urljoin_ base_url (requote_uri (link_href link)) = Raise e.
Proof.
  unfold extract_documents.
  pose proof (scan_links_cases requote_uri urljoin_ base_url
                (find_all_links html_content) []) as Hscan.
  destruct (scan_links _ _ _ _ _) as [documents|e']; [discriminate|].
  intros [= <-]. exact Hscan.
Qed.

(** X18: [extract_documents] of [b.py] returns at most one document per
    absolute URL, and it is the one of the last link with that URL: a
    document is returned exactly when it comes from a link that no later
    link of the page repeats the URL of.  It returns whenever [urljoin]
    returns for every link of the page; otherwise it raises what [urljoin]
    raised for a link. *)
Lemma extract_documents_one_entry_per_url
  (find_all_links : string -> list Link) (requote_uri : string -> string)
  (urljoin_ : string -> string -> outcome string) (html_content base_url : string) :
  match extract_documents find_all_links requote_uri urljoin_ html_content base_url with
  | Ret extracted =>
      Forall (fun link =>
                exists u, urljoin_ base_url (requote_uri (link_href link)) = Ret u)
        (find_all_links html_content) /\
      exists documents,
        scan_links requote_uri urljoin_ base_url [] (find_all_links html_content)
          = Ret documents /\
        List.NoDup (map doc_url extracted) /\
        (forall doc, In doc extracted <->
           exists l1 l2, documents = l1 ++ doc :: l2 /\
                         List.Forall (fun d' => doc_url d' <> doc_url doc) l2)
  | Raise e =>
      exists link, In link (find_all_links html_content) /\
        urljoin_ base_url (requote_uri (link_href link)) = Raise e
  end.
Proof.
  unfold extract_documents.
  pose proof (scan_links_cases requote_uri urljoin_ base_url
                (find_all_links html_content) []) as Hscan.
  destruct (scan_links _ _ _ _ _) as [documents|e]; [|exact Hscan].
  split; [exact Hscan|]. exists documents. split; [reflexivity|].
  unfold dict_values.
  destruct (by_url_spec documents) as [Hnd Hin].
  assert (Hkeys : map doc_url (map snd (by_url documents)) = map fst (by_url documents)).
  { rewrite map_map. apply map_ext_in. intros [k doc] Hk. cbn.
    apply Hin in Hk. tauto. }
  split; [rewrite Hkeys; exact Hnd|].
  intros doc. rewrite in_map_iff. split.
  - intros ([k doc'] & Heq & Hk). cbn in Heq. subst doc'. apply Hin in Hk. tauto.
  - intros Hlast. exists (doc_url doc, doc). split; [reflexivity|]. apply Hin. auto.
Qed.

Example extract_documents_last_link_wins :
  extract_documents
    (fun _ => [ {| link_href := "f.pdf"; link_text := " first " |};
                {| link_href := "g.txt"; link_text := "" |};
                {| link_href := "f.pdf"; link_text := "second" |};
                {| link_href := "page.html"; link_text := "other" |} ])
    (fun s => s) (fun base href => Ret (base +:+ href)) "<html>" url_a
  = Ret [ {| doc_name := "second"; doc_url := "http://a/f.pdf" |};
          {| doc_name := "g"; doc_url := "http://a/g.txt" |} ].
Proof. reflexivity. Qed.

(** A link whose reference [urljoin] refuses ends the extraction, whatever
    the other links are. *)
Example extract_documents_raises_on_a_refused_link :
  bot_extract_documents broken_bot_env "v2" url_a = Raise (ValueError "Invalid IPv6 URL").
Proof. reflexivity. Qed.

(** ** Splitting a file *)

Lemma size_nil {A} : size (@nil A) = 0.
Proof. reflexivity. Qed.

Lemma size_cons {A} (x : A) l : size (x :: l) = 1 + size l.
Proof. unfold size. cbn [length]. lia. Qed.

Lemma size_app {A} (l1 l2 : list A) : size (l1 ++ l2) = size l1 + size l2.
Proof. unfold size. rewrite length_app. lia. Qed.

Lemma size_nonneg {A} (l : list A) : 0 <= size l.
Proof. unfold size. lia. Qed.

Lemma take_z_nonpos {A} k (l : list A) : k <= 0 -> take_z k l = [].
Proof.
  intros Hk. destruct l as [|x l]; cbn; [reflexivity|].
  destruct (Z.leb_spec k 0); [reflexivity|lia].
Qed.

Lemma drop_z_nonpos {A} k (l : list A) : k <= 0 -> drop_z k l = l.
Proof.
  intros Hk. destruct l as [|x l]; cbn; [reflexivity|].
  destruct (Z.leb_spec k 0); [reflexivity|lia].
Qed.

Lemma take_drop_z {A} k (l : list A) : take_z k l ++ drop_z k l = l.
Proof.
  revert k. induction l as [|x l IH]; intros k; cbn; [reflexivity|].
  destruct (k <=? 0); cbn; [reflexivity|]. rewrite IH. reflexivity.
Qed.

Lemma size_take_z {A} k (l : list A) :
  size (take_z k l) = Z.min (Z.max k 0) (size l).
Proof.
  revert k. induction l as [|x l IH]; intros k; cbn [take_z].
  - rewrite size_nil. lia.
  - destruct (Z.leb_spec k 0); rewrite ?size_nil, !size_cons, ?IH;
      pose proof (size_nonneg l); lia.
Qed.

Lemma take_z_all {A} k (l : list A) : size l <= k -> take_z k l = l.
Proof.
  revert k. induction l as [|x l IH]; intros k Hk; cbn [take_z]; [reflexivity|].
  rewrite size_cons in Hk. pose proof (size_nonneg l).
  destruct (Z.leb_spec k 0); [lia|]. rewrite IH by lia. reflexivity.
Qed.

Lemma drop_z_all {A} k (l : list A) : size l <= k -> drop_z k l = [].
Proof.
  intros Hk. pose proof (take_drop_z k l) as H. rewrite (take_z_all k l Hk) in H.
  apply (app_inv_head l). rewrite H. symmetry. apply app_nil_r.
Qed.

(** Reading [a] bytes and then [b] more is reading [a + b]. *)
Lemma take_z_add {A} a b (l : list A) :
  0 <= a -> 0 <= b ->
  take_z (a + b) l = take_z a l ++ take_z b (drop_z a l).
Proof.
  revert a. induction l as [|x l IH]; intros a Ha Hb; cbn [take_z drop_z].
  - reflexivity.
  - destruct (Z.leb_spec a 0).
    + assert (a = 0) by lia. subst a. cbn [app]. reflexivity.
    + destruct (Z.leb_spec (a + b) 0); [lia|]. cbn [app]. f_equal.
      replace (a + b - 1) with ((a - 1) + b) by lia. apply IH; lia.
Qed.

Lemma drop_z_add {A} a b (l : list A) :
  0 <= a -> 0 <= b ->
  drop_z (a + b) l = drop_z b (drop_z a l).
Proof.
  revert a. induction l as [|x l IH]; intros a Ha Hb; cbn [drop_z].
  - reflexivity.
  - destruct (Z.leb_spec a 0).
    + assert (a = 0) by lia. subst a. reflexivity.
    + destruct (Z.leb_spec (a + b) 0); [lia|].
      replace (a + b - 1) with ((a - 1) + b) by lia. apply IH; lia.
Qed.

(** A read of at most [k] bytes followed by a read up to [r] in total. *)
Lemma take_z_resume {A} k r (l : list A) :
  0 <= k <= r ->
  take_z r l = take_z k l ++ take_z (r - size (take_z k l)) (drop_z k l).
Proof.
  intros Hk. destruct (Z.le_gt_cases k (size l)) as [Hle|Hgt].
  - rewrite size_take_z. replace (Z.min (Z.max k 0) (size l)) with k by lia.
    replace r with (k + (r - k)) at 1 by lia. apply take_z_add; lia.
  - rewrite (take_z_all k l), (take_z_all r l), (drop_z_all k l) by lia.
    destruct (r - size l); cbn; symmetry; apply app_nil_r.
Qed.

Lemma drop_z_resume {A} k r (l : list A) :
  0 <= k <= r ->
  drop_z r l = drop_z (r - size (take_z k l)) (drop_z k l).
Proof.
  intros Hk. destruct (Z.le_gt_cases k (size l)) as [Hle|Hgt].
  - rewrite size_take_z. replace (Z.min (Z.max k 0) (size l)) with k by lia.
    replace r with (k + (r - k)) at 1 by lia. apply drop_z_add; lia.
  - rewrite (drop_z_all r l), (drop_z_all k l) by lia.
    destruct (r - size (take_z k l)); reflexivity.
Qed.

Lemma take_z_nil_inv {A} k (l : list A) : 0 < k -> take_z k l = [] -> l = [].
Proof.
  intros Hk. destruct l as [|x l]; [reflexivity|]. cbn.
  destruct (Z.leb_spec k 0); [lia|discriminate].
Qed.


Lemma pf_write_ok bufsize pf data :
  0 <= bufsize -> pf_ok bufsize pf ->
  pf_ok bufsize (pf_write bufsize pf data) /\
  pf_data (pf_write bufsize pf data) = pf_data pf ++ data.
Proof.
  intros Hb (Hd & Hbuf & Hz & Hp). unfold pf_write, pf_buffered.
  pose proof (size_nonneg data). pose proof (size_nonneg (pf_data pf)).
  destruct (Z.leb_spec (size data) (bufsize - (size (pf_data pf) - pf_disk pf)));
    [|destruct (Z.gtb_spec (size data) bufsize)];
    (split; [|reflexivity]); unfold pf_ok; cbn [pf_data pf_disk];
    rewrite size_app; lia.
Qed.

Lemma READ_SIZE_pos : 0 < READ_SIZE.
Proof. reflexivity. Qed.

(** The inner loop copies the next [remaining] bytes of the input, or what
    is left of it, and always comes to an end. *)
Lemma copy_rounds_spec bufsize :
  0 <= bufsize ->
  forall rounds remaining f pf,
    (length f < rounds)%nat -> pf_ok bufsize pf ->
    exists pf',
      copy_rounds rounds bufsize remaining f pf =
        Some (remaining - size (take_z remaining f), drop_z remaining f, pf') /\
      pf_data pf' = pf_data pf ++ take_z remaining f /\
      pf_ok bufsize pf'.
Proof.
  intros Hb. induction rounds as [|n IH]; intros remaining f pf Hlen Hok; [lia|].
  cbn [copy_rounds]. destruct (Z.gtb_spec remaining 0) as [Hpos|Hneg].
  - set (k := Z.min remaining READ_SIZE).
    assert (Hk : 0 < k <= remaining) by (pose proof READ_SIZE_pos; lia).
    destruct (take_z k f) as [|b data] eqn:Hdata.
    + apply take_z_nil_inv in Hdata; [|lia]. subst f.
      exists pf. cbn. rewrite app_nil_r, Z.sub_0_r. auto.
    + destruct (pf_write_ok bufsize pf (b :: data) Hb Hok) as [Hok' Hdata'].
      assert (Hlen' : (length (drop_z k f) < n)%nat).
      { pose proof (take_drop_z k f) as Hsplit. rewrite Hdata in Hsplit.
        rewrite <- Hsplit in Hlen. cbn [app length] in Hlen.
        rewrite length_app in Hlen. lia. }
      destruct (IH (remaining - size (b :: data)) (drop_z k f)
                  (pf_write bufsize pf (b :: data)) Hlen' Hok')
        as (pf' & Hrun & Hpf' & Hok'').
      exists pf'. rewrite Hrun, Hpf', Hdata'.
      rewrite (take_z_resume k remaining f), (drop_z_resume k remaining f) by lia.
      rewrite Hdata, size_app, <- app_assoc. split; [|auto].
      rewrite Z.sub_add_distr. reflexivity.
  - exists pf. rewrite take_z_nonpos, drop_z_nonpos by lia.
    rewrite size_nil, app_nil_r, Z.sub_0_r. auto.
Qed.

(** *** The names of the parts *)


Lemma parse_digits_zero s : parse_digits (String "0" s) = parse_digits s.
Proof.
  unfold parse_digits. cbn [NilEmpty.uint_of_string].
  destruct (NilEmpty.uint_of_string s); reflexivity.
Qed.

Lemma parse_digits_of_uint d :
  parse_digits (NilZero.string_of_uint d) = Some (N.of_uint d).
Proof.
  unfold parse_digits.
  destruct d; try reflexivity; unfold NilZero.string_of_uint;
    rewrite NilEmpty.usu; reflexivity.
Qed.

Lemma parse_format_03d n : parse_digits (format_03d n) = Some (Z.to_N n).
Proof.
  unfold format_03d.
  pose proof (parse_digits_of_uint (N.to_uint (Z.to_N n))) as H.
  rewrite DecimalN.Unsigned.of_to in H.
  assert (E2 : forall x, "00" +:+ x = String "0" (String "0" x)) by reflexivity.
  assert (E1 : forall x, "0" +:+ x = String "0" x) by reflexivity.
  destruct (String.length _) as [|[|[|m]]];
    rewrite ?E2, ?E1, ?parse_digits_zero; exact H.
Qed.

Lemma format_03d_inj a b : 0 <= a -> 0 <= b -> format_03d a = format_03d b -> a = b.
Proof.
  intros Ha Hb Heq. apply (f_equal parse_digits) in Heq.
  rewrite !parse_format_03d in Heq. injection Heq as Heq. lia.
Qed.

Lemma append_inv_head (s a b : string) : s +:+ a = s +:+ b -> a = b.
Proof.
  induction s as [|c s IH]; cbn; [auto|]. intros H. injection H as H. auto.
Qed.

Lemma append_not_self (s t : string) : s = s +:+ t -> t = "".
Proof.
  induction s as [|c s IH]; cbn; [auto|]. intros H. injection H as H. auto.
Qed.

Lemma part_path_of_inj file_path a b :
  0 <= a -> 0 <= b -> part_path_of file_path a = part_path_of file_path b -> a = b.
Proof.
  unfold part_path_of. intros Ha Hb H.
  apply append_inv_head in H. apply (append_inv_head ".part") in H.
  apply format_03d_inj; assumption.
Qed.

Lemma part_path_of_not_file file_path a : file_path <> part_path_of file_path a.
Proof.
  unfold part_path_of. intros H. apply append_not_self in H. discriminate H.
Qed.


Lemma part_names_succ file_path part_num n :
  part_names file_path part_num (S n) =
  part_path_of file_path part_num :: part_names file_path (part_num + 1) n.
Proof.
  unfold part_names. cbn [seq map]. f_equal; [f_equal; lia|].
  rewrite <- (seq_shift n 0), map_map. apply map_ext. intros i. f_equal. lia.
Qed.

Lemma pf_ok_new bufsize : 0 <= bufsize -> pf_ok bufsize {| pf_data := []; pf_disk := 0 |}.
Proof. intros Hb. unfold pf_ok, size. cbn. lia. Qed.

(** The outer loop.  The parts it returns hold consecutive pieces [cs] of
    the input under consecutive names; every piece is larger than the
    buffer, every piece but the last one has the chunk size; what is left
    of the input is empty, or starts with a piece that fits in the buffer:
    that piece was written to a part which the size test saw as empty and
    removed. *)
Lemma split_rounds_spec bufsize chunk_size file_path :
  0 <= bufsize -> 0 < chunk_size ->
  forall rounds f part_num part_paths h,
    (length f < rounds)%nat -> 0 <= part_num ->
    exists cs rest h',
      split_rounds rounds bufsize chunk_size file_path f part_num part_paths h =
        (Ret (part_paths ++ part_names file_path part_num (length cs)), h') /\
      f = concat cs ++ rest /\
      (rest = [] \/
       (size (take_z chunk_size rest) <= bufsize /\
        forall c, In c cs -> size c = chunk_size)) /\
      (forall i c, cs !! i = Some c ->
         bufsize < size c <= chunk_size /\
         (S i < length cs -> size c = chunk_size)%nat /\
         files h' !! part_path_of file_path (part_num + Z.of_nat i) = Some c) /\
      (forall p, (forall j, part_num <= j -> p <> part_path_of file_path j) ->
         files h' !! p = files h !! p) /\
      active_tasks h' = active_tasks h /\
      progress_data h' = progress_data h /\
      (hlog h' = hlog h \/
       hlog h' = hlog h ++
         [HRemove (part_path_of file_path (part_num + Z.of_nat (length cs)))]).
Proof.
  intros Hb Hchunk.
  induction rounds as [|n IH]; intros f part_num part_paths h Hlen Hnum; [lia|].
  cbn [split_rounds].
  set (part_path := part_path_of file_path part_num).
  destruct (copy_rounds_spec bufsize Hb (S (length f)) chunk_size f
              {| pf_data := []; pf_disk := 0 |} (Nat.lt_succ_diag_r _) (pf_ok_new _ Hb))
    as (pf & Hcopy & Hdata & Hok).
  cbn [pf_data app] in Hdata.
  set (c := take_z chunk_size f) in *.
  assert (Hc : size c <= chunk_size)
    by (subst c; rewrite size_take_z; pose proof (size_nonneg f); lia).
  unfold bind at 1. cbn [modify]. rewrite Hcopy.
  destruct Hok as (Hd & _ & Hz & Hp). rewrite Hdata in Hd, Hz, Hp.
  destruct (Z.eqb_spec (pf_disk pf) 0) as [Hzero|Hnz].
  - exists [], f, (set_files (delete part_path)
                    (Build_Host (<[part_path := []]> (files h)) (active_tasks h)
                       (progress_data h) (hlog h ++ [HRemove part_path]))).
    split.
    { unfold remove, bind, gets, host_emit, modify, ret, set_files.
      cbn [files]. rewrite lookup_insert_eq. cbn. rewrite app_nil_r. reflexivity. }
    split; [reflexivity|].
    split; [right; fold c; split; [auto|intros c0 []]|].
    split; [intros i c0 Hi; rewrite lookup_nil in Hi; discriminate|].
    split.
    { intros p Hp'. cbn. specialize (Hp' part_num (Z.le_refl _)).
      rewrite lookup_delete_ne, lookup_insert_ne by (fold part_path in Hp'; congruence).
      reflexivity. }
    cbn. rewrite Z.add_0_r. auto.
  - assert (Hbig : bufsize < size c) by lia.
    unfold bind at 1. cbn [modify].
    set (h2 := set_files (insert part_path (pf_data pf)) (set_files (insert part_path []) h)).
    destruct (Z.gtb_spec (chunk_size - size c) 0) as [Hshort|Hfull].
    + assert (Hall : c = f /\ drop_z chunk_size f = []).
      { subst c. rewrite size_take_z in Hshort.
        split; [apply take_z_all|apply drop_z_all]; lia. }
      destruct Hall as [Hcf _].
      exists [c], [], h2. cbn [length]. rewrite part_names_succ. cbn [part_names seq map].
      split; [reflexivity|]. split; [cbn; rewrite !app_nil_r; congruence|].
      split; [left; reflexivity|]. split.
      { intros [|i] c0 Hi; [|destruct i; discriminate]. injection Hi as <-.
        split; [lia|]. split; [cbn; lia|].
        cbn. rewrite Z.add_0_r, lookup_insert_eq, Hdata. reflexivity. }
      split.
      { intros p Hp'. cbn. specialize (Hp' part_num (Z.le_refl _)).
        rewrite !lookup_insert_ne by (fold part_path in Hp'; congruence). reflexivity. }
      cbn. auto.
    + assert (Hsize : size c = chunk_size) by lia.
      assert (Hsplit : f = c ++ drop_z chunk_size f)
        by (subst c; symmetry; apply take_drop_z).
      assert (Hlen' : (length (drop_z chunk_size f) < n)%nat).
      { rewrite Hsplit in Hlen. rewrite length_app in Hlen.
        unfold size in Hsize. lia. }
      destruct (IH (drop_z chunk_size f) (part_num + 1) (part_paths ++ [part_path]) h2
                  Hlen' ltac:(lia))
        as (cs & rest & h' & Hrun & Hf & Hrest & Hparts & Hframe & Hat & Hpd & Hlog).
      exists (c :: cs), rest, h'. cbn [length]. rewrite part_names_succ.
      split; [rewrite Hrun, <- app_assoc; reflexivity|].
      split; [cbn [concat]; rewrite <- app_assoc, <- Hf; exact Hsplit|].
      split.
      { destruct Hrest as [Hnil|[Hsmall Hfullcs]]; [left; exact Hnil|].
        right. split; [exact Hsmall|]. intros c0 [<-|Hin]; auto. }
      split.
      { intros [|i] c0 Hi.
        - injection Hi as <-. split; [lia|]. split; [auto|].
          rewrite Z.add_0_r, Hframe.
          + cbn. rewrite lookup_insert_eq, Hdata. reflexivity.
          + intros j Hj Heq. apply part_path_of_inj in Heq; lia.
        - cbn in Hi. destruct (Hparts i c0 Hi) as (H1 & H2 & H3).
          split; [exact H1|]. split; [cbn [length]; lia|].
          rewrite <- H3. f_equal. f_equal. lia. }
      split.
      { intros p Hp'. rewrite Hframe by (intros j Hj; apply Hp'; lia).
        cbn. specialize (Hp' part_num (Z.le_refl _)).
        rewrite !lookup_insert_ne by (fold part_path in Hp'; congruence). reflexivity. }
      split; [rewrite Hat; reflexivity|]. split; [rewrite Hpd; reflexivity|].
      destruct Hlog as [Hlog|Hlog]; [left; rewrite Hlog; reflexivity|].
      right. rewrite Hlog.
      replace (part_num + Z.of_nat (S (length cs)))
        with (part_num + 1 + Z.of_nat (length cs)) by lia.
      reflexivity.
Qed.

(** [split_file] comes to an end for every file that exists, with the
    parts described by [split_rounds_spec]. *)
Lemma split_file_spec bufsize chunk_size file_path f h :
  0 <= bufsize -> 0 < chunk_size ->
  files h !! file_path = Some f ->
  exists cs rest h',
    split_file bufsize file_path chunk_size h =
      (Ret (part_names file_path 0 (length cs)), h') /\
    f = concat cs ++ rest /\
    (rest = [] \/
     (size (take_z chunk_size rest) <= bufsize /\
      forall c, In c cs -> size c = chunk_size)) /\
    (forall i c, cs !! i = Some c ->
       bufsize < size c <= chunk_size /\
       (S i < length cs -> size c = chunk_size)%nat /\
       files h' !! part_path_of file_path (Z.of_nat i) = Some c) /\
    (forall p, (forall j, 0 <= j -> p <> part_path_of file_path j) ->
       files h' !! p = files h !! p) /\
    active_tasks h' = active_tasks h /\
    progress_data h' = progress_data h /\
    (hlog h' = hlog h \/
     hlog h' = hlog h ++ [HRemove (part_path_of file_path (Z.of_nat (length cs)))]).
Proof.
  intros Hb Hchunk Hfile.
  destruct (split_rounds_spec bufsize chunk_size file_path Hb Hchunk
              (S (length f)) f 0 [] h (Nat.lt_succ_diag_r _) (Z.le_refl 0))
    as (cs & rest & h' & Hrun & Hrest).
  exists cs, rest, h'. split; [|exact Hrest].
  unfold split_file, bind, gets. rewrite Hfile. exact Hrun.
Qed.

Lemma read_parts_back (files_ : gmap string (list byte)) file_path cs :
  forall part_num,
    (forall i c, cs !! i = Some c ->
       files_ !! part_path_of file_path (part_num + Z.of_nat i) = Some c) ->
    map (fun p => default [] (files_ !! p)) (part_names file_path part_num (length cs)) = cs.
Proof.
  induction cs as [|c cs IH]; intros part_num Hparts; [reflexivity|].
  cbn [length]. rewrite part_names_succ. cbn [map]. f_equal.
  - specialize (Hparts 0%nat c eq_refl). rewrite Z.add_0_r in Hparts.
    rewrite Hparts. reflexivity.
  - apply IH. intros i c0 Hi. specialize (Hparts (S i) c0 Hi).
    rewrite <- Hparts. do 2 f_equal. lia.
Qed.

Lemma length_part_names file_path part_num n :
  length (part_names file_path part_num n) = n.
Proof. unfold part_names. rewrite length_map, length_seq. reflexivity. Qed.

Lemma part_names_lookup file_path n :
  forall part_num i p,
    part_names file_path part_num n !! i = Some p ->
    (i < n)%nat /\ p = part_path_of file_path (part_num + Z.of_nat i).
Proof.
  induction n as [|n IH]; intros part_num i p Hp; [discriminate|].
  rewrite part_names_succ in Hp. destruct i as [|i].
  - injection Hp as <-. split; [lia|]. f_equal. lia.
  - cbn in Hp. apply IH in Hp as [Hi ->]. split; [lia|]. f_equal. lia.
Qed.

(** With part files that are not buffered (a buffer of size 0: every write
    reaches the disk at once) the splitter is exact: the contents of the
    parts, in the order returned, are the bytes of the input; no part is
    empty and every part but the last has the chunk size. *)
Lemma split_file_exact_without_buffer chunk_size file_path f h :
  0 < chunk_size ->
  files h !! file_path = Some f ->
  exists part_paths h',
    split_file 0 file_path chunk_size h = (Ret part_paths, h') /\
    concat (map (fun p => default [] (files h' !! p)) part_paths) = f /\
    (forall i p, part_paths !! i = Some p ->
       exists c, files h' !! p = Some c /\ 0 < size c <= chunk_size /\
                 (S i < length part_paths -> size c = chunk_size)%nat).
Proof.
  intros Hchunk Hfile.
  destruct (split_file_spec 0 chunk_size file_path f h (Z.le_refl 0) Hchunk Hfile)
    as (cs & rest & h' & Hrun & Hf & Hrest & Hparts & _).
  exists (part_names file_path 0 (length cs)), h'. split; [exact Hrun|].
  assert (Hnil : rest = []).
  { destruct Hrest as [Hnil|[Hsmall _]]; [exact Hnil|].
    pose proof (size_nonneg (take_z chunk_size rest)).
    apply (take_z_nil_inv chunk_size); [exact Hchunk|].
    destruct (take_z chunk_size rest); [reflexivity|]. rewrite size_cons in *.
    pose proof (size_nonneg l). lia. }
  subst rest. rewrite app_nil_r in Hf. split.
  - rewrite read_parts_back; [congruence|].
    intros i c Hi. rewrite Z.add_0_l. apply (Hparts i c Hi).
  - intros i p Hp. rewrite length_part_names.
    apply part_names_lookup in Hp as [Hi ->].
    destruct (lookup_lt_is_Some_2 cs i Hi) as [c Hc].
    destruct (Hparts i c Hc) as (Hsize & Hfull & Hfile').
    exists c. rewrite Z.add_0_l. split; [exact Hfile'|]. split; [lia|exact Hfull].
Qed.

(** C10, the failing inputs: a file that fits in the buffer of the part
    file.  Its only part is written to the buffer, [os.path.getsize] sees
    a file of size 0 before the part file is closed, the part is removed
    and the splitter returns no part at all: the concatenation of the
    returned parts is empty whatever the file holds. *)
Theorem split_file_returns_no_part_for_a_file_within_the_buffer
  (bufsize chunk_size : Z) (file_path : string) (f : list byte) (h : Host) :
  0 < chunk_size ->
  files h !! file_path = Some f ->
  size f <= bufsize ->
  result (split_file bufsize file_path chunk_size) h = Ret [].
Proof.
  intros Hchunk Hfile Hfit. pose proof (size_nonneg f) as Hf0.
  destruct (split_file_spec bufsize chunk_size file_path f h ltac:(lia) Hchunk Hfile)
    as (cs & rest & h' & Hrun & Hf & _ & Hparts & _).
  unfold result. rewrite Hrun. cbn [fst].
  destruct cs as [|c cs]; [reflexivity|]. exfalso.
  destruct (Hparts 0%nat c eq_refl) as (Hc & _).
  rewrite Hf in Hfit. cbn [concat] in Hfit. rewrite !size_app in Hfit.
  pose proof (size_nonneg (concat cs)). pose proof (size_nonneg rest). lia.
Qed.

Lemma split_file_returns_no_part_for_a_file_within_the_buffer_witness :
  let h := {| files := {[ "video.mp4" := [x2a] ]}; active_tasks := ∅;
              progress_data := ∅; hlog := [] |} in
  result (split_file 8192 "video.mp4" DEFAULT_CHUNK_SIZE) h = Ret [].
Proof.
  intros h.
  apply (split_file_returns_no_part_for_a_file_within_the_buffer
           8192 DEFAULT_CHUNK_SIZE "video.mp4" [x2a] h).
  - reflexivity.
  - reflexivity.
  - vm_compute. discriminate.
Defined.

Lemma size_concat_full (cs : list (list byte)) chunk_size :
  (forall c, In c cs -> size c = chunk_size) ->
  size (concat cs) = Z.of_nat (length cs) * chunk_size.
Proof.
  induction cs as [|c cs IH]; intros Hfull; [reflexivity|].
  cbn [concat length].
  rewrite size_app, IH by (intros c0 H0; apply Hfull; right; exact H0).
  rewrite (Hfull c) by (left; reflexivity). lia.
Qed.

Lemma size_concat_parts (cs : list (list byte)) bufsize chunk_size :
  (forall i c, cs !! i = Some c ->
     bufsize < size c <= chunk_size /\ (S i < length cs -> size c = chunk_size)%nat) ->
  cs = [] \/
  exists q t, size (concat cs) = q * chunk_size + t /\ 0 <= q /\ bufsize < t <= chunk_size.
Proof.
  induction cs as [|c cs IH]; intros Hparts; [left; reflexivity|]. right.
  destruct (Hparts 0%nat c eq_refl) as [Hc Hfull]. cbn [concat]. rewrite size_app.
  destruct IH as [->|(q & t & Hsum & Hq & Ht)].
  - intros i c0 Hi. destruct (Hparts (S i) c0 Hi) as [H1 H2].
    split; [exact H1|]. intros Hlt. apply H2. cbn [length]. lia.
  - exists 0, (size c). cbn. rewrite Z.add_0_r. lia.
  - destruct cs as [|c' cs'].
    + exists 0, (size c). cbn. rewrite Z.add_0_r. lia.
    + exists (q + 1), t. rewrite Hsum, Hfull by (cbn; lia). lia.
Qed.

(** The same defect on a large file: when the bytes after the last full
    chunk fit in the buffer, the returned parts hold the full chunks only.
    The tail of the file is in no part. *)
Lemma split_file_loses_a_tail_within_the_buffer
  (bufsize chunk_size : Z) (file_path : string) (f : list byte) (h h' : Host)
  (part_paths : list string) :
  0 <= bufsize < chunk_size ->
  files h !! file_path = Some f ->
  0 < size f mod chunk_size <= bufsize ->
  split_file bufsize file_path chunk_size h = (Ret part_paths, h') ->
  size (concat (map (fun p => default [] (files h' !! p)) part_paths)) =
    size f - size f mod chunk_size.
Proof.
  intros Hb Hfile Htail Hrun.
  destruct (split_file_spec bufsize chunk_size file_path f h ltac:(lia) ltac:(lia) Hfile)
    as (cs & rest & h2 & Hrun' & Hf & Hrest & Hparts & _).
  rewrite Hrun in Hrun'. injection Hrun' as -> ->.
  rewrite read_parts_back
    by (intros i c Hi; rewrite Z.add_0_l; apply (Hparts i c Hi)).
  apply (f_equal size) in Hf. rewrite size_app in Hf.
  destruct Hrest as [->|[Hsmall Hfull]].
  - exfalso. rewrite size_nil, Z.add_0_r in Hf.
    destruct (size_concat_parts cs bufsize chunk_size) as [->|(q & t & Hsum & Hq & Ht)].
    + intros i c Hi. destruct (Hparts i c Hi) as (H1 & H2 & _). auto.
    + change (size (@concat byte [])) with 0 in Hf. rewrite Hf, Z.mod_0_l in Htail; lia.
    + rewrite Hsum in Hf. rewrite Hf in Htail.
      destruct (Z.eq_dec t chunk_size) as [->|Hne].
      * replace (q * chunk_size + chunk_size) with (0 + (q + 1) * chunk_size) in Htail
          by lia.
        rewrite Z_mod_plus_full, Z.mod_0_l in Htail; lia.
      * rewrite Z.add_comm, Z_mod_plus_full, Z.mod_small in Htail by lia. lia.
  - rewrite (size_concat_full cs chunk_size Hfull) in Hf |- *.
    rewrite size_take_z in Hsmall. pose proof (size_nonneg rest).
    assert (Hr : size rest <= bufsize) by lia.
    rewrite Hf, Z.add_comm, Z_mod_plus_full, Z.mod_small by lia. lia.
Qed.

(** ** The handler of large downloads *)

Lemma part_names_In file_path part_num n p :
  In p (part_names file_path part_num n) ->
  exists i, (i < n)%nat /\ p = part_path_of file_path (part_num + Z.of_nat i).
Proof.
  unfold part_names. rewrite in_map_iff. intros (i & <- & Hi).
  apply in_seq in Hi. exists i. split; [lia|reflexivity].
Qed.

Lemma part_names_NoDup file_path n :
  forall part_num, 0 <= part_num -> List.NoDup (part_names file_path part_num n).
Proof.
  induction n as [|n IH]; intros part_num Hnum; [constructor|].
  rewrite part_names_succ. constructor; [|apply IH; lia].
  intros Hin. apply part_names_In in Hin as (i & _ & Heq).
  apply part_path_of_inj in Heq; lia.
Qed.

Lemma accepted_prefix_In ok parts p : In p (accepted_prefix ok parts) -> In p parts.
Proof.
  induction parts as [|x xs IH]; cbn; [auto|].
  destruct (ok x); [|intros []]. intros [->|Hin]; auto.
Qed.

Lemma host_send_run env method chat file_path caption h :
  host_send env method chat file_path caption h =
    (if send_ok env file_path then Ret tt else Raise (TransportError "send failed"),
     Build_Host (files h) (active_tasks h) (progress_data h)
       (hlog h ++ [HSend method chat file_path caption])).
Proof.
  unfold host_send, bind, host_emit, modify. cbn.
  destruct (send_ok env file_path); reflexivity.
Qed.

Lemma remove_run path content h :
  files h !! path = Some content ->
  remove path h =
    (Ret tt, Build_Host (delete path (files h)) (active_tasks h) (progress_data h)
               (hlog h ++ [HRemove path])).
Proof.
  intros Hfile. unfold remove, bind, gets, host_emit, modify, set_files.
  rewrite Hfile. reflexivity.
Qed.

(** The loop over the parts: the parts are sent in the order of the list;
    a part is removed right after its own send returned; the first send
    that raises ends the loop, and that part and the parts after it stay on
    disk. *)
Lemma send_parts_run env chat url file_path :
  forall parts h,
    List.NoDup parts ->
    (forall p, In p parts -> is_Some (files h !! p)) ->
    let sent := accepted_prefix (send_ok env) parts in
    exists h',
      send_parts env chat url file_path parts h =
        (match nth_error parts (length sent) with
         | None => Ret tt
         | Some _ => Raise (TransportError "send failed")
         end, h') /\
      hlog h' = hlog h ++ flat_map (part_events chat url file_path) sent ++
                match nth_error parts (length sent) with
                | None => []
                | Some p => [HSend send_document chat p (part_caption url file_path p)]
                end /\
      (forall p, In p sent -> files h' !! p = None) /\
      (forall p, ~ In p sent -> files h' !! p = files h !! p) /\
      active_tasks h' = active_tasks h /\
      progress_data h' = progress_data h.
Proof.
  unfold send_parts.
  induction parts as [|p ps IH]; intros h Hnd Hfiles; cbv zeta.
  - exists h. cbn. rewrite app_nil_r. repeat split; auto. intros p [].
  - apply List.NoDup_cons_iff in Hnd as [Hnotin Hnd].
    cbn [for_each accepted_prefix].
    unfold bind. rewrite host_send_run.
    destruct (send_ok env p) eqn:Hok.
    + destruct (Hfiles p (or_introl eq_refl)) as [c Hc].
      erewrite remove_run by (cbn [files]; exact Hc). cbn [files active_tasks progress_data hlog].
      set (h1 := Build_Host _ _ _ _).
      destruct (IH h1 Hnd) as (h' & Hrun & Hlog & Hsent & Hrest & Hat & Hpd); cbv zeta.
      { intros q Hq. subst h1. cbn [files]. rewrite lookup_delete_ne by congruence.
        apply Hfiles. right. exact Hq. }
      exists h'. cbn [length nth_error flat_map].
      split; [exact Hrun|]. split.
      { rewrite Hlog. subst h1. cbn [hlog part_events]. rewrite <- !app_assoc. reflexivity. }
      split.
      { intros q [<-|Hq]; [|auto].
        rewrite Hrest by (intros Hin; apply Hnotin, (accepted_prefix_In _ _ _ Hin)).
        subst h1. cbn [files]. apply lookup_delete_eq. }
      split.
      { intros q Hq. rewrite Hrest by (intros Hin; apply Hq; right; exact Hin).
        subst h1. cbn [files]. apply lookup_delete_ne. intros ->. apply Hq. left. reflexivity. }
      split; [rewrite Hat|rewrite Hpd]; reflexivity.
    + eexists. cbn [length nth_error flat_map app]. split; [reflexivity|].
      cbn [files active_tasks progress_data hlog]. repeat split; auto. intros q [].
Qed.

(** The handler up to the call of [split_file], for a download larger than
    2 GiB: what is left to run is the split, the loop over the parts and
    the removal of the download, inside the two [try] blocks. *)
Lemma ytdl_handler_large_file env message h url file_path content :
  default false (active_tasks h !! chat_id message) = false ->
  strip (String.concat " " (tail (command message))) = url ->
  nonempty url = true ->
  ytdl env url = Some (file_path, content) ->
  nonempty file_path = true ->
  2 * 1024 ^ 3 < size content ->
  ytdl_handler env message h =
    try_finally
      (try_except
         (split_parts <- split_file (io_buffer_size env) file_path DEFAULT_CHUNK_SIZE ;;
          send_parts env (chat_id message) url file_path split_parts ;;;
          remove file_path)
         (fun e =>
            logger_error ("Error: " +:+ exn_message e) ;;;
            host_emit (HReply (chat_id message) "❌ Error processing the request")))
      (modify (set_active_tasks (delete (chat_id message))) ;;;
       modify (set_progress_data (delete (chat_id message))))
      (at_split message file_path content h).
Proof.
  intros Hidle Hurl Hnonempty Hytdl Hname Hbig.
  unfold ytdl_handler. unfold bind at 1. unfold gets at 1. cbn [fst snd].
  rewrite Hidle. unfold is_authorized. cbn [negb]. rewrite Hurl, Hnonempty. cbn [negb].
  unfold try_finally. unfold try_except at 1.
  match goal with
  | |- context [let (o, s') := ?body h in _] =>
      assert (Hbody : body h =
        (split_parts <- split_file (io_buffer_size env) file_path DEFAULT_CHUNK_SIZE ;;
         send_parts env (chat_id message) url file_path split_parts ;;;
         remove file_path) (at_split message file_path content h))
  end.
  { unfold bind at 1 2 3. cbn [modify host_emit].
    unfold ytdl_download_file, try_except. rewrite Hytdl.
    unfold bind at 1. cbn [modify ret set_files set_active_tasks files active_tasks
      progress_data hlog].
    unfold truthy_str. rewrite Hname.
    unfold bind at 1 2. cbn [modify ret set_files set_active_tasks set_progress_data
      files active_tasks progress_data hlog].
    unfold getsize. unfold bind at 1. unfold gets at 1. cbn [files].
    unfold set_progress_data, set_files, set_active_tasks.
    cbn [files active_tasks progress_data hlog].
    rewrite lookup_insert_eq. cbn [ret].
    destruct (Z.gtb_spec (size content) (2 * 1024 ^ 3)); [reflexivity|lia]. }
  rewrite Hbody. reflexivity.
Qed.



(** The split, the loop over the parts and the removal of the download,
    run from a state in which the download is on disk.  A send that raises
    ends the run with the [NameError] of the handler. *)
Lemma large_file_tail_run env chat url file_path content h :
  files h !! file_path = Some content ->
  0 <= io_buffer_size env ->
  exists split_parts h_split h',
    split_file (io_buffer_size env) file_path DEFAULT_CHUNK_SIZE h =
      (Ret split_parts, h_split) /\
    split_parts = part_names file_path 0 (length split_parts) /\
    (forall i p, split_parts !! i = Some p ->
       exists c, files h_split !! p = Some c /\ 0 < size c <= DEFAULT_CHUNK_SIZE /\
                 (S i < length split_parts -> size c = DEFAULT_CHUNK_SIZE)%nat) /\
    (io_buffer_size env < DEFAULT_CHUNK_SIZE <= size content -> split_parts <> []) /\
    let sent := accepted_prefix (send_ok env) split_parts in
    try_finally
      (try_except
         (split_parts <- split_file (io_buffer_size env) file_path DEFAULT_CHUNK_SIZE ;;
          send_parts env chat url file_path split_parts ;;;
          remove file_path)
         (fun e =>
            logger_error ("Error: " +:+ exn_message e) ;;;
            host_emit (HReply chat "❌ Error processing the request")))
      (modify (set_active_tasks (delete chat)) ;;;
       modify (set_progress_data (delete chat))) h =
      (match nth_error split_parts (length sent) with
       | None => Ret tt
       | Some _ => Raise logger_undefined
       end, h') /\
    hlog h' = hlog h_split ++ flat_map (part_events chat url file_path) sent ++
              match nth_error split_parts (length sent) with
              | None => [HRemove file_path]
              | Some p => [HSend send_document chat p (part_caption url file_path p)]
              end /\
    (forall p, In p sent -> files h' !! p = None) /\
    (forall p, In p split_parts -> ~ In p sent -> files h' !! p = files h_split !! p) /\
    files h' !! file_path =
      match nth_error split_parts (length sent) with
      | None => None
      | Some _ => Some content
      end /\
    active_tasks h' = delete chat (active_tasks h) /\
    progress_data h' = delete chat (progress_data h).
Proof.
  intros Hfile Hb.
  destruct (split_file_spec (io_buffer_size env) DEFAULT_CHUNK_SIZE file_path content h
              Hb eq_refl Hfile)
    as (cs & rest & h5 & Hsplit & Hf & Hrest & Hparts & Hframe & Hat5 & Hpd5 & _).
  set (parts := part_names file_path 0 (length cs)) in *.
  assert (Hlenparts : length parts = length cs) by apply length_part_names.
  assert (Hfile5 : files h5 !! file_path = Some content).
  { rewrite Hframe; [exact Hfile|]. intros j _. apply part_path_of_not_file. }
  assert (Hnotpart : ~ In file_path parts).
  { intros Hin. apply part_names_In in Hin as (i & _ & Heq).
    exact (part_path_of_not_file _ _ Heq). }
  destruct (send_parts_run env chat url file_path parts h5
              (part_names_NoDup file_path (length cs) 0 (Z.le_refl 0)))
    as (h6 & Hsend & Hlog6 & Hsent6 & Hrest6 & Hat6 & Hpd6).
  { intros p Hp. apply part_names_In in Hp as (i & Hi & ->).
    destruct (lookup_lt_is_Some_2 cs i Hi) as [c Hc].
    destruct (Hparts i c Hc) as (_ & _ & Hfile'). rewrite Z.add_0_l. eauto. }
  cbv zeta in Hsend, Hlog6, Hsent6, Hrest6.
  set (sent := accepted_prefix (send_ok env) parts) in *.
  assert (Hrun : exists h',
    try_finally
      (try_except
         (split_parts <- split_file (io_buffer_size env) file_path DEFAULT_CHUNK_SIZE ;;
          send_parts env chat url file_path split_parts ;;;
          remove file_path)
         (fun e =>
            logger_error ("Error: " +:+ exn_message e) ;;;
            host_emit (HReply chat "❌ Error processing the request")))
      (modify (set_active_tasks (delete chat)) ;;;
       modify (set_progress_data (delete chat))) h =
      (match nth_error parts (length sent) with
       | None => Ret tt
       | Some _ => Raise logger_undefined
       end, h') /\
    hlog h' = hlog h6 ++ match nth_error parts (length sent) with
                         | None => [HRemove file_path]
                         | Some _ => []
                         end /\
    files h' = match nth_error parts (length sent) with
               | None => delete file_path (files h6)
               | Some _ => files h6
               end /\
    active_tasks h' = delete chat (active_tasks h6) /\
    progress_data h' = delete chat (progress_data h6)).
  { unfold try_finally, try_except.
    rewrite (bind_run _ _ _ _ _ Hsplit). unfold bind at 1. rewrite Hsend.
    destruct (nth_error parts (length sent)) as [p|].
    - eexists. split; [reflexivity|]. cbn. rewrite app_nil_r. auto.
    - erewrite remove_run by (rewrite Hrest6; [exact Hfile5|];
                              intros Hin; apply Hnotpart, (accepted_prefix_In _ _ _ Hin)).
      eexists. split; [reflexivity|]. cbn. auto. }
  destruct Hrun as (h' & Hrun & Hlog' & Hfiles' & Hat' & Hpd').
  exists parts, h5, h'. split; [exact Hsplit|].
  split; [rewrite Hlenparts; reflexivity|]. split.
  { intros i p Hp. rewrite Hlenparts. apply part_names_lookup in Hp as [Hi ->].
    destruct (lookup_lt_is_Some_2 cs i Hi) as [c Hc].
    destruct (Hparts i c Hc) as (Hsize & Hfull & Hfile').
    exists c. rewrite Z.add_0_l. split; [exact Hfile'|]. split; [lia|exact Hfull]. }
  split.
  { intros [Hbuf Hsize] Hnil. assert (cs = []) by (destruct cs; [reflexivity|discriminate]).
    subst cs. cbn [concat app] in Hf. subst rest.
    destruct Hrest as [->|[Hsmall _]]; [unfold size in Hsize; cbn in Hsize; lia|].
    rewrite size_take_z in Hsmall. lia. }
  cbv zeta. fold sent. split; [exact Hrun|].
  split.
  { rewrite Hlog', Hlog6, <- !app_assoc.
    destruct (nth_error parts (length sent)); [rewrite app_nil_r|]; reflexivity. }
  split.
  { intros p Hp. rewrite Hfiles'. destruct (nth_error parts (length sent)); [auto|].
    rewrite lookup_delete_ne; [auto|].
    intros <-. apply Hnotpart, (accepted_prefix_In _ _ _ Hp). }
  split.
  { intros p Hp Hns. rewrite Hfiles'. destruct (nth_error parts (length sent)); [auto|].
    rewrite lookup_delete_ne; [auto|]. intros <-. exact (Hnotpart Hp). }
  split.
  { rewrite Hfiles'. destruct (nth_error parts (length sent)).
    - rewrite Hrest6; [exact Hfile5|].
      intros Hin; apply Hnotpart, (accepted_prefix_In _ _ _ Hin).
    - apply lookup_delete_eq. }
  split; [rewrite Hat', Hat6, Hat5|rewrite Hpd', Hpd6, Hpd5]; reflexivity.
Qed.






(** ** The check cycle: the defects in general *)

Lemma media_caption_fixed r td td' :
  fixed_fields td' = fixed_fields td -> media_caption r td' = media_caption r td.
Proof.
  intros H. unfold media_caption.
  replace (td_name td') with (td_name td) by (unfold fixed_fields in H; congruence).
  replace (td_url td') with (td_url td) by (unfold fixed_fields in H; congruence).
  reflexivity.
Qed.

(** A resource that a cycle delivers is delivered again by the next cycle
    on the same page: the stored fingerprints are the same before and
    after every cycle, so the test of line 104 gives the same answer. *)
Lemma delivered_resource_is_delivered_again
  (env : Env) (user_id : Z) (url : string) (w : World) (td : TrackedData) (r : Resource) :
  find_one user_id url (urls w) = Some td ->
  night_mode_skips env td = false ->
  In r (cycle_resources env user_id url) ->
  already_sent td r = false ->
  delivered env r = true ->
  let delivery := EvSend (send_methods (r_type r)) user_id (file_path_of env r)
                    (py_take 1024 (media_caption r td)) in
  let w1 := exec (check_updates env user_id url) w in
  In delivery (trace (check_updates env user_id url) w) /\
  In delivery (trace (check_updates env user_id url) w1).
Proof.
  intros Hfind Hnight Hin Hns Hdel delivery w1.
  destruct (check_updates_run env user_id url td w Hfind Hnight) as (_ & _ & _ & Hsnd).
  split; [exact (Hsnd r Hin Hns Hdel)|].
  destruct (keeps_check_updates env user_id url w) as (Hfields & _).
  destruct (find_one_fixed_fields user_id url (urls w) (urls w1) td Hfields Hfind)
    as (td1 & Hfind1 & Hfix).
  assert (Hnight1 : night_mode_skips env td1 = false)
    by (rewrite (night_mode_skips_fixed env _ _ Hfix); exact Hnight).
  assert (Hns1 : already_sent td1 r = false)
    by (rewrite (already_sent_fixed _ _ r Hfix); exact Hns).
  destruct (check_updates_run env user_id url td1 w1 Hfind1 Hnight1)
    as (_ & _ & _ & Hsnd1).
  specialize (Hsnd1 r Hin Hns1 Hdel).
  rewrite (media_caption_fixed r td td1 Hfix) in Hsnd1. exact Hsnd1.
Qed.

(** A target without a stored text gets the report of an initial snapshot
    at every check whose fingerprint differs from the stored one. *)
Lemma detect_changes_without_content
  (env : Env) (user_id : Z) (url : string) (td : TrackedData)
  (current_content current_hash : string) (w : World) :
  td_content td = None ->
  current_hash <> default "" (td_content_hash td) ->
  result (detect_changes env user_id url td current_content current_hash) w =
    Ret (true, "🔍 Initial Content Saved: " +:+ url).
Proof.
  intros Hcontent Hhash. unfold result, detect_changes.
  destruct (String.eqb_spec current_hash (default "" (td_content_hash td)));
    [contradiction|]. cbn [negb]. rewrite Hcontent. cbn [default nonempty].
  erewrite bind_run
    by (apply track_statistics_valid, valid_events_cases; auto).
  reflexivity.
Qed.

(** A request that raises is turned into an empty page. *)
Lemma get_webpage_content_swallows_failure (env : Env) (url : string) (w : World) :
  http_get env url = None ->
  get_webpage_content env url w = (Ret ("", []), add_events [EvFetch url] w).
Proof. intros H. rewrite get_webpage_content_run, H. reflexivity. Qed.

(** ** The download handler: the other paths *)

Lemma py_len_take n s : py_len (py_take n s) = Nat.min n (py_len s).
Proof.
  revert n. induction s as [|c s IH]; intros n; cbn [py_take py_len].
  - destruct n; reflexivity.
  - destruct (is_continuation c) eqn:Hc.
    + cbn [py_len]. rewrite Hc. apply IH.
    + destruct n as [|n]; [reflexivity|].
      cbn [py_len]. rewrite Hc, IH. reflexivity.
Qed.

(** The whole run of the handler for a download that is not split.  When
    the transport raises, the handler of the [try] block raises in turn on
    the name [logger]: no reply follows the send. *)
Lemma ytdl_handler_small_file_run env message h url file_path content :
  default false (active_tasks h !! chat_id message) = false ->
  strip (String.concat " " (tail (command message))) = url ->
  nonempty url = true ->
  ytdl env url = Some (file_path, content) ->
  nonempty file_path = true ->
  size content <= 2 * 1024 ^ 3 ->
  let chat := chat_id message in
  let caption :=
    py_take 1024 ("📥 Downloaded from " +:+ url +:+ nl +:+
                  "💳 Name: " +:+ basename file_path) in
  let send := HSend (send_methods (file_type_of env file_path)) chat file_path caption in
  ytdl_handler env message h =
    (if send_ok env file_path then Ret tt else Raise logger_undefined,
     {| files := if send_ok env file_path then delete file_path (files h)
                 else <[file_path := content]> (files h);
        active_tasks := delete chat (active_tasks h);
        progress_data := delete chat (progress_data h);
        hlog := hlog h ++
                (HReply chat "📥 Starting download..." :: send ::
                 if send_ok env file_path then [HRemove file_path] else []) |}).
Proof.
  intros Hbusy Hurl Hne Hdl Hname Hsize chat caption send. subst chat.
  unfold ytdl_handler. unfold bind at 1. unfold gets at 1. cbn [fst snd].
  rewrite Hbusy. unfold is_authorized. cbn [negb]. rewrite Hurl, Hne. cbn [negb].
  unfold try_finally, try_except, ytdl_download_file, try_except.
  rewrite Hdl.
  cbv [bind modify ret gets host_emit set_active_tasks set_progress_data set_files
       files active_tasks progress_data hlog].
  unfold truthy_str. rewrite Hname.
  cbv [bind modify ret gets host_emit getsize set_active_tasks set_progress_data set_files
       files active_tasks progress_data hlog].
  rewrite lookup_insert_eq.
  destruct (Z.gtb_spec (size content) (2 * 1024 ^ 3)) as [Hgt|_]; [lia|].
  unfold host_send, remove, logger_error.
  cbv [bind modify ret gets host_emit raise set_active_tasks set_progress_data set_files
       files active_tasks progress_data hlog].
  destruct (send_ok env file_path) eqn:Hok.
  - rewrite lookup_insert_eq.
    rewrite !delete_insert_eq.
    rewrite <- !app_assoc. reflexivity.
  - rewrite !delete_insert_eq. rewrite <- !app_assoc. reflexivity.
Qed.

(** The whole run of the handler when the download fails: the handler of
    [ytdl_download] raises on the name [logger], the exception reaches the
    handler of [ytdl_handler], which raises in the same way. *)
Lemma ytdl_handler_download_failed_run env message h url :
  default false (active_tasks h !! chat_id message) = false ->
  strip (String.concat " " (tail (command message))) = url ->
  nonempty url = true ->
  ytdl env url = None ->
  ytdl_handler env message h =
    (Raise logger_undefined,
     {| files := files h;
        active_tasks := delete (chat_id message) (active_tasks h);
        progress_data := delete (chat_id message) (progress_data h);
        hlog := hlog h ++ [HReply (chat_id message) "📥 Starting download..."] |}).
Proof.
  intros Hbusy Hurl Hne Hdl.
  unfold ytdl_handler. unfold bind at 1. unfold gets at 1. cbn [fst snd].
  rewrite Hbusy. unfold is_authorized. cbn [negb]. rewrite Hurl, Hne. cbn [negb].
  unfold try_finally, try_except, ytdl_download_file, try_except, logger_error.
  rewrite Hdl.
  cbv [bind modify ret gets raise host_emit set_active_tasks set_progress_data set_files
       files active_tasks progress_data hlog].
  rewrite !delete_insert_eq. reflexivity.
Qed.

(** The whole run of the handler when the downloader gives an empty file
    name: the test [if not file_path] takes it for a failed download. *)
Lemma ytdl_handler_empty_name_run env message h url content :
  default false (active_tasks h !! chat_id message) = false ->
  strip (String.concat " " (tail (command message))) = url ->
  nonempty url = true ->
  ytdl env url = Some ("", content) ->
  ytdl_handler env message h =
    (Ret tt,
     {| files := <["" := content]> (files h);
        active_tasks := delete (chat_id message) (active_tasks h);
        progress_data := delete (chat_id message) (progress_data h);
        hlog := hlog h ++ [HReply (chat_id message) "📥 Starting download...";
                           HEdit (chat_id message) "❌ Download failed"] |}).
Proof.
  intros Hbusy Hurl Hne Hdl.
  unfold ytdl_handler. unfold bind at 1. unfold gets at 1. cbn [fst snd].
  rewrite Hbusy. unfold is_authorized. cbn [negb]. rewrite Hurl, Hne. cbn [negb].
  unfold try_finally, try_except, ytdl_download_file, try_except.
  rewrite Hdl.
  cbv [bind modify ret gets raise host_emit set_active_tasks set_progress_data set_files
       files active_tasks progress_data hlog truthy_str nonempty].
  rewrite !delete_insert_eq, <- !app_assoc. reflexivity.
Qed.

(** X1: a command that arrives while a download of the chat is running,
    or that names no URL, is answered by one reply and changes nothing
    else: no file, no download, and the marker of the running task and the
    progress entry stay as they were (the command returns before the
    [try] block, so its [finally] does not clear them). *)
Theorem ytdl_handler_refuses_before_it_starts
  (env : HostEnv) (message : Message) (h : Host) :
  let chat := chat_id message in
  let answered text :=
    ytdl_handler env message h =
      (Ret tt, {| files := files h; active_tasks := active_tasks h;
                  progress_data := progress_data h;
                  hlog := hlog h ++ [HReply chat text] |}) in
  (active_tasks h !! chat = Some true ->
     answered "⏳ A download is already in progress. Please wait...") /\
  (default false (active_tasks h !! chat) = false ->
   strip (String.concat " " (tail (command message))) = "" ->
     answered "❌ Please provide a URL to download").
Proof.
  cbv zeta. split.
  - intros Hbusy. unfold ytdl_handler. unfold bind at 1. unfold gets at 1.
    rewrite Hbusy. reflexivity.
  - intros Hidle Hurl. unfold ytdl_handler. unfold bind at 1. unfold gets at 1.
    rewrite Hidle, Hurl. reflexivity.
Qed.

Lemma ytdl_handler_refuses_before_it_starts_witness :
  hlog (exec (ytdl_handler accepting_transport clip_message) busy_host) =
    [HReply 7 "⏳ A download is already in progress. Please wait..."] /\
  hlog (exec (ytdl_handler accepting_transport bare_message) idle_host) =
    [HReply 7 "❌ Please provide a URL to download"].
Proof.
  unfold exec. split.
  - rewrite (proj1 (ytdl_handler_refuses_before_it_starts accepting_transport
                      clip_message busy_host)); reflexivity.
  - rewrite (proj2 (ytdl_handler_refuses_before_it_starts accepting_transport
                      bare_message idle_host)); reflexivity.
Defined.

(** X2: a command that is accepted (no task running for the chat, a URL
    given) ends with the chat released on every path: the marker and the
    progress entry of the chat are gone and those of the other chats are as
    before, whatever the download, the splitter and the transport of the
    files did, because the [finally] block runs also when the handler of the
    [try] block raises.  The command either returns or ends with the
    [NameError] of the name [logger], which [D5dl.py] never binds; it ends
    with that error whenever the download failed. *)
Theorem accepted_command_releases_the_chat_on_every_path
  (env : HostEnv) (message : Message) (h : Host) :
  default false (active_tasks h !! chat_id message) = false ->
  nonempty (strip (String.concat " " (tail (command message)))) = true ->
  0 <= io_buffer_size env ->
  let h' := exec (ytdl_handler env message) h in
  active_tasks h' = delete (chat_id message) (active_tasks h) /\
  progress_data h' = delete (chat_id message) (progress_data h) /\
  (result (ytdl_handler env message) h = Ret tt \/
   result (ytdl_handler env message) h = Raise logger_undefined) /\
  (ytdl env (strip (String.concat " " (tail (command message)))) = None ->
   result (ytdl_handler env message) h = Raise logger_undefined).
Proof.
  intros Hbusy Hne Hbuf. cbv zeta. unfold exec, result.
  destruct (ytdl env (strip (String.concat " " (tail (command message)))))
    as [[file_path content]|] eqn:Hdl.
  - destruct (nonempty file_path) eqn:Hname.
    + destruct (Z.le_gt_cases (size content) (2 * 1024 ^ 3)) as [Hsmall|Hbig].
      * rewrite (ytdl_handler_small_file_run env message h _ file_path content
                   Hbusy eq_refl Hne Hdl Hname Hsmall).
        cbn [fst snd active_tasks progress_data].
        repeat split; try discriminate.
        destruct (send_ok env file_path); auto.
      * rewrite (ytdl_handler_large_file env message h _ file_path content
                   Hbusy eq_refl Hne Hdl Hname Hbig).
        destruct (large_file_tail_run env (chat_id message)
                    (strip (String.concat " " (tail (command message)))) file_path content
                    (at_split message file_path content h))
          as (ps & hs & h' & _ & _ & _ & _ & Hrun & _ & _ & _ & _ & Hact & Hprog);
          [apply lookup_insert_eq|exact Hbuf|].
        cbv zeta in Hrun. rewrite Hrun. cbn [fst snd].
        rewrite Hact, Hprog. unfold at_split. cbn [active_tasks progress_data].
        rewrite !delete_insert_eq.
        repeat split; try discriminate.
        destruct (nth_error ps _); auto.
    + destruct file_path; [|discriminate Hname].
      rewrite (ytdl_handler_empty_name_run env message h _ content Hbusy eq_refl Hne Hdl).
      cbn [fst snd active_tasks progress_data]. repeat split; try discriminate. auto.
  - rewrite (ytdl_handler_download_failed_run env message h _ Hbusy eq_refl Hne Hdl).
    cbn [fst snd active_tasks progress_data]. auto.
Qed.

Lemma accepted_command_releases_the_chat_on_every_path_witness :
  (active_tasks (exec (ytdl_handler accepting_transport clip_message) busy_elsewhere) =
     delete 7 (active_tasks busy_elsewhere) /\
   active_tasks (exec (ytdl_handler accepting_transport clip_message) busy_elsewhere) !! 8 =
     Some true /\
   result (ytdl_handler accepting_transport clip_message) busy_elsewhere = Ret tt) /\
  (active_tasks (exec (ytdl_handler accepting_transport missing_message) idle_host) =
     delete 7 (active_tasks idle_host) /\
   result (ytdl_handler accepting_transport missing_message) idle_host =
     Raise logger_undefined).
Proof.
  split.
  - destruct (accepted_command_releases_the_chat_on_every_path accepting_transport
                clip_message busy_elsewhere) as (Hact & _ & _ & _);
      [reflexivity|reflexivity|cbn; lia|].
    split; [exact Hact|]. split; [rewrite Hact|]; reflexivity.
  - destruct (accepted_command_releases_the_chat_on_every_path accepting_transport
                missing_message idle_host) as (Hact & _ & _ & Hfail);
      [reflexivity|reflexivity|cbn; lia|].
    split; [exact Hact|]. apply Hfail. reflexivity.
Defined.

(** X3: when the download fails the user is told nothing about it: the
    handler of [ytdl_download] evaluates the name [logger], which
    [D5dl.py] never binds, the [NameError] reaches the handler of
    [ytdl_handler], which evaluates the same name.  The command ends with
    that error after its first reply; the edit that reports the failed
    download is never made, nothing is sent, no file is created or removed,
    and the chat is released. *)
Theorem failed_download_ends_with_the_name_error_and_no_report
  (env : HostEnv) (message : Message) (h : Host) :
  default false (active_tasks h !! chat_id message) = false ->
  nonempty (strip (String.concat " " (tail (command message)))) = true ->
  ytdl env (strip (String.concat " " (tail (command message)))) = None ->
  let h' := exec (ytdl_handler env message) h in
  result (ytdl_handler env message) h = Raise logger_undefined /\
  files h' = files h /\
  hlog h' = hlog h ++ [HReply (chat_id message) "📥 Starting download..."] /\
  active_tasks h' !! chat_id message = None.
Proof.
  intros Hbusy Hne Hdl. cbv zeta. unfold exec, result.
  rewrite (ytdl_handler_download_failed_run env message h _ Hbusy eq_refl Hne Hdl).
  cbn. split; [reflexivity|]. split; [reflexivity|]. split; [reflexivity|].
  apply lookup_delete_eq.
Qed.

Lemma failed_download_ends_with_the_name_error_and_no_report_witness :
  result (ytdl_handler accepting_transport missing_message) idle_host =
    Raise logger_undefined /\
  files (exec (ytdl_handler accepting_transport missing_message) idle_host) =
    files idle_host /\
  hlog (exec (ytdl_handler accepting_transport missing_message) idle_host) =
    hlog idle_host ++ [HReply 7 "📥 Starting download..."] /\
  active_tasks (exec (ytdl_handler accepting_transport missing_message) idle_host) !! 7 =
    None.
Proof.
  apply (failed_download_ends_with_the_name_error_and_no_report accepting_transport
           missing_message idle_host); reflexivity.
Defined.

(** X4: a download of at most 2 GiB (the bound included) is not split: it
    is handed to the transport once, whole, by the method of its file type
    and with a caption of at most 1024 code points.  The file is removed
    only after the send has returned, and the handler returns then.  When
    the transport raises, nothing follows the send: the file stays on disk,
    no reply is made and the command ends with the [NameError] of the name
    [logger].  No other file is touched. *)
Theorem small_download_is_sent_whole_and_removed_after_its_send
  (env : HostEnv) (message : Message) (h : Host) (url file_path : string)
  (content : list byte) :
  default false (active_tasks h !! chat_id message) = false ->
  strip (String.concat " " (tail (command message))) = url ->
  nonempty url = true ->
  ytdl env url = Some (file_path, content) ->
  nonempty file_path = true ->
  size content <= 2 * 1024 ^ 3 ->
  let chat := chat_id message in
  let h' := exec (ytdl_handler env message) h in
  let caption :=
    py_take 1024 ("📥 Downloaded from " +:+ url +:+ nl +:+
                  "💳 Name: " +:+ basename file_path) in
  (py_len caption <= 1024)%nat /\
  result (ytdl_handler env message) h =
    (if send_ok env file_path then Ret tt else Raise logger_undefined) /\
  hlog h' = hlog h ++
    (HReply chat "📥 Starting download..." ::
     HSend (send_methods (file_type_of env file_path)) chat file_path caption ::
     if send_ok env file_path then [HRemove file_path] else []) /\
  files h' !! file_path = (if send_ok env file_path then None else Some content) /\
  (forall p, p <> file_path -> files h' !! p = files h !! p).
Proof.
  intros Hbusy Hurl Hne Hdl Hname Hsize chat h' caption. subst h'. unfold exec, result.
  rewrite (ytdl_handler_small_file_run env message h url file_path content
             Hbusy Hurl Hne Hdl Hname Hsize).
  cbn [fst snd hlog files]. split; [subst caption; rewrite py_len_take; lia|].
  split; [reflexivity|]. split; [reflexivity|]. split.
  - destruct (send_ok env file_path); [apply lookup_delete_eq|apply lookup_insert_eq].
  - intros p Hp. destruct (send_ok env file_path);
      [apply lookup_delete_ne|apply lookup_insert_ne]; congruence.
Qed.

Lemma small_download_is_sent_whole_and_removed_after_its_send_witness :
  (result (ytdl_handler accepting_transport clip_message) idle_host = Ret tt /\
   files (exec (ytdl_handler accepting_transport clip_message) idle_host) !! "clip.mp4" =
     None) /\
  (result (ytdl_handler refusing_clip_transport clip_message) idle_host =
     Raise logger_undefined /\
   hlog (exec (ytdl_handler refusing_clip_transport clip_message) idle_host) =
     [HReply 7 "📥 Starting download...";
      HSend send_video 7 "clip.mp4"
        ("📥 Downloaded from http://a/clip" +:+ nl +:+ "💳 Name: clip.mp4")] /\
   files (exec (ytdl_handler refusing_clip_transport clip_message) idle_host) !! "clip.mp4" =
     Some [x01; x02; x03]).
Proof.
  split.
  - destruct (small_download_is_sent_whole_and_removed_after_its_send accepting_transport
                clip_message idle_host "http://a/clip" "clip.mp4" [x01; x02; x03])
      as (_ & Hres & _ & Hfile & _); try reflexivity; [vm_compute; discriminate|].
    split; [exact Hres|exact Hfile].
  - destruct (small_download_is_sent_whole_and_removed_after_its_send
                refusing_clip_transport clip_message idle_host "http://a/clip" "clip.mp4"
                [x01; x02; x03])
      as (_ & Hres & Hlog & Hfile & _); try reflexivity; [vm_compute; discriminate|].
    split; [exact Hres|]. split; [exact Hlog|exact Hfile].
Defined.

(** X5: for every buffer size of the runtime and every positive chunk
    size, [split_file] on a file that exists returns the names
    [.part000], [.part001], ... of files that exist, none empty, each
    of at most the chunk size and all but the last of exactly that size;
    read back in order they are a prefix of the input.  What is missing
    after the prefix was held in the buffer of a part file when its size on
    disk was tested.  The input file itself is left as it was, and so is
    every file that does not have the name of a part. *)
Theorem split_file_parts_are_a_prefix_of_the_file
  (bufsize chunk_size : Z) (file_path : string) (f : list byte) (h : Host) :
  0 <= bufsize -> 0 < chunk_size ->
  files h !! file_path = Some f ->
  exists part_paths h' lost,
    split_file bufsize file_path chunk_size h = (Ret part_paths, h') /\
    part_paths = part_names file_path 0 (length part_paths) /\
    f = concat (map (fun p => default [] (files h' !! p)) part_paths) ++ lost /\
    (lost = [] \/ size (take_z chunk_size lost) <= bufsize) /\
    (forall i p, part_paths !! i = Some p ->
       exists c, files h' !! p = Some c /\ 0 < size c <= chunk_size /\
                 (S i < length part_paths -> size c = chunk_size)%nat) /\
    files h' !! file_path = Some f /\
    (forall p, (forall j, 0 <= j -> p <> part_path_of file_path j) ->
       files h' !! p = files h !! p).
Proof.
  intros Hbuf Hchunk Hfile.
  destruct (split_file_spec bufsize chunk_size file_path f h Hbuf Hchunk Hfile)
    as (cs & rest & h' & Hrun & Hf & Hrest & Hparts & Hframe & _).
  exists (part_names file_path 0 (length cs)), h', rest.
  rewrite length_part_names.
  split; [exact Hrun|]. split; [reflexivity|]. split.
  { rewrite (read_parts_back (files h') file_path cs 0); [exact Hf|].
    intros i c Hc. rewrite Z.add_0_l. apply (Hparts i c Hc). }
  split; [destruct Hrest as [?|[? _]]; auto|]. split.
  { intros i p Hp. apply part_names_lookup in Hp as [Hi ->].
    destruct (lookup_lt_is_Some_2 cs i Hi) as [c Hc].
    destruct (Hparts i c Hc) as (Hsize & Hfull & Hfile').
    exists c. rewrite Z.add_0_l. split; [exact Hfile'|]. split; [lia|exact Hfull]. }
  split; [|exact Hframe].
  rewrite Hframe; [exact Hfile|]. intros j _. apply part_path_of_not_file.
Qed.

Lemma split_file_parts_are_a_prefix_of_the_file_witness :
  exists part_paths h' lost,
    split_file 2 "video.mp4" 4 host_with_file = (Ret part_paths, h') /\
    part_paths = part_names "video.mp4" 0 (length part_paths) /\
    [x01; x02; x03; x04; x05] =
      concat (map (fun p => default [] (files h' !! p)) part_paths) ++ lost /\
    (lost = [] \/ size (take_z 4 lost) <= 2) /\
    (forall i p, part_paths !! i = Some p ->
       exists c, files h' !! p = Some c /\ 0 < size c <= 4 /\
                 ((S i < length part_paths)%nat -> size c = 4)) /\
    files h' !! "video.mp4" = Some [x01; x02; x03; x04; x05] /\
    (forall p, (forall j, 0 <= j -> p <> part_path_of "video.mp4" j) ->
       files h' !! p = files host_with_file !! p).
Proof.
  apply (split_file_parts_are_a_prefix_of_the_file 2 4 "video.mp4"
           [x01; x02; x03; x04; x05] host_with_file); [lia|lia|reflexivity].
Defined.

(** X6: the names of the parts are distinct for distinct part numbers,
    also beyond 999 parts where the number takes more than three digits,
    and no part has the name of the file that is split: a part never
    overwrites another part or the input. *)
Theorem part_files_never_collide (file_path : string) (a b : Z) :
  0 <= a -> 0 <= b ->
  (part_path_of file_path a = part_path_of file_path b -> a = b) /\
  part_path_of file_path a <> file_path.
Proof.
  intros Ha Hb. split; [apply part_path_of_inj; assumption|].
  intros Heq. exact (part_path_of_not_file file_path a (eq_sym Heq)).
Qed.

Lemma part_files_never_collide_witness :
  (part_path_of "video.mp4" 999 = part_path_of "video.mp4" 1000 -> 999 = 1000) /\
  part_path_of "video.mp4" 999 <> "video.mp4".
Proof. apply (part_files_never_collide "video.mp4" 999 1000); lia. Defined.

(** ** White space

    A command with a no-break space, an em space and a newline around
    its argument. *)
Example strip_removes_unicode_white_space :
  strip (utf8 [194; 160]%nat +:+ "http://a/" +:+ utf8 [226; 128; 131]%nat +:+ nl)
    = "http://a/" /\
  strip (" a b " +:+ utf8 [28]%nat) = "a b" /\
  strip "é" = "é".
Proof. repeat split; reflexivity. Qed.

(** A pass and a command on pages with a link that [urljoin] refuses: the
    pass ends before anything is sent or written, the command before its
    reply. *)
Example pass_is_ended_by_a_refused_link :
  check_website_updates broken_bot_env sample_bot =
    (Raise (ValueError "Invalid IPv6 URL"), sample_bot).
Proof. reflexivity. Qed.

(** ** Messages in chunks *)

Lemma py_take_drop n s : py_take n s +:+ py_drop n s = s.
Proof.
  revert n. induction s as [|c s IH]; intros n; cbn [py_take py_drop]; [reflexivity|].
  destruct (is_continuation c).
  - change (String c (py_take n s +:+ py_drop n s) = String c s). rewrite IH. reflexivity.
  - destruct n as [|n]; [reflexivity|].
    change (String c (py_take n s +:+ py_drop n s) = String c s). rewrite IH. reflexivity.
Qed.

Lemma length_py_drop_le n s : (String.length (py_drop n s) <= String.length s)%nat.
Proof.
  revert n. induction s as [|c s IH]; intros n; cbn [py_drop String.length]; [lia|].
  destruct (is_continuation c); [specialize (IH n); lia|].
  destruct n as [|n]; [cbn [String.length]; lia|specialize (IH n); lia].
Qed.

Lemma length_py_drop_lt n s :
  (0 < n)%nat -> nonempty s = true ->
  (String.length (py_drop n s) < String.length s)%nat.
Proof.
  intros Hn Hs. destruct s as [|c s]; [discriminate Hs|].
  cbn [py_drop String.length]. destruct (is_continuation c).
  - pose proof (length_py_drop_le n s). lia.
  - destruct n as [|n]; [lia|]. pose proof (length_py_drop_le n s). lia.
Qed.

Lemma py_take_nonempty n s :
  (0 < n)%nat -> nonempty s = true -> nonempty (py_take n s) = true.
Proof.
  intros Hn Hs. destruct s as [|c s]; [discriminate Hs|].
  cbn [py_take]. destruct (is_continuation c); [reflexivity|].
  destruct n as [|n]; [lia|reflexivity].
Qed.

(** When something follows the first [n] code points, the slice has all
    [n] of them. *)
Lemma py_len_take_full n s :
  nonempty (py_drop n s) = true -> py_len (py_take n s) = n.
Proof.
  revert n. induction s as [|c s IH]; intros n; cbn [py_take py_drop];
    [intros H; discriminate H|].
  destruct (is_continuation c) eqn:Hc.
  - intros H. cbn [py_len]. rewrite Hc. apply IH, H.
  - destruct n as [|n]; [reflexivity|].
    intros H. cbn [py_len]. rewrite Hc, (IH n H). reflexivity.
Qed.

Lemma add_events_nil w : add_events [] w = w.
Proof. destruct w. unfold add_events. cbn. rewrite app_nil_r. reflexivity. Qed.

Lemma add_events_app evs1 evs2 w :
  add_events evs2 (add_events evs1 w) = add_events (evs1 ++ evs2) w.
Proof. unfold add_events. cbn. rewrite app_assoc. reflexivity. Qed.

Lemma safe_send_rounds_chunks user_id :
  forall rounds text w,
    (String.length text <= rounds)%nat ->
    exists chunks,
      safe_send_rounds rounds user_id text w =
        (Ret tt, add_events (map (EvMessage user_id) chunks) w) /\
      fold_right String.append "" chunks = text /\
      (forall i c, chunks !! i = Some c ->
         nonempty c = true /\ (py_len c <= 4096)%nat /\
         (S i < length chunks -> py_len c = 4096)%nat).
Proof.
  induction rounds as [|rounds IH]; intros text w Hlen.
  - exists []. destruct text; [|cbn in Hlen; lia].
    split; [|split; [reflexivity|intros i c Hc; discriminate Hc]].
    cbn [safe_send_rounds map]. rewrite add_events_nil. reflexivity.
  - cbn [safe_send_rounds]. destruct (nonempty text) eqn:Hne.
    + remember 4096%nat as k eqn:Hk in *.
      assert (Hkpos : (0 < k)%nat) by (subst k; apply Nat.lt_0_succ).
      clear Hk.
      destruct (IH (py_drop k text) (add_events [EvMessage user_id (py_take k text)] w))
        as (chunks & Hrun & Hcat & Hsizes).
      { pose proof (length_py_drop_lt k text Hkpos Hne). lia. }
      exists (py_take k text :: chunks). split.
      { unfold bind, emit, modify. fold (add_events [EvMessage user_id (py_take k text)] w).
        rewrite Hrun, add_events_app. reflexivity. }
      split.
      { cbn [fold_right]. rewrite Hcat. apply py_take_drop. }
      intros [|i] c Hc.
      * change (Some (py_take k text) = Some c) in Hc. injection Hc as Hc. subst c.
        split; [apply py_take_nonempty; assumption|].
        rewrite py_len_take. split; [lia|].
        intros Hmore. destruct chunks as [|c' cs]; [cbn in Hmore; lia|].
        destruct (Hsizes 0%nat c' eq_refl) as [Hpos _].
        rewrite <- py_len_take. apply py_len_take_full.
        rewrite <- Hcat. cbn [fold_right].
        destruct c'; [discriminate Hpos|reflexivity].
      * destruct (Hsizes i c Hc) as (Hpos & Hsz & Hfull).
        split; [exact Hpos|]. split; [exact Hsz|].
        intros Hmore. apply Hfull. cbn [length] in Hmore. lia.
    + exists []. destruct text; [|discriminate Hne].
      split; [|split; [reflexivity|intros i c Hc; discriminate Hc]].
      cbn [map]. rewrite add_events_nil. reflexivity.
Qed.

(** X7: [safe_send_message] sends the text in order in chunks of at most
    4096 code points, all but the last of exactly 4096: put together the
    chunks are the text.  No empty message is sent, and for the empty text
    none at all.  The limit counts code points, as the slices of the source
    do, whatever number of bytes a character takes. *)
Theorem safe_send_message_sends_the_text_in_chunks (user_id : Z) (text : string) (w : World) :
  exists chunks,
    safe_send_message user_id text w =
      (Ret tt, add_events (map (EvMessage user_id) chunks) w) /\
    fold_right String.append "" chunks = text /\
    (forall i c, chunks !! i = Some c ->
       nonempty c = true /\ (py_len c <= 4096)%nat /\
       (S i < length chunks -> py_len c = 4096)%nat).
Proof. apply safe_send_rounds_chunks. unfold ge. reflexivity. Qed.

(** A text of 3000 two-byte characters is one message. *)
Example safe_send_message_counts_code_points :
  let text := String.concat "" (repeat "é" 3000) in
  String.length text = (2 * 3000)%nat /\
  trace (safe_send_message 7 text) empty_world = [EvMessage 7 text].
Proof. vm_compute. split; reflexivity. Qed.

(** ** The summary of a user *)

Lemma filter_user_update_one_inc_other user_id url k u' docs :
  u' <> user_id ->
  filter (fun d => sd_user_id d = u') (update_one_inc user_id url k docs) =
  filter (fun d => sd_user_id d = u') docs.
Proof.
  intros Hne. induction docs as [|d ds IH]; cbn [update_one_inc].
  - rewrite filter_cons_False by (cbn; congruence). reflexivity.
  - destruct (stat_matches user_id url d) eqn:Hm.
    + apply stat_matches_true in Hm as [Hu _].
      rewrite !filter_cons_False by (cbn; congruence). reflexivity.
    + rewrite !filter_cons, IH. reflexivity.
Qed.

(** X12: recording an event for one user, of whatever kind and outcome,
    leaves the summary of every other user as it was. *)
Theorem track_statistics_leaves_other_users_summary
  (event_type : string) (user_id : Z) (url : string) (success : bool) (w : World)
  (other : Z) :
  other <> user_id ->
  get_statistics other (exec (track_statistics event_type user_id url success) w) =
  get_statistics other w.
Proof.
  intros Hne. unfold track_statistics, exec.
  destruct (bool_decide (event_type ∈ valid_events)); cbn; [|reflexivity].
  unfold get_statistics. cbn [stats set_stats].
  rewrite filter_user_update_one_inc_other by exact Hne. reflexivity.
Qed.

Lemma track_statistics_leaves_other_users_summary_witness :
  get_statistics 8 (exec (track_statistics "downloads" 7 "http://a/" true) empty_world) =
  get_statistics 8 empty_world.
Proof.
  apply (track_statistics_leaves_other_users_summary "downloads" 7 "http://a/" true
           empty_world 8).
  discriminate.
Defined.

Lemma user_sum_update_one_inc user_id url k e o docs :
  acc_sum (map (fun d => field d e o)
             (filter (fun d => sd_user_id d = user_id) (update_one_inc user_id url k docs))) =
  acc_sum (map (fun d => field d e o) (filter (fun d => sd_user_id d = user_id) docs))
  + (if decide ((e, o) = k) then 1 else 0).
Proof.
  induction docs as [|d ds IH]; cbn [update_one_inc].
  - rewrite filter_cons_True by reflexivity. rewrite filter_nil. cbn [map].
    rewrite acc_sum_cons. unfold field; cbn [sd_stats].
    rewrite field_inc_field, lookup_empty. cbn. lia.
  - destruct (stat_matches user_id url d) eqn:Hm.
    + apply stat_matches_true in Hm as [Hu _].
      rewrite !filter_cons_True by (cbn; congruence). cbn [map].
      rewrite !acc_sum_cons. unfold field at 1 3; cbn [sd_stats].
      rewrite field_inc_field. lia.
    + rewrite !filter_cons. destruct (decide (sd_user_id d = user_id)); cbn [map].
      * rewrite !acc_sum_cons, IH. lia.
      * apply IH.
Qed.

Lemma user_count_update_one_inc user_id url k docs :
  acc_sum (map (fun _ : StatDoc => Some 1)
             (filter (fun d => sd_user_id d = user_id) (update_one_inc user_id url k docs))) =
  acc_sum (map (fun _ : StatDoc => Some 1) (filter (fun d => sd_user_id d = user_id) docs))
  + (if existsb (stat_matches user_id url) docs then 0 else 1).
Proof.
  induction docs as [|d ds IH]; cbn [update_one_inc existsb].
  - rewrite filter_cons_True by reflexivity. reflexivity.
  - destruct (stat_matches user_id url d) eqn:Hm; cbn [orb].
    + apply stat_matches_true in Hm as [Hu _].
      rewrite !filter_cons_True by (cbn; congruence). cbn [map].
      rewrite !acc_sum_cons. lia.
    + rewrite !filter_cons. destruct (decide (sd_user_id d = user_id)); cbn [map].
      * rewrite !acc_sum_cons, IH. lia.
      * apply IH.
Qed.

Lemma filter_user_update_one_inc_nonempty user_id url k docs :
  filter (fun d => sd_user_id d = user_id) (update_one_inc user_id url k docs) <> [].
Proof.
  induction docs as [|d ds IH]; cbn [update_one_inc].
  - rewrite filter_cons_True by reflexivity. discriminate.
  - destruct (stat_matches user_id url d) eqn:Hm.
    + apply stat_matches_true in Hm as [Hu _].
      rewrite filter_cons_True by (cbn; congruence). discriminate.
    + rewrite filter_cons. destruct (decide (sd_user_id d = user_id)); [discriminate|exact IH].
Qed.

Lemma get_statistics_fields user_id w :
  let docs := filter (fun d => sd_user_id d = user_id) (stats w) in
  default 0 (success_downloads <$> get_statistics user_id w) =
    acc_sum (map (fun d => field d "downloads" "success") docs) /\
  default 0 (failed_downloads <$> get_statistics user_id w) =
    acc_sum (map (fun d => field d "downloads" "failure") docs) /\
  default 0 (total_tracked <$> get_statistics user_id w) =
    acc_sum (map (fun _ : StatDoc => Some 1) docs).
Proof.
  cbv zeta. unfold get_statistics.
  destruct (filter (fun d => sd_user_id d = user_id) (stats w)); cbn; auto.
Qed.

(** X13: a recorded download shows in the summary of its user at once:
    the summary exists, the count of successful or of failed downloads is
    one more than before (zero before the first record) and the other one
    is unchanged; the number of tracked URLs grows by one exactly when the
    URL had no statistics document yet. *)
Theorem recorded_download_is_counted_in_the_summary
  (user_id : Z) (url : string) (success : bool) (w : World) :
  let w' := exec (track_statistics "downloads" user_id url success) w in
  let before := get_statistics user_id w in
  exists s',
    get_statistics user_id w' = Some s' /\
    success_downloads s' =
      default 0 (success_downloads <$> before) + (if success then 1 else 0) /\
    failed_downloads s' =
      default 0 (failed_downloads <$> before) + (if success then 0 else 1) /\
    total_tracked s' =
      default 0 (total_tracked <$> before)
      + (if existsb (stat_matches user_id url) (stats w) then 0 else 1).
Proof.
  cbv zeta.
  unfold exec.
  rewrite (track_statistics_valid "downloads" user_id url success w downloads_valid).
  cbn [snd].
  destruct (get_statistics_fields user_id w) as (Hs & Hf & Ht). cbv zeta in Hs, Hf, Ht.
  rewrite Hs, Hf, Ht.
  set (w' := set_stats _ w).
  destruct (get_statistics user_id w') as [s'|] eqn:Hget.
  - exists s'. split; [reflexivity|].
    destruct (get_statistics_fields user_id w') as (Hs' & Hf' & Ht').
    cbv zeta in Hs', Hf', Ht'. rewrite Hget in Hs', Hf', Ht'. cbn in Hs', Hf', Ht'.
    rewrite Hs', Hf', Ht'. subst w'. cbn [stats set_stats].
    rewrite !user_sum_update_one_inc, user_count_update_one_inc.
    destruct success; cbn; repeat split; lia.
  - exfalso. unfold get_statistics in Hget. subst w'. cbn [stats set_stats] in Hget.
    pose proof (filter_user_update_one_inc_nonempty user_id url
                  ("downloads", outcome_name success) (stats w)) as Hne.
    revert Hget Hne.
    generalize (filter (fun d => sd_user_id d = user_id)
                  (update_one_inc user_id url ("downloads", outcome_name success) (stats w))).
    intros [|d l] Hget Hne; [exact (Hne eq_refl)|discriminate Hget].
Qed.

(** ** The check cycle: what it archives, downloads and sends *)

Lemma leaves_ret {S A X} (f : S -> X) (a : A) : leaves f (ret a).
Proof. intros s. reflexivity. Qed.

Lemma leaves_raise {S A X} (f : S -> X) (e : exn) : leaves f (@raise S A e).
Proof. intros s. reflexivity. Qed.

Lemma leaves_bind {S A B X} (f : S -> X) (c : M S A) (k : A -> M S B) :
  leaves f c -> (forall a, leaves f (k a)) -> leaves f (bind c k).
Proof.
  intros Hc Hk s. specialize (Hc s). unfold exec, bind in *.
  destruct (c s) as [[a|e] s1]; cbn in *; [|exact Hc].
  rewrite <- Hc. apply Hk.
Qed.

Lemma leaves_try_except {S A X} (f : S -> X) (body : M S A) handler :
  leaves f body -> (forall e, leaves f (handler e)) -> leaves f (try_except body handler).
Proof.
  intros Hb Hh s. specialize (Hb s). unfold exec, try_except in *.
  destruct (body s) as [[a|e] s1]; cbn in *; [exact Hb|].
  rewrite <- Hb. apply Hh.
Qed.

Lemma leaves_archives_emit e : leaves archives (emit e).
Proof. intros w. reflexivity. Qed.

Lemma leaves_archives_track_statistics event_type user_id url success :
  leaves archives (track_statistics event_type user_id url success).
Proof.
  intros w. unfold track_statistics, exec.
  destruct (bool_decide _); reflexivity.
Qed.

Lemma leaves_archives_safe_send_rounds rounds user_id :
  forall text, leaves archives (safe_send_rounds rounds user_id text).
Proof.
  induction rounds as [|n IH]; intros text; cbn [safe_send_rounds].
  - apply leaves_ret.
  - destruct (nonempty text); [|apply leaves_ret].
    apply leaves_bind; [apply leaves_archives_emit|intros _; apply IH].
Qed.

Lemma leaves_archives_send_media env user_id r td :
  leaves archives (send_media env user_id r td).
Proof.
  intros w. destruct (send_media_run env user_id r td w) as (evs & Hrun & _).
  unfold exec. rewrite Hrun. reflexivity.
Qed.

Lemma leaves_archives_send_new_resources env user_id url td rs :
  forall acc, leaves archives (send_new_resources env user_id url td rs acc).
Proof.
  induction rs as [|r rest IH]; intros acc; cbn [send_new_resources].
  - apply leaves_ret.
  - destruct (negb _); [|apply IH].
    apply leaves_bind; [apply leaves_archives_send_media|].
    intros [|]; (apply leaves_bind; [apply leaves_archives_track_statistics|intros _; apply IH]).
Qed.

Lemma leaves_archives_update_one_set env id u : leaves archives (update_one_set env id u).
Proof. intros w. unfold update_one_set, exec. destruct (store_accepts_dollar_fields env); reflexivity. Qed.

Lemma leaves_archives_detect_changes env user_id url td content hash :
  leaves archives (detect_changes env user_id url td content hash).
Proof.
  unfold detect_changes. destruct (negb _); [|apply leaves_ret].
  apply leaves_bind; [apply leaves_archives_track_statistics|intros _; apply leaves_ret].
Qed.

Lemma leaves_archives_cycle_failed user_id url e :
  leaves archives (cycle_failed user_id url e).
Proof.
  unfold cycle_failed.
  apply leaves_bind; [apply leaves_archives_track_statistics|intros _; apply leaves_archives_emit].
Qed.

(** X11: every cycle of a target that is found and not skipped by night
    mode adds exactly one archive entry: the text it fetched (the empty
    text when the request failed) with the time of the cycle.  This holds
    also when nothing changed, when a delivery failed and when the cycle
    ended in its error handler. *)
Theorem every_cycle_archives_the_text_it_fetched
  (env : Env) (user_id : Z) (url : string) (w : World) (tracked_data : TrackedData) :
  find_one user_id url (urls w) = Some tracked_data ->
  night_mode_skips env tracked_data = false ->
  archives (exec (check_updates env user_id url) w) =
    archives w ++ [ {| ar_user_id := user_id; ar_url := url;
                       ar_content := fetched_text env url;
                       ar_timestamp := now_time env |} ].
Proof.
  intros Hfind Hnight. unfold exec.
  rewrite (check_updates_found env user_id url tracked_data w Hfind Hnight).
  unfold try_except. 
  assert (Hbody : archives (exec (run_cycle env user_id url tracked_data) w) =
    archives w ++ [ {| ar_user_id := user_id; ar_url := url;
                       ar_content := fetched_text env url;
                       ar_timestamp := now_time env |} ]).
  { unfold exec, run_cycle.
    rewrite (bind_run _ _ _ _ _ (get_webpage_content_run env url w)).
    cbv zeta. erewrite bind_run by reflexivity.
    match goal with
    | |- archives (snd (?rest ?w0)) = _ =>
        change (archives (exec rest w0) = archives w ++
          [ {| ar_user_id := user_id; ar_url := url;
               ar_content := fetched_text env url; ar_timestamp := now_time env |} ]);
        assert (Hrest : leaves archives rest)
    end.
    { apply leaves_bind; [apply leaves_archives_detect_changes|]. intros detected.
      apply leaves_bind; [apply leaves_archives_send_new_resources|]. intros sent_hashes.
      apply leaves_bind; [|intros _; apply leaves_archives_track_statistics].
      destruct (_ || _); [|apply leaves_ret].
      apply leaves_bind; [|intros _; apply leaves_archives_update_one_set].
      destruct (nonempty _); [apply leaves_archives_safe_send_rounds|apply leaves_ret]. }
    rewrite Hrest. cbn [archives set_archives add_events].
    unfold fetched_text. destruct (http_get env url) as [[content tags]|]; reflexivity. }
  unfold exec in Hbody.
  destruct (run_cycle env user_id url tracked_data w) as [[a|e] w1]; cbn [snd] in *;
    [exact Hbody|].
  rewrite <- Hbody. apply (leaves_archives_cycle_failed user_id url e w1).
Qed.

Lemma every_cycle_archives_the_text_it_fetched_witness :
  archives (exec (check_updates (sample_env 12 (Some ("v1", [anchor "f.pdf"])) (Some 10) true)
                    7 url_a) (world_of delivered_target)) =
    archives (world_of delivered_target) ++
    [ {| ar_user_id := 7; ar_url := url_a;
         ar_content :=
           fetched_text (sample_env 12 (Some ("v1", [anchor "f.pdf"])) (Some 10) true) url_a;
         ar_timestamp :=
           now_time (sample_env 12 (Some ("v1", [anchor "f.pdf"])) (Some 10) true) |} ].
Proof.
  apply (every_cycle_archives_the_text_it_fetched
           (sample_env 12 (Some ("v1", [anchor "f.pdf"])) (Some 10) true) 7 url_a
           (world_of delivered_target) delivered_target); reflexivity.
Defined.

(** All events of a delivery step. *)
Lemma send_media_events env user_id r td w :
  let send := EvSend (send_methods (r_type r)) user_id (file_path_of env r)
                (py_take 1024 (media_caption r td)) in
  exists evs,
    send_media env user_id r td w = (Ret (delivered env r), add_events evs w) /\
    Forall (fun e => e = send \/ exists d, e = EvDownload d (r_url r) (file_path_of env r))
      evs /\
    List.filter is_send evs =
      match downloaded_size env r with
      | Some file_size => if file_size >? MAX_FILE_SIZE env then [] else [send]
      | None => []
      end.
Proof.
  cbv zeta. unfold delivered, downloaded_size, file_path_of.
  destruct (download env ytdl_download (r_url r) _) as [sz|] eqn:Hy;
    [|destruct (download env direct_download (r_url r) _) as [sz|] eqn:Hd];
    try (destruct (sz >? MAX_FILE_SIZE env) eqn:Hsz;
         [|destruct (transport_ok env (send_methods (r_type r))
                      (path_join (tmpdir env) (basename (r_url r)))) eqn:Ht]);
    (eexists; split;
     [ cbv [send_media try_except bind try_downloaders transport_send emit modify
            ret raise];
       repeat (cbn; rewrite ?Hy, ?Hd, ?Hsz, ?Ht);
       unfold add_events; cbn; rewrite <- ?app_assoc; reflexivity
     | split; [repeat (apply List.Forall_cons;
                        [first [left; reflexivity|right; eexists; reflexivity]|]);
               apply List.Forall_nil|reflexivity] ]).
Qed.

(** X8: [send_media] never raises: every failure of a download or of the
    transport gives [False].  It returns [True] exactly when a downloader
    left a file within the size limit and the transport took it.  The file
    is handed to the transport at most once, and not at all when no
    downloader succeeded or the file is too large; [direct_download] is
    tried exactly when [ytdl_download] gave nothing.  Only the log
    changes. *)
Theorem send_media_never_raises_and_sends_at_most_once
  (env : Env) (user_id : Z) (r : Resource) (tracked_data : TrackedData) (w : World) :
  let send := EvSend (send_methods (r_type r)) user_id (file_path_of env r)
                (py_take 1024 (media_caption r tracked_data)) in
  exists evs,
    send_media env user_id r tracked_data w = (Ret (delivered env r), add_events evs w) /\
    List.filter is_send evs =
      match downloaded_size env r with
      | Some file_size => if file_size >? MAX_FILE_SIZE env then [] else [send]
      | None => []
      end /\
    (In (EvDownload direct_download (r_url r) (file_path_of env r)) evs <->
     download env ytdl_download (r_url r) (file_path_of env r) = None).
Proof.
  cbv zeta.
  unfold delivered, downloaded_size, file_path_of.
  destruct (download env ytdl_download (r_url r) _) as [sz|] eqn:Hy;
    [|destruct (download env direct_download (r_url r) _) as [sz|] eqn:Hd];
    try (destruct (sz >? MAX_FILE_SIZE env) eqn:Hsz;
         [|destruct (transport_ok env (send_methods (r_type r))
                      (path_join (tmpdir env) (basename (r_url r)))) eqn:Ht]);
    (eexists; split;
     [ cbv [send_media try_except bind try_downloaders transport_send emit modify
            ret raise];
       repeat (cbn; rewrite ?Hy, ?Hd, ?Hsz, ?Ht);
       unfold add_events; cbn; rewrite <- ?app_assoc; reflexivity
     | split; [reflexivity|];
       split; [intros Hin; cbn in Hin;
               repeat (destruct Hin as [Hin|Hin]; [try discriminate Hin|]);
               try destruct Hin; reflexivity
              |intros Hn; try discriminate Hn; cbn; auto] ]).
Qed.

Section PlainEvents.

Variable P : event -> Prop.
Hypothesis P_fetch : forall url, P (EvFetch url).
Hypothesis P_message : forall user_id text, P (EvMessage user_id text).

Lemma keeps_plain_safe_send_rounds rounds user_id :
  forall text, keeps P (safe_send_rounds rounds user_id text).
Proof.
  induction rounds as [|n IH]; intros text; cbn [safe_send_rounds].
  - apply keeps_ret.
  - destruct (nonempty text); [|apply keeps_ret].
    apply keeps_bind; [apply keeps_emit, P_message|intros _; apply IH].
Qed.

Lemma keeps_plain_cycle_failed user_id url e : keeps P (cycle_failed user_id url e).
Proof.
  unfold cycle_failed.
  apply keeps_bind; [apply keeps_track_statistics|].
  intros _; apply keeps_emit, P_message.
Qed.

Lemma run_cycle_shape env user_id url td w :
  exists wa wb l,
    advances P w wa /\
    send_new_resources env user_id url td (cycle_resources env user_id url) [] wa =
      (Ret l, wb) /\
    advances P wb (exec (run_cycle env user_id url td) w).
Proof.
  unfold exec, run_cycle.
  rewrite (bind_run _ _ _ _ _ (get_webpage_content_run env url w)).
  set (page := match http_get env url with
               | Some (content, tags) => (content, fold_left (scan_tag env url) tags [])
               | None => ("", [])
               end).
  assert (Hres : List.filter (fun resource => apply_filters env resource user_id)
                   (snd page) = cycle_resources env user_id url).
  { unfold cycle_resources, page.
    destruct (http_get env url) as [[content tags]|]; reflexivity. }
  cbv zeta. rewrite Hres.
  erewrite bind_run by reflexivity.
  set (w0 := set_archives _ (add_events [EvFetch url] w)).
  assert (Hadv0 : advances P w w0).
  { eapply advances_trans; [apply (advances_add_events P [EvFetch url])|].
    - repeat constructor. apply P_fetch.
    - apply (keeps_create_archive P env user_id url (fst page)
               (add_events [EvFetch url] w)). }
  destruct (detect_changes env user_id url td (fst page)
              (sha256_hexdigest env (fst page)) w0) as [[detected|e] wd] eqn:Hd.
  2:{ exfalso. destruct (detect_changes_run env user_id url td (fst page)
                 (sha256_hexdigest env (fst page)) w0) as (d' & wd' & Hd' & _).
      congruence. }
  assert (Hadvd : advances P w0 wd).
  { pose proof (keeps_detect_changes P env user_id url td (fst page)
                  (sha256_hexdigest env (fst page)) w0) as H.
    unfold exec in H. rewrite Hd in H. exact H. }
  rewrite (bind_run _ _ _ _ _ Hd).
  destruct (send_new_resources_run env user_id url td
              (cycle_resources env user_id url) [] wd)
    as (l & evs & wb & Hloop & _).
  cbn [app] in Hloop. rewrite (bind_run _ _ _ _ _ Hloop).
  exists wd, wb, l.
  split; [eapply advances_trans; eassumption|]. split; [exact Hloop|].
  match goal with
  | |- advances P wb (snd (?c wb)) => change (advances P wb (exec c wb)); revert wb Hloop
  end.
  intros wb _. revert wb.
  apply keeps_bind; [|intros _; apply keeps_track_statistics].
  destruct (_ || _); [|apply keeps_ret].
  apply keeps_bind; [|intros _; apply keeps_update_one_set].
  destruct (nonempty _); [apply keeps_plain_safe_send_rounds|apply keeps_ret].
Qed.

End PlainEvents.

Lemma for_new_resource_cons env user_id td r rs e :
  for_new_resource env user_id td rs e -> for_new_resource env user_id td (r :: rs) e.
Proof.
  intros H Ht. destruct (H Ht) as (r' & d & Hin & Hrest).
  exists r', d. split; [right; exact Hin|exact Hrest].
Qed.

Lemma keeps_send_new_resources_guard env user_id url td rs :
  forall acc,
    keeps (for_new_resource env user_id td rs)
      (send_new_resources env user_id url td rs acc).
Proof.
  induction rs as [|r rest IH]; intros acc; cbn [send_new_resources].
  - apply keeps_ret.
  - fold (already_sent td r).
    assert (Hrest : forall acc', keeps (for_new_resource env user_id td (r :: rest))
              (send_new_resources env user_id url td rest acc')).
    { intros acc' w. eapply advances_weaken; [|apply IH].
      intros e. apply for_new_resource_cons. }
    destruct (already_sent td r) eqn:Hsent; cbn [negb]; [apply Hrest|].
    apply keeps_bind.
    + intros w. destruct (send_media_events env user_id r td w) as (evs & Hrun & Hevs & _).
      unfold exec. rewrite Hrun. cbn [snd]. apply advances_add_events.
      eapply Forall_impl; [exact Hevs|]. cbv beta. intros e He _.
      destruct He as [->|[d ->]].
      * exists r, ytdl_download.
        split; [left; reflexivity|]. split; [exact Hsent|]. right. reflexivity.
      * exists r, d.
        split; [left; reflexivity|]. split; [exact Hsent|]. left. reflexivity.
    + intros [|]; (apply keeps_bind; [apply keeps_track_statistics|intros _; apply Hrest]).
Qed.

(** X9: in a cycle every download and every send is made for a resource
    of the page that passed the filters and whose fingerprint is not in
    the stored [sent_hashes] of the target: a resource whose fingerprint
    is stored is neither downloaded nor sent. *)
Theorem downloads_and_sends_are_for_fingerprints_not_stored
  (env : Env) (user_id : Z) (url : string) (w : World) (tracked_data : TrackedData) :
  find_one user_id url (urls w) = Some tracked_data ->
  night_mode_skips env tracked_data = false ->
  Forall (for_new_resource env user_id tracked_data (cycle_resources env user_id url))
    (trace (check_updates env user_id url) w).
Proof.
  intros Hfind Hnight.
  set (rs := cycle_resources env user_id url).
  set (P := for_new_resource env user_id tracked_data rs).
  assert (P_fetch : forall u, P (EvFetch u)) by (intros u Ht; discriminate Ht).
  assert (P_message : forall u t, P (EvMessage u t)) by (intros u t Ht; discriminate Ht).
  pose proof (check_updates_found env user_id url tracked_data w Hfind Hnight) as Hcu.
  assert (Hexec : exec (check_updates env user_id url) w =
                  exec (try_except (run_cycle env user_id url tracked_data)
                          (cycle_failed user_id url)) w)
    by (unfold exec; rewrite Hcu; reflexivity).
  destruct (run_cycle_shape P P_fetch P_message env user_id url tracked_data w)
    as (wa & wb & l & Ha & Hloop & Hb).
  pose proof (keeps_send_new_resources_guard env user_id url tracked_data rs [] wa) as Hl.
  unfold exec in Hl. fold rs in Hloop. rewrite Hloop in Hl. cbn [snd] in Hl. fold P in Hl.
  pose proof (advances_try_except P (run_cycle env user_id url tracked_data)
                (cycle_failed user_id url) w
                (keeps_plain_cycle_failed P P_message user_id url)) as Hc.
  rewrite <- Hexec in Hc.
  pose proof (advances_trans _ _ _ _ Ha (advances_trans _ _ _ _ Hl
               (advances_trans _ _ _ _ Hb Hc))) as (_ & (evs & Hlog & HP) & _).
  rewrite (trace_of_log _ _ _ Hlog). exact HP.
Qed.

Lemma downloads_and_sends_are_for_fingerprints_not_stored_witness :
  Forall (for_new_resource (sample_env 12 (Some ("v1", [anchor "f.pdf"])) (Some 10) true)
            7 delivered_target
            (cycle_resources (sample_env 12 (Some ("v1", [anchor "f.pdf"])) (Some 10) true)
               7 url_a))
    (trace (check_updates (sample_env 12 (Some ("v1", [anchor "f.pdf"])) (Some 10) true)
              7 url_a) (world_of delivered_target)).
Proof.
  apply (downloads_and_sends_are_for_fingerprints_not_stored
           (sample_env 12 (Some ("v1", [anchor "f.pdf"])) (Some 10) true) 7 url_a
           (world_of delivered_target) delivered_target); reflexivity.
Defined.

Lemma send_new_resources_all_known env user_id url td rs acc w :
  Forall (fun r => already_sent td r = true) rs ->
  send_new_resources env user_id url td rs acc w = (Ret acc, w).
Proof.
  induction 1 as [|r rest Hr _ IH]; [reflexivity|].
  cbn [send_new_resources]. fold (already_sent td r). rewrite Hr. exact IH.
Qed.

(** X10: a cycle on a page whose fingerprint is the stored one and whose
    resources all have stored fingerprints is quiet: it fetches the page,
    sends nothing to the user, downloads nothing, leaves the targets as
    they are (not even [last_checked] is written) and counts one successful
    check and nothing else. *)
Theorem unchanged_page_with_known_resources_is_a_quiet_check
  (env : Env) (user_id : Z) (url : string) (w : World) (tracked_data : TrackedData)
  (content : string) (tags : list Tag) :
  find_one user_id url (urls w) = Some tracked_data ->
  night_mode_skips env tracked_data = false ->
  http_get env url = Some (content, tags) ->
  td_content_hash tracked_data = Some (sha256_hexdigest env content) ->
  Forall (fun r => already_sent tracked_data r = true) (cycle_resources env user_id url) ->
  let w' := exec (check_updates env user_id url) w in
  result (check_updates env user_id url) w = Ret tt /\
  urls w' = urls w /\
  log w' = log w ++ [EvFetch url] /\
  counter_total w' user_id url "checks" "success" =
    counter_total w user_id url "checks" "success" + 1 /\
  (forall u' url' e' o',
     (u', url', (e', o')) <> (user_id, url, ("checks", "success")) ->
     counter_total w' u' url' e' o' = counter_total w u' url' e' o').
Proof.
  intros Hfind Hnight Hget Hhash Hknown. cbv zeta. unfold exec, result.
  rewrite (check_updates_found env user_id url tracked_data w Hfind Hnight).
  unfold try_except, run_cycle.
  rewrite (bind_run _ _ _ _ _ (get_webpage_content_run env url w)).
  assert (Hres : cycle_resources env user_id url =
                 List.filter (fun resource => apply_filters env resource user_id)
                   (fold_left (scan_tag env url) tags []))
    by (unfold cycle_resources; rewrite Hget; reflexivity).
  rewrite Hget. cbv zeta. cbn [fst snd].
  erewrite bind_run by reflexivity.
  unfold detect_changes. rewrite Hhash. cbn [default].
  rewrite String.eqb_refl. cbn [negb].
  erewrite bind_run by reflexivity. cbn [fst snd].
  rewrite <- Hres.
  erewrite bind_run by (apply send_new_resources_all_known; exact Hknown).
  cbn [orb nonempty_list].
  erewrite bind_run by reflexivity.
  rewrite (track_statistics_valid "checks" user_id url true _ checks_valid).
  cbn [fst snd]. split; [reflexivity|]. split; [reflexivity|]. split; [reflexivity|].
  split.
  - rewrite counter_total_recorded, decide_True by reflexivity. reflexivity.
  - intros u' url' e' o' Hne. rewrite counter_total_recorded, decide_False by exact Hne.
    rewrite Z.add_0_r. reflexivity.
Qed.

Lemma unchanged_page_with_known_resources_is_a_quiet_check_witness :
  let env := sample_env 12 (Some ("v1", [anchor "f.pdf"])) (Some 10) true in
  let w := world_of delivered_target in
  let w' := exec (check_updates env 7 url_a) w in
  result (check_updates env 7 url_a) w = Ret tt /\
  urls w' = urls w /\
  log w' = log w ++ [EvFetch url_a] /\
  counter_total w' 7 url_a "checks" "success" =
    counter_total w 7 url_a "checks" "success" + 1 /\
  (forall u' url' e' o',
     (u', url', (e', o')) <> (7, url_a, ("checks", "success")) ->
     counter_total w' u' url' e' o' = counter_total w u' url' e' o').
Proof.
  apply (unchanged_page_with_known_resources_is_a_quiet_check
           (sample_env 12 (Some ("v1", [anchor "f.pdf"])) (Some 10) true) 7 url_a
           (world_of delivered_target) delivered_target "v1" [anchor "f.pdf"]);
    try reflexivity.
  vm_compute. repeat constructor.
Defined.

Lemma uptime_ratio_when_both_counters_exist_witness :
  exists s,
    get_statistics 7
      (exec (track_statistics "checks" 7 "http://a/" true ;;;
             track_statistics "checks" 7 "http://a/" false) empty_world) = Some s /\
    uptime_percentage s = (1 # 2)%Q.
Proof.
  eexists. split; [vm_compute; reflexivity|].
  apply (uptime_ratio_when_both_counters_exist 7
           (exec (track_statistics "checks" 7 "http://a/" true ;;;
                  track_statistics "checks" 7 "http://a/" false) empty_world)).
  - vm_compute. reflexivity.
  - vm_compute. repeat constructor; eexists; reflexivity.
Defined.

(** ** The page fetch and the archive of [d5.py] *)

Lemma classify_In ext table file_type :
  classify ext table = Some file_type ->
  exists extensions, In (file_type, extensions) table /\ In ext extensions.
Proof.
  induction table as [|[ft exts] rest IH]; cbn [classify]; [discriminate|].
  destruct (existsb (String.eqb ext) exts) eqn:Hex.
  - intros [= <-]. exists exts. split; [left; reflexivity|].
    apply existsb_exists in Hex as (x & Hin & Hx). apply String.eqb_eq in Hx. subst x.
    exact Hin.
  - intros H. destruct (IH H) as (e & Hin & He). exists e. split; [right; exact Hin|exact He].
Qed.

Lemma scan_tag_classified env url acc tag :
  Forall (classified env) acc ->
  Forall (classified env) (scan_tag env url acc tag) /\
  (length (scan_tag env url acc tag) <= S (length acc))%nat.
Proof.
  intros Hacc. unfold scan_tag.
  destruct (truthy_str _) as [u|]; [|split; [exact Hacc|lia]].
  destruct (classify _ _) as [ft|] eqn:Hc; [|split; [exact Hacc|lia]].
  split.
  - apply Forall_app. split; [exact Hacc|]. repeat constructor; cbn; auto.
    apply classify_In. exact Hc.
  - rewrite length_app. cbn. lia.
Qed.

Lemma scan_tags_classified env url tags :
  forall acc,
    Forall (classified env) acc ->
    Forall (classified env) (fold_left (scan_tag env url) tags acc) /\
    (length (fold_left (scan_tag env url) tags acc) <= length acc + length tags)%nat.
Proof.
  induction tags as [|t ts IH]; intros acc Hacc; cbn [fold_left length].
  - split; [exact Hacc|lia].
  - destruct (scan_tag_classified env url acc t Hacc) as [Hf Hl].
    destruct (IH _ Hf) as [IHf IHl]. split; [exact IHf|lia].
Qed.

(** X15: [get_webpage_content] always returns a pair (it never raises).
    Each resource of the pair carries the fingerprint of its own URL, so
    the same URL has the same fingerprint in every cycle, and the first
    type of [SUPPORTED_EXTENSIONS] that lists the lower-cased extension of
    the URL.  An element of the page gives at most one resource. *)
Theorem get_webpage_content_classifies_and_fingerprints_each_resource
  (env : Env) (url : string) (w : World) :
  exists content resources,
    result (get_webpage_content env url) w = Ret (content, resources) /\
    Forall (classified env) resources /\
    (length resources <= length (default [] (snd <$> http_get env url)))%nat.
Proof.
  unfold result. rewrite get_webpage_content_run. cbn [fst].
  destruct (http_get env url) as [[content tags]|];
    cbn [fmap option_fmap option_map default snd].
  2:{ exists "", []. split; [reflexivity|]. split; [constructor|reflexivity]. }
  exists content, (fold_left (scan_tag env url) tags []). split; [reflexivity|].
  apply (scan_tags_classified env url tags []). constructor.
Qed.

Lemma insert_newest_first_perm a l : Permutation (insert_newest_first a l) (a :: l).
Proof.
  induction l as [|b rest IH]; cbn [insert_newest_first]; [reflexivity|].
  destruct (ar_timestamp b <=? ar_timestamp a); [reflexivity|].
  rewrite IH. apply perm_swap.
Qed.

Lemma sort_newest_first_perm l : Permutation (sort_newest_first l) l.
Proof.
  induction l as [|a l IH]; cbn; [reflexivity|].
  rewrite insert_newest_first_perm, IH. reflexivity.
Qed.

Lemma insert_newest_first_sorted a l :
  StronglySorted newer_or_same l -> StronglySorted newer_or_same (insert_newest_first a l).
Proof.
  induction 1 as [|b rest Hrest IH Hb]; cbn [insert_newest_first].
  - repeat constructor.
  - destruct (Z.leb_spec (ar_timestamp b) (ar_timestamp a)) as [Hle|Hgt].
    + constructor; [constructor; assumption|].
      constructor; [exact Hle|].
      eapply Forall_impl; [exact Hb|]. unfold newer_or_same. intros c Hc. lia.
    + constructor; [exact IH|].
      apply List.Forall_forall. intros c Hc.
      apply (Permutation_in _ (insert_newest_first_perm a rest)) in Hc.
      destruct Hc as [<-|Hc]; [unfold newer_or_same; lia|].
      exact (proj1 (List.Forall_forall _ _) Hb c Hc).
Qed.

Lemma sort_newest_first_sorted l : StronglySorted newer_or_same (sort_newest_first l).
Proof.
  induction l as [|a l IH]; cbn; [constructor|]. apply insert_newest_first_sorted, IH.
Qed.

(** X16: [get_archives] returns the archive entries of the user and the
    URL, all of them and no other, each as often as it is stored, ordered
    from the newest to the oldest. *)
Theorem get_archives_returns_the_archives_of_the_url_newest_first
  (user_id : Z) (url : string) (w : World) :
  StronglySorted newer_or_same (get_archives user_id url w) /\
  Permutation (get_archives user_id url w)
    (List.filter (archive_matches user_id url) (archives w)) /\
  (forall a, In a (get_archives user_id url w) <->
     In a (archives w) /\ ar_user_id a = user_id /\ ar_url a = url).
Proof.
  unfold get_archives. split; [apply sort_newest_first_sorted|].
  split; [apply sort_newest_first_perm|].
  intros a. rewrite (Permutation_in' (eq_refl a) (sort_newest_first_perm _)).
  rewrite List.filter_In. unfold archive_matches.
  rewrite andb_true_iff, Z.eqb_eq, String.eqb_eq. tauto.
Qed.

(** X17: with a retention period that is not negative,
    [cleanup_old_archives] removes exactly the archive entries older than
    the period and nothing else of the state; an entry archived at the
    time of the cleanup survives it. *)
Theorem cleanup_old_archives_drops_exactly_the_expired_archives
  (env : Env) (ARCHIVE_RETENTION_DAYS : Z) (w : World)
  (user_id : Z) (url content : string) :
  0 <= ARCHIVE_RETENTION_DAYS ->
  let cutoff := now_time env - ARCHIVE_RETENTION_DAYS * 86400 in
  let w' := exec (cleanup_old_archives env ARCHIVE_RETENTION_DAYS) w in
  (forall a, In a (archives w') <-> In a (archives w) /\ cutoff <= ar_timestamp a) /\
  urls w' = urls w /\ stats w' = stats w /\ log w' = log w /\
  archives (exec (create_archive env user_id url content ;;;
                  cleanup_old_archives env ARCHIVE_RETENTION_DAYS) w) =
    archives w' ++ [ {| ar_user_id := user_id; ar_url := url; ar_content := content;
                        ar_timestamp := now_time env |} ].
Proof.
  intros Hdays. cbv zeta. unfold exec, cleanup_old_archives, create_archive, bind, modify.
  cbn [snd archives urls stats log set_archives]. split.
  - intros a. rewrite List.filter_In, negb_true_iff, Z.ltb_ge. tauto.
  - split; [reflexivity|]. split; [reflexivity|]. split; [reflexivity|].
    rewrite List.filter_app. cbn [List.filter ar_timestamp].
    destruct (Z.ltb_spec (now_time env) (now_time env - ARCHIVE_RETENTION_DAYS * 86400));
      [lia|reflexivity].
Qed.

Lemma cleanup_old_archives_drops_exactly_the_expired_archives_witness :
  let env := sample_env 12 None None true in
  let w := exec (create_archive (sample_env 12 None None true) 7 url_a "old")
             empty_world in
  let cutoff := now_time env - 30 * 86400 in
  let w' := exec (cleanup_old_archives env 30) w in
  (forall a, In a (archives w') <-> In a (archives w) /\ cutoff <= ar_timestamp a) /\
  urls w' = urls w /\ stats w' = stats w /\ log w' = log w /\
  archives (exec (create_archive env 7 url_a "v1" ;;; cleanup_old_archives env 30) w) =
    archives w' ++ [ {| ar_user_id := 7; ar_url := url_a; ar_content := "v1";
                        ar_timestamp := now_time env |} ].
Proof.
  apply (cleanup_old_archives_drops_exactly_the_expired_archives
           (sample_env 12 None None true) 30
           (exec (create_archive (sample_env 12 None None true) 7 url_a "old") empty_world)
           7 url_a "v1").
  lia.
Defined.

(** ** The tracker on JSON files *)

Lemma bot_step_nil b : bot_step (text_files b) [] b = b.
Proof. destruct b. unfold bot_step. cbn. rewrite app_nil_r. reflexivity. Qed.

Lemma bot_step_step files1 evs1 files2 evs2 b :
  bot_step files2 evs2 (bot_step files1 evs1 b) = bot_step files2 (evs1 ++ evs2) b.
Proof. unfold bot_step. cbn. rewrite app_assoc. reflexivity. Qed.

Lemma notify_run env chat text b :
  try_except (bot_send_message env chat text) (fun _ => ret tt) b =
    (Ret tt, bot_step (text_files b) [SendMessage chat text] b).
Proof.
  unfold try_except, bot_send_message, bind, bot_emit, modify.
  destruct (send_message_ok env chat text); reflexivity.
Qed.

Lemma deliver_run env chat url documents caption b :
  let filename := netloc env url +:+ "_documents_" +:+ timestamp env +:+ ".txt" in
  try_except
    (txt_file <- create_document_file env url documents ;;
     bot_send_document env chat txt_file caption ;;;
     bot_remove txt_file)
    (fun _ => ret tt) b =
  (Ret tt,
   if send_document_ok env chat filename
   then bot_step (delete filename (text_files b))
          [SendDocument chat filename caption; RemoveFile filename] b
   else bot_step (<[filename := document_lines documents]> (text_files b))
          [SendDocument chat filename caption] b).
Proof.
  cbv zeta.
  unfold try_except, create_document_file, bot_send_document, bot_remove.
  cbv [bind modify ret gets bot_emit raise text_files outbox user_data_json
       sudo_users_json channels_json].
  destruct (send_document_ok env chat _).
  - rewrite lookup_insert_eq. unfold bot_step. cbn.
    rewrite delete_insert_eq, <- app_assoc. reflexivity.
  - reflexivity.
Qed.

Lemma filter_nonempty_In {A} (f : A -> bool) l :
  nonempty_list (List.filter f l) = true -> exists x, In x l /\ f x = true.
Proof.
  destruct (List.filter f l) as [|x xs] eqn:Hf; [discriminate|]. intros _.
  assert (Hin : In x (List.filter f l)) by (rewrite Hf; left; reflexivity).
  apply List.filter_In in Hin. eauto.
Qed.

Lemma bind_raise {S A B} (c : M S A) (k : A -> M S B) s e s' :
  c s = (Raise e, s') -> bind c k s = (Raise e, s').
Proof. intros H. unfold bind. rewrite H. reflexivity. Qed.

(** One entry of a pass.  Either the entry is worked through, or the
    extraction of the documents of its page raises, before anything is
    sent for the entry. *)
Lemma check_url_spec env user_id url_info b :
  (exists url_info' files' evs,
     check_url env user_id url_info b = (Ret url_info', bot_step files' evs b) /\
     entry_after env url_info url_info' /\
     Forall (change_event env user_id url_info) evs /\
     (page_changed env url_info -> In (announcement user_id url_info) evs) /\
     (forall e, ~ page_raises env (ui_url url_info) e))
  \/
  (exists e,
     check_url env user_id url_info b = (Raise e, b) /\
     page_raises env (ui_url url_info) e).
Proof.
  unfold check_url, announcement.
  destruct (fetch_url_content env (ui_url url_info)) as [content|] eqn:Hfetch;
    cbn [truthy_str].
  2:{ left. exists url_info, (text_files b), []. rewrite bot_step_nil.
      split; [reflexivity|]. split; [left; reflexivity|]. split; [constructor|].
      split; [intros (c & Hc & _); congruence|].
      intros e (c & Hc & _). unfold page_raises in *. congruence. }
  destruct (nonempty content) eqn:Hne.
  2:{ left. exists url_info, (text_files b), []. rewrite bot_step_nil.
      split; [reflexivity|]. split; [left; reflexivity|]. split; [constructor|].
      split; [intros (c & Hc & Hn & _); congruence|].
      intros e (c & Hc & Hn & _). congruence. }
  destruct (bot_extract_documents env content (ui_url url_info)) as [documents|e]
    eqn:Hdocs.
  2:{ right. exists e. split.
      - apply bind_raise. reflexivity.
      - exists content. auto. }
  left.
  assert (Hreadable : forall e, ~ page_raises env (ui_url url_info) e).
  { intros e (c & Hc & _ & Hx). assert (c = content) by congruence. subst c. congruence. }
  erewrite bind_run by reflexivity.
  destruct (String.eqb_spec (bot_sha256 env content) (ui_hash url_info)) as [Heq|Hdiff];
    cbn [negb].
  { exists url_info, (text_files b), []. rewrite bot_step_nil.
    split; [reflexivity|]. split; [left; reflexivity|]. split; [constructor|].
    split; [|exact Hreadable]. intros (c & Hc & _ & Hd). congruence. }
  assert (Hchanged : page_changed env url_info) by (exists content; auto).
  rewrite (bind_run _ _ _ _ _ (notify_run env user_id _ b)).
  set (msg := SendMessage user_id ("🚨 Website changed! " +:+ ui_url url_info)).
  assert (Hmsg : change_event env user_id url_info msg)
    by (split; [exact Hchanged|split; reflexivity]).
  destruct (nonempty_list (List.filter _ _)) eqn:Hnew.
  - apply filter_nonempty_In in Hnew as (doc & Hin & Hdoc).
    apply negb_true_iff in Hdoc.
    rewrite (bind_run _ _ _ _ _ (deliver_run env user_id _ _ _ _)).
    cbv zeta.
    destruct (send_document_ok env user_id _); rewrite bot_step_step;
      (eexists _, _, _; split; [reflexivity|]; split;
       [right; exists content, documents; split; [exact Hfetch|]; split; [exact Hne|];
        split; [exact Hdiff|]; split; [exact Hdocs|]; split; [exists doc; auto|reflexivity]
       |split; [|split; [intros _; left; reflexivity|exact Hreadable]]]).
    + repeat constructor; auto.
    + repeat constructor; auto.
  - eexists _, _, _. split; [reflexivity|]. split; [left; reflexivity|].
    split; [repeat constructor; auto|].
    split; [intros _; left; reflexivity|exact Hreadable].
Qed.

Lemma check_urls_spec env user_id :
  forall tracked b, exists files' evs,
    Forall (fun e => exists entry, In entry tracked /\ change_event env user_id entry e)
      evs /\
    ((exists tracked',
        map_m (check_url env user_id) tracked b = (Ret tracked', bot_step files' evs b) /\
        Forall2 (entry_after env) tracked tracked' /\
        (forall entry, In entry tracked -> page_changed env entry ->
           In (announcement user_id entry) evs) /\
        (forall entry e, In entry tracked -> ~ page_raises env (ui_url entry) e))
     \/
     (exists e entry,
        map_m (check_url env user_id) tracked b = (Raise e, bot_step files' evs b) /\
        In entry tracked /\ page_raises env (ui_url entry) e)).
Proof.
  induction tracked as [|entry rest IH]; intros b.
  - exists (text_files b), []. rewrite bot_step_nil.
    split; [constructor|]. left. exists [].
    split; [reflexivity|]. split; [constructor|]. split; [intros e []|intros e x []].
  - destruct (check_url_spec env user_id entry b)
      as [(e' & f1 & evs1 & Hrun1 & Hafter & Hev1 & Hann1 & Hread1)|(e & Hrun1 & Hraise)].
    2:{ exists (text_files b), []. rewrite bot_step_nil. split; [constructor|].
        right. exists e, entry. split; [|split; [left; reflexivity|exact Hraise]].
        cbn [map_m]. apply bind_raise. exact Hrun1. }
    destruct (IH (bot_step f1 evs1 b)) as (f2 & evs2 & Hev2 & Hcases).
    exists f2, (evs1 ++ evs2). split.
    { apply Forall_app. split.
      - eapply Forall_impl; [exact Hev1|]. intros e He. exists entry.
        split; [left; reflexivity|exact He].
      - eapply Forall_impl; [exact Hev2|]. intros e (en & Hin & He). exists en.
        split; [right; exact Hin|exact He]. }
    destruct Hcases as [(rest' & Hrun2 & Hrest & Hann2 & Hread2)|(e & en & Hrun2 & Hin & Hraise)].
    + left. exists (e' :: rest'). split.
      { cbn [map_m]. rewrite (bind_run _ _ _ _ _ Hrun1), (bind_run _ _ _ _ _ Hrun2).
        rewrite bot_step_step. reflexivity. }
      split; [constructor; assumption|]. split.
      * intros en [<-|Hin] Hch; apply in_or_app; [left; auto|right; auto].
      * intros en e [<-|Hin]; [apply Hread1|apply Hread2, Hin].
    + right. exists e, en. split; [|split; [right; exact Hin|exact Hraise]].
      cbn [map_m]. rewrite (bind_run _ _ _ _ _ Hrun1).
      erewrite bind_raise by exact Hrun2. rewrite bot_step_step. reflexivity.
Qed.

Lemma check_users_spec env :
  forall data b, exists files' evs,
    Forall (fun e => exists user_id tracked entry,
              In (user_id, tracked) data /\ In entry tracked /\
              change_event env user_id entry e) evs /\
    ((exists data',
        map_m (fun entry : string * list UrlInfo =>
                 tracked_urls <- map_m (check_url env (fst entry)) (snd entry) ;;
                 ret (fst entry, tracked_urls)) data b =
          (Ret data', bot_step files' evs b) /\
        Forall2 (fun before after =>
                   fst after = fst before /\
                   Forall2 (entry_after env) (snd before) (snd after)) data data' /\
        (forall user_id tracked entry,
           In (user_id, tracked) data -> In entry tracked -> page_changed env entry ->
           In (announcement user_id entry) evs) /\
        pages_readable env data)
     \/
     (exists e user_id tracked entry,
        map_m (fun entry : string * list UrlInfo =>
                 tracked_urls <- map_m (check_url env (fst entry)) (snd entry) ;;
                 ret (fst entry, tracked_urls)) data b =
          (Raise e, bot_step files' evs b) /\
        In (user_id, tracked) data /\ In entry tracked /\
        page_raises env (ui_url entry) e)).
Proof.
  induction data as [|[user_id tracked] rest IH]; intros b.
  - exists (text_files b), []. rewrite bot_step_nil.
    split; [constructor|]. left. exists [].
    split; [reflexivity|]. split; [constructor|].
    split; [intros ? ? ? []|intros ? ? ? ? []].
  - destruct (check_urls_spec env user_id tracked b) as (f1 & evs1 & Hev1 & Hcases1).
    assert (Hev1' : Forall (fun e => exists u t entry,
                       In (u, t) ((user_id, tracked) :: rest) /\ In entry t /\
                       change_event env u entry e) evs1).
    { eapply Forall_impl; [exact Hev1|]. intros e (en & Hin & He).
      exists user_id, tracked, en. split; [left; reflexivity|auto]. }
    destruct Hcases1 as [(tracked' & Hrun1 & Hafter & Hann1 & Hread1)
                        |(e & en & Hrun1 & Hin1 & Hraise)].
    2:{ exists f1, evs1. split; [exact Hev1'|].
        right. exists e, user_id, tracked, en.
        split; [|split; [left; reflexivity|split; [exact Hin1|exact Hraise]]].
        cbn [map_m fst snd]. apply bind_raise, bind_raise. exact Hrun1. }
    destruct (IH (bot_step f1 evs1 b)) as (f2 & evs2 & Hev2 & Hcases2).
    exists f2, (evs1 ++ evs2). split.
    { apply Forall_app. split; [exact Hev1'|].
      eapply Forall_impl; [exact Hev2|]. intros e (u & t & en & Hin & Hin' & He).
      exists u, t, en. split; [right; exact Hin|auto]. }
    destruct Hcases2 as [(rest' & Hrun2 & Hrest & Hann2 & Hread2)
                        |(e & u & t & en & Hrun2 & Hin & Hin' & Hraise)].
    + left. exists ((user_id, tracked') :: rest'). split.
      { cbn [map_m fst snd]. rewrite (bind_run _ _ _ _ _ (bind_run _ _ _ _ _ Hrun1)).
        cbn [ret]. rewrite (bind_run _ _ _ _ _ Hrun2).
        rewrite bot_step_step. reflexivity. }
      split; [constructor; [split; [reflexivity|exact Hafter]|exact Hrest]|]. split.
      * intros u t en [Heq|Hin] Hin' Hch; apply in_or_app.
        -- injection Heq as <- <-. left. auto.
        -- right. eauto.
      * intros u t en e [Heq|Hin] Hin'.
        -- injection Heq as <- <-. apply Hread1, Hin'.
        -- exact (Hread2 u t en e Hin Hin').
    + right. exists e, u, t, en.
      split; [|split; [right; exact Hin|split; [exact Hin'|exact Hraise]]].
      cbn [map_m fst snd]. rewrite (bind_run _ _ _ _ _ (bind_run _ _ _ _ _ Hrun1)).
      cbn [ret]. erewrite bind_raise by exact Hrun2.
      rewrite bot_step_step. reflexivity.
Qed.

(** A pass as a whole: it completes and writes the file, or the extraction
    raises for the page of a target and the file is not written. *)
Lemma check_website_updates_run env b :
  exists files' evs,
    Forall (fun e => exists user_id tracked entry,
              In (user_id, tracked) (load_user_data b) /\ In entry tracked /\
              change_event env user_id entry e) evs /\
    ((exists data',
        check_website_updates env b =
          (Ret tt, {| user_data_json := Some data'; sudo_users_json := sudo_users_json b;
                      channels_json := channels_json b; text_files := files';
                      outbox := outbox b ++ evs |}) /\
        Forall2 (fun before after =>
                   fst after = fst before /\
                   Forall2 (entry_after env) (snd before) (snd after))
          (load_user_data b) data' /\
        (forall user_id tracked entry,
           In (user_id, tracked) (load_user_data b) -> In entry tracked ->
           page_changed env entry -> In (announcement user_id entry) evs) /\
        pages_readable env (load_user_data b))
     \/
     (exists e user_id tracked entry,
        check_website_updates env b = (Raise e, bot_step files' evs b) /\
        In (user_id, tracked) (load_user_data b) /\ In entry tracked /\
        page_raises env (ui_url entry) e)).
Proof.
  destruct (check_users_spec env (load_user_data b) b) as (files' & evs & Hev & Hcases).
  exists files', evs. split; [exact Hev|].
  unfold check_website_updates. erewrite bind_run by reflexivity.
  destruct Hcases as [(data' & Hrun & Hdata & Hann & Hread)
                     |(e & u & t & en & Hrun & Hin & Hin' & Hraise)].
  - left. exists data'. split; [|auto].
    rewrite (bind_run _ _ _ _ _ Hrun). reflexivity.
  - right. exists e, u, t, en. split; [|auto]. apply bind_raise. exact Hrun.
Qed.

(** X19: a pass of [check_website_updates] either completes or is ended by
    the [ValueError] that [urljoin] raises for a link of the page of a
    target, and it completes exactly when no page of a target has such a
    link.  A pass that completes writes [user_data.json] with the same
    users and, for each user, the same URLs in the same order.  An entry is
    either left as it was or gets the fingerprint and the documents of its
    page, and the second happens only when the page was fetched, its
    fingerprint differs from the stored one and it lists a document that
    was not stored.  So a target whose fetch fails is left unmodified, and
    so is one whose text changed without a new document.  A pass that is
    ended by the exception writes nothing: [user_data.json] is as before.
    The files of the sudo users and of the channels are never written. *)
Theorem check_website_updates_rewrites_an_entry_only_for_a_new_document
  (env : BotEnv) (b : Bot) :
  let b' := exec (check_website_updates env) b in
  sudo_users_json b' = sudo_users_json b /\
  channels_json b' = channels_json b /\
  match result (check_website_updates env) b with
  | Ret _ =>
      pages_readable env (load_user_data b) /\
      exists user_data',
        user_data_json b' = Some user_data' /\
        Forall2 (fun before after =>
                   fst after = fst before /\
                   Forall2 (entry_after env) (snd before) (snd after))
          (load_user_data b) user_data'
  | Raise e =>
      user_data_json b' = user_data_json b /\
      exists user_id tracked entry,
        In (user_id, tracked) (load_user_data b) /\ In entry tracked /\
        page_raises env (ui_url entry) e
  end.
Proof.
  cbv zeta. unfold exec, result.
  destruct (check_website_updates_run env b)
    as (files' & evs & _ & [(data' & Hrun & Hdata & _ & Hread)
                           |(e & u & t & en & Hrun & Hin & Hin' & Hraise)]);
    rewrite Hrun; cbn [fst snd sudo_users_json channels_json user_data_json bot_step].
  - split; [reflexivity|]. split; [reflexivity|]. split; [exact Hread|].
    exists data'. auto.
  - split; [reflexivity|]. split; [reflexivity|]. split; [reflexivity|].
    exists u, t, en. auto.
Qed.

(** X20: everything a pass sends goes to the user of a target whose page
    was fetched with a fingerprint that differs from the stored one: a
    failed fetch and an unchanged page are silent.  A pass never answers a
    command. *)
Theorem check_website_updates_sends_only_for_changed_pages (env : BotEnv) (b : Bot) :
  exists evs,
    outbox (exec (check_website_updates env) b) = outbox b ++ evs /\
    Forall (fun e => exists user_id tracked entry,
              In (user_id, tracked) (load_user_data b) /\ In entry tracked /\
              change_event env user_id entry e) evs.
Proof.
  unfold exec.
  destruct (check_website_updates_run env b)
    as (files' & evs & Hev & [(data' & Hrun & _)|(e & u & t & en & Hrun & _)]);
    rewrite Hrun; exists evs; auto.
Qed.

Lemma Forall2_In_l {A B} (R : A -> B -> Prop) l l' x :
  Forall2 R l l' -> In x l -> exists y, In y l' /\ R x y.
Proof.
  induction 1 as [|a b0 l l' Hab _ IH]; intros Hin; [destruct Hin|].
  destruct Hin as [<-|Hin].
  - exists b0. split; [left; reflexivity|exact Hab].
  - destruct (IH Hin) as (y & Hy & HR). exists y. split; [right; exact Hy|exact HR].
Qed.

Lemma Forall2_In_r {A B} (R : A -> B -> Prop) l l' y :
  Forall2 R l l' -> In y l' -> exists x, In x l /\ R x y.
Proof.
  induction 1 as [|a b0 l l' Hab _ IH]; intros Hin; [destruct Hin|].
  destruct Hin as [<-|Hin].
  - exists a. split; [left; reflexivity|exact Hab].
  - destruct (IH Hin) as (x & Hx & HR). exists x. split; [right; exact Hx|exact HR].
Qed.

Lemma entry_after_url env before after :
  entry_after env before after -> ui_url after = ui_url before.
Proof. intros [->|(c & ds & _ & _ & _ & _ & _ & ->)]; reflexivity. Qed.

(** The pages stay the same from pass to pass: a pass keeps the URLs. *)
Lemma pages_readable_after env data data' :
  Forall2 (fun before after : string * list UrlInfo =>
             fst after = fst before /\
             Forall2 (entry_after env) (snd before) (snd after)) data data' ->
  pages_readable env data -> pages_readable env data'.
Proof.
  intros Hdata Hread u t' en' e Hin Hin'.
  destruct (Forall2_In_r _ _ _ _ Hdata Hin) as ([u0 t] & Hin0 & _ & Hent).
  cbn [snd] in Hent.
  destruct (Forall2_In_r _ _ _ _ Hent Hin') as (en & Hen & Hafter).
  rewrite (entry_after_url _ _ _ Hafter). exact (Hread u0 t en e Hin0 Hen).
Qed.

(** X21: a page that differs from the stored fingerprint and lists no
    document that is not stored is announced to its user at every pass:
    the fingerprint is stored only together with new documents, so the
    next pass finds the same difference.  The passes are those that
    complete: no page of a target has a link for which [urljoin] raises. *)
Theorem changed_page_without_new_document_is_announced_at_every_pass
  (env : BotEnv) (b : Bot) (user_id : string) (tracked : list UrlInfo) (entry : UrlInfo) :
  In (user_id, tracked) (load_user_data b) ->
  In entry tracked ->
  page_changed env entry ->
  (forall content documents doc,
     fetch_url_content env (ui_url entry) = Some content ->
     bot_extract_documents env content (ui_url entry) = Ret documents ->
     In doc documents ->
     document_in doc (ui_documents entry) = true) ->
  pages_readable env (load_user_data b) ->
  let b1 := exec (check_website_updates env) b in
  let b2 := exec (check_website_updates env) b1 in
  result (check_website_updates env) b = Ret tt /\
  result (check_website_updates env) b1 = Ret tt /\
  exists evs1 evs2,
    outbox b1 = outbox b ++ evs1 /\
    outbox b2 = outbox b1 ++ evs2 /\
    In (announcement user_id entry) evs1 /\
    In (announcement user_id entry) evs2.
Proof.
  intros Huser Hentry Hchanged Hknown Hread. cbv zeta. unfold exec, result.
  destruct (check_website_updates_run env b)
    as (files1 & evs1 & _ & [(data1 & Hrun1 & Hdata1 & Hann1 & _)
                            |(e & u & t & en & _ & Hin & Hin' & Hraise)]).
  2:{ destruct (Hread u t en e Hin Hin' Hraise). }
  rewrite Hrun1. cbn [fst snd].
  set (b1 := Build_Bot _ _ _ _ _).
  assert (Hread1 : pages_readable env (load_user_data b1))
    by exact (pages_readable_after env _ _ Hdata1 Hread).
  destruct (check_website_updates_run env b1)
    as (files2 & evs2 & _ & [(data2 & Hrun2 & _ & Hann2 & _)
                            |(e & u & t & en & _ & Hin & Hin' & Hraise)]).
  2:{ destruct (Hread1 u t en e Hin Hin' Hraise). }
  rewrite Hrun2. cbn [fst snd outbox].
  split; [reflexivity|]. split; [reflexivity|].
  exists evs1, evs2. split; [reflexivity|]. split; [reflexivity|].
  split; [exact (Hann1 user_id tracked entry Huser Hentry Hchanged)|].
  destruct (Forall2_In_l _ _ _ _ Hdata1 Huser) as ([u' tracked'] & Hin' & Hfst & Htracked).
  cbn [fst snd] in Hfst, Htracked. subst u'.
  destruct (Forall2_In_l _ _ _ _ Htracked Hentry) as (entry' & Hin'' & Hafter).
  assert (entry' = entry) as ->.
  { destruct Hafter as [->|(content & ds & Hf & _ & _ & Hds & (doc & Hdoc & Hnew) & _)];
      [reflexivity|].
    rewrite (Hknown content ds doc Hf Hds Hdoc) in Hnew. discriminate Hnew. }
  apply (Hann2 user_id tracked' entry); [exact Hin'|exact Hin''|exact Hchanged].
Qed.

Lemma dict_get_set_eq {V} k (v : V) d : dict_get k (dict_set k v d) = Some v.
Proof.
  induction d as [|[k' v'] d IH]; cbn [dict_set dict_get].
  - rewrite String.eqb_refl. reflexivity.
  - destruct (String.eqb k' k) eqn:Hk; cbn [dict_get]; rewrite Hk; [reflexivity|exact IH].
Qed.

Lemma dict_get_set_ne {V} k k0 (v : V) d :
  k0 <> k -> dict_get k0 (dict_set k v d) = dict_get k0 d.
Proof.
  intros Hne. induction d as [|[k' v'] d IH]; cbn [dict_set dict_get].
  - destruct (String.eqb_spec k k0); [congruence|reflexivity].
  - destruct (String.eqb_spec k' k) as [->|Hk]; cbn [dict_get].
    + destruct (String.eqb_spec k k0); [congruence|reflexivity].
    + destruct (String.eqb k' k0); [reflexivity|exact IH].
Qed.

Lemma dict_set_set {V} k (v v0 : V) d : dict_set k v (dict_set k v0 d) = dict_set k v d.
Proof.
  induction d as [|[k' v'] d IH]; cbn [dict_set].
  - rewrite String.eqb_refl. reflexivity.
  - destruct (String.eqb k' k) eqn:Hk; cbn [dict_set]; rewrite Hk; [reflexivity|].
    rewrite IH. reflexivity.
Qed.

Lemma dict_set_Forall {V} (P : string * V -> Prop) k (v : V) d :
  P (k, v) -> Forall P d -> Forall P (dict_set k v d).
Proof.
  intros Hk. induction 1 as [|[k' v'] d Hx Hd IH]; cbn [dict_set].
  - repeat constructor. exact Hk.
  - destruct (String.eqb_spec k' k) as [->|Hne]; constructor; auto.
Qed.

Lemma dict_get_Forall {V} (P : string * V -> Prop) k (v : V) d :
  Forall P d -> dict_get k d = Some v -> P (k, v).
Proof.
  induction 1 as [|[k' v'] d Hx _ IH]; cbn [dict_get]; [discriminate|].
  destruct (String.eqb_spec k' k) as [->|Hne]; [|exact IH].
  intros [= <-]. exact Hx.
Qed.

Lemma command_guard_run message unauthorized b :
  exists refused,
    command_guard message unauthorized b = (Ret refused, b) /\
    (refused = None -> sender_authorized b message = true) /\
    (sender_authorized b message = true -> chat_type message = "private" ->
     refused = None).
Proof.
  unfold command_guard, is_authorized_user, is_authorized_channel, sender_authorized.
  cbv [bind gets ret].
  destruct (py_eq (from_user_id message) OWNER_ID
            || py_in (from_user_id message) (load_sudo_users b)) eqn:Hauth; cbn [negb].
  2:{ eexists. split; [reflexivity|]. split; intros; discriminate. }
  destruct (existsb (String.eqb (chat_type message)) ["private"; "channel"]) eqn:Hty;
    cbn [negb].
  2:{ eexists. split; [reflexivity|]. split; [intros; discriminate|].
      intros _ Hp. rewrite Hp in Hty. discriminate Hty. }
  destruct (String.eqb_spec (chat_type message) "channel") as [Hch|Hch].
  - destruct (py_in (bm_chat_id message) (load_channels b)); cbn [negb];
      (eexists; split; [reflexivity|]; split; [intros; try discriminate; reflexivity|]);
      intros _ Hp; rewrite Hp in Hch; discriminate Hch.
  - eexists. split; [reflexivity|]. split; reflexivity.
Qed.

Lemma nodup_map_app_one {A} (f : A -> string) (l : list A) (x : A) :
  List.NoDup (map f l) -> existsb (fun u => String.eqb (f u) (f x)) l = false ->
  List.NoDup (map f (l ++ [x])).
Proof.
  intros Hnd Hfresh. rewrite map_app. cbn [map].
  apply List.NoDup_app; [exact Hnd|repeat constructor; intros []|].
  intros k Hin [<-|[]].
  apply in_map_iff in Hin as (u & Hu & Hin).
  assert (existsb (fun u => String.eqb (f u) (f x)) l = true); [|congruence].
  apply existsb_exists. exists u. split; [exact Hin|]. rewrite Hu. apply String.eqb_refl.
Qed.

(** The three ways a [track] command ends: with one reply and nothing
    written, with the entry appended and the reply that tracking started,
    or with the exception of the extraction, before anything is written or
    answered. *)
Lemma track_run env message b :
  let user_id := py_str (from_user_id message) in
  let url := requested_url message in
  let tracked_urls := tracked_by user_id (load_user_data b) in
  (exists text,
     track env message b =
       (Ret tt, {| user_data_json := user_data_json b;
                   sudo_users_json := sudo_users_json b;
                   channels_json := channels_json b; text_files := text_files b;
                   outbox := outbox b ++ [Reply text] |}) /\
     (sender_authorized b message = true -> chat_type message = "private" ->
      (startswith url "http://" || startswith url "https://") = true ->
      (existsb (fun u => String.eqb (ui_url u) url) tracked_urls = true /\
       text = "❌ This URL is already being tracked") \/
      (truthy_str (fetch_url_content env url) = None /\
       text = "❌ Could not access URL")))
  \/
  (exists content documents,
     sender_authorized b message = true /\
     (startswith url "http://" || startswith url "https://") = true /\
     existsb (fun u => String.eqb (ui_url u) url) tracked_urls = false /\
     fetch_url_content env url = Some content /\ nonempty content = true /\
     bot_extract_documents env content url = Ret documents /\
     let entry := {| ui_url := url; ui_hash := bot_sha256 env content;
                     ui_documents := documents |} in
     track env message b =
       (Ret tt, {| user_data_json :=
                     Some (dict_set user_id (tracked_urls ++ [entry]) (load_user_data b));
                   sudo_users_json := sudo_users_json b;
                   channels_json := channels_json b; text_files := text_files b;
                   outbox := outbox b ++
                     [Reply ("✅ Tracking started: " +:+ url +:+ nl +:+
                             "Found documents: " +:+ str_of_nat (length documents))] |}))
  \/
  (exists content e,
     sender_authorized b message = true /\
     (startswith url "http://" || startswith url "https://") = true /\
     existsb (fun u => String.eqb (ui_url u) url) tracked_urls = false /\
     page_raises env url e /\
     fetch_url_content env url = Some content /\
     track env message b = (Raise e, b)).
Proof.
  cbv zeta. unfold track, requested_url, tracked_by.
  destruct (command_guard_run message "❌ You are not authorized to use this command." b)
    as (refused & Hguard & Hauth & Hpass).
  rewrite (bind_run _ _ _ _ _ Hguard).
  destruct refused as [text|].
  { left. exists text. split; [reflexivity|]. intros Ha Hp. discriminate (Hpass Ha Hp). }
  specialize (Hauth eq_refl).
  set (url := strip (String.concat " " (tail (bm_command message)))).
  set (user_id := py_str (from_user_id message)).
  destruct (startswith url "http://" || startswith url "https://") eqn:Hurl; cbn [negb].
  2:{ left. eexists. split; [reflexivity|]. intros _ _ Hx. discriminate Hx. }
  erewrite bind_run by reflexivity.
  assert (Htracked :
    default [] (dict_get user_id
      match dict_get user_id (load_user_data b) with
      | Some _ => load_user_data b
      | None => dict_set user_id [] (load_user_data b)
      end) = default [] (dict_get user_id (load_user_data b))).
  { destruct (dict_get user_id (load_user_data b)) eqn:Hg; [rewrite Hg; reflexivity|].
    rewrite dict_get_set_eq. reflexivity. }
  cbv zeta. rewrite Htracked.
  destruct (existsb _ (default [] (dict_get user_id (load_user_data b)))) eqn:Hdup.
  { left. eexists. split; [reflexivity|]. intros _ _ _. left. auto. }
  destruct (fetch_url_content env url) as [content|] eqn:Hfetch; cbn [truthy_str].
  2:{ left. eexists. split; [reflexivity|]. intros _ _ _. right. auto. }
  destruct (nonempty content) eqn:Hne.
  2:{ left. eexists. split; [reflexivity|]. intros _ _ _. right. auto. }
  destruct (bot_extract_documents env content url) as [documents|e] eqn:Hdocs.
  - right. left. exists content, documents.
    split; [exact Hauth|]. split; [reflexivity|]. split; [reflexivity|].
    split; [reflexivity|]. split; [exact Hne|]. split; [exact Hdocs|]. cbv zeta.
    erewrite bind_run by reflexivity.
    unfold bind, save_user_data, reply_text, bot_emit, modify. cbn.
    destruct (dict_get user_id (load_user_data b)); [reflexivity|].
    rewrite dict_set_set. reflexivity.
  - right. right. exists content, e.
    split; [exact Hauth|]. split; [reflexivity|]. split; [reflexivity|].
    split; [exists content; auto|]. split; [reflexivity|].
    apply bind_raise. reflexivity.
Qed.

Lemma sample_pages_readable page user_data :
  pages_readable (sample_bot_env page) user_data.
Proof.
  intros u t en e _ _ (c & _ & _ & Hx).
  apply extract_documents_raises in Hx as (link & [<-|[]] & Hjoin).
  discriminate Hjoin.
Qed.

Lemma changed_page_without_new_document_is_announced_at_every_pass_witness :
  let env := sample_bot_env (Some "v2") in
  let b1 := exec (check_website_updates env) sample_bot in
  let b2 := exec (check_website_updates env) b1 in
  result (check_website_updates env) sample_bot = Ret tt /\
  result (check_website_updates env) b1 = Ret tt /\
  exists evs1 evs2,
    outbox b1 = outbox sample_bot ++ evs1 /\
    outbox b2 = outbox b1 ++ evs2 /\
    In (announcement "7" stored_entry) evs1 /\
    In (announcement "7" stored_entry) evs2.
Proof.
  apply (changed_page_without_new_document_is_announced_at_every_pass
           (sample_bot_env (Some "v2")) sample_bot "7" [stored_entry] stored_entry).
  - left. reflexivity.
  - left. reflexivity.
  - exists "v2". split; [reflexivity|]. split; [reflexivity|]. vm_compute. discriminate.
  - intros content documents doc Hfetch Hdocs Hin. injection Hfetch as <-.
    vm_compute in Hdocs. injection Hdocs as <-.
    destruct Hin as [<-|[]]. reflexivity.
  - apply sample_pages_readable.
Defined.

(** X22: [track] ends in one of two ways.  Either it returns after exactly
    one reply; it has then written [user_data.json] only when it started
    tracking: the sender is authorized, the URL starts with [http://] or
    [https://], the user does not track it yet, the page was fetched with a
    non-empty text and its documents were extracted; the entry of the page
    is then appended to the list of the user, and in every other case the
    file keeps its content (a new user is not even created).  Or a link of
    the fetched page makes [urljoin] raise: the command ends with that
    exception, without a reply and without writing anything. *)
Theorem track_writes_the_file_only_when_tracking_starts
  (env : BotEnv) (message : BotMessage) (b : Bot) :
  let b' := exec (track env message) b in
  let user_id := py_str (from_user_id message) in
  let url := requested_url message in
  sudo_users_json b' = sudo_users_json b /\
  channels_json b' = channels_json b /\
  text_files b' = text_files b /\
  match result (track env message) b with
  | Ret _ =>
      (exists text, outbox b' = outbox b ++ [Reply text]) /\
      (user_data_json b' = user_data_json b \/
       exists content documents,
         sender_authorized b message = true /\
         (startswith url "http://" || startswith url "https://") = true /\
         existsb (fun u => String.eqb (ui_url u) url)
           (tracked_by user_id (load_user_data b)) = false /\
         fetch_url_content env url = Some content /\ nonempty content = true /\
         bot_extract_documents env content url = Ret documents /\
         user_data_json b' =
           Some (dict_set user_id
                   (tracked_by user_id (load_user_data b) ++
                    [ {| ui_url := url; ui_hash := bot_sha256 env content;
                         ui_documents := documents |} ])
                   (load_user_data b)))
  | Raise e =>
      b' = b /\
      sender_authorized b message = true /\
      (startswith url "http://" || startswith url "https://") = true /\
      existsb (fun u => String.eqb (ui_url u) url)
        (tracked_by user_id (load_user_data b)) = false /\
      page_raises env url e
  end.
Proof.
  cbv zeta. unfold exec, result.
  destruct (track_run env message b)
    as [(text & Hrun & _)
       |[(content & ds & Ha & Hu & Hd & Hf & Hn & Hds & Hrun)
        |(content & e & Ha & Hu & Hd & Hraise & _ & Hrun)]].
  - rewrite Hrun. cbn. repeat (split; [reflexivity|]). split; [eauto|left; reflexivity].
  - cbv zeta in Hrun. rewrite Hrun. cbn.
    repeat (split; [reflexivity|]). split; [eauto|]. right. exists content, ds. auto 10.
  - rewrite Hrun. cbn. repeat (split; [reflexivity|]). auto.
Qed.

Lemma track_ends_without_a_reply_on_a_refused_link :
  track broken_bot_env track_message sample_bot =
    (Raise (ValueError "Invalid IPv6 URL"), sample_bot).
Proof. reflexivity. Qed.

Lemma entries_after_keep_urls env data data' :
  Forall2 (fun before after : string * list UrlInfo =>
             fst after = fst before /\
             Forall2 (entry_after env) (snd before) (snd after)) data data' ->
  map fst data' = map fst data /\
  (Forall (fun entry => List.NoDup (map ui_url (snd entry))) data ->
   Forall (fun entry => List.NoDup (map ui_url (snd entry))) data').
Proof.
  induction 1 as [|[u t] [u' t'] data data' [Hfst Hent] _ [IHk IHu]].
  - split; [reflexivity|constructor].
  - cbn [fst snd] in Hfst, Hent. subst u'.
    split; [cbn; rewrite IHk; reflexivity|].
    intros Hurls. apply Forall_cons in Hurls as [Ht Hrest]. cbn [snd] in Ht.
    constructor; [|exact (IHu Hrest)]. cbn [snd].
    assert (Hmap : map ui_url t' = map ui_url t).
    { clear -Hent. induction Hent as [|x y l l' Hxy _ IHl]; [reflexivity|].
      cbn. rewrite IHl. f_equal. apply (entry_after_url env), Hxy. }
    rewrite Hmap. exact Ht.
Qed.

(** X23: when no user occurs twice in [user_data.json] and no URL twice
    in the list of a user, this is still so after a [track] command and
    after a pass of [check_website_updates]. *)
Theorem tracked_urls_stay_unique (env : BotEnv) (message : BotMessage) (b : Bot) :
  urls_unique (load_user_data b) ->
  urls_unique (load_user_data (exec (track env message) b)) /\
  urls_unique (load_user_data (exec (check_website_updates env) b)).
Proof.
  intros [Hkeys Hurls]. split.
  - unfold exec.
    destruct (track_run env message b)
      as [(text & Hrun & _)
         |[(content & ds & _ & _ & Hd & _ & _ & _ & Hrun)
          |(content & e & _ & _ & _ & _ & _ & Hrun)]].
    + rewrite Hrun. split; assumption.
    + cbv zeta in Hrun. rewrite Hrun.
      cbn [snd]. unfold load_user_data at 1. cbn [user_data_json default].
      split; [apply dict_set_NoDup; exact Hkeys|].
      apply dict_set_Forall; [|exact Hurls]. cbn [snd].
      apply nodup_map_app_one; [|exact Hd].
      unfold tracked_by.
      destruct (dict_get (py_str (from_user_id message)) (load_user_data b))
        as [tracked|] eqn:Hg; [|constructor].
      exact (dict_get_Forall (fun entry => List.NoDup (map ui_url (snd entry)))
               _ _ _ Hurls Hg).
    + rewrite Hrun. split; assumption.
  - unfold exec.
    destruct (check_website_updates_run env b)
      as (files' & evs & _ & [(data' & Hrun & Hdata & _)|(e & u & t & en & Hrun & _)]);
      rewrite Hrun.
    + change (urls_unique data').
      destruct (entries_after_keep_urls env _ _ Hdata) as [Hk Hu].
      unfold urls_unique. split; [rewrite Hk; exact Hkeys|exact (Hu Hurls)].
    + split; assumption.
Qed.

Lemma tracked_urls_stay_unique_witness :
  urls_unique (load_user_data
                 (exec (track (sample_bot_env (Some "v2")) track_message) sample_bot)) /\
  urls_unique (load_user_data
                 (exec (check_website_updates (sample_bot_env (Some "v2"))) sample_bot)).
Proof.
  apply (tracked_urls_stay_unique (sample_bot_env (Some "v2")) track_message sample_bot).
  split.
  - constructor; [intros []|constructor].
  - repeat constructor. intros [].
Defined.

Lemma list_urls_run message b u us :
  sender_authorized b message = true -> chat_type message = "private" ->
  dict_get (py_str (from_user_id message)) (load_user_data b) = Some (u :: us) ->
  list_urls message b =
    (Ret tt, {| user_data_json := user_data_json b; sudo_users_json := sudo_users_json b;
                channels_json := channels_json b; text_files := text_files b;
                outbox := outbox b ++
                  [Reply ("📜 Tracked URLs:" +:+ nl +:+ nl +:+
                          String.concat nl (map ui_url (u :: us)))] |}).
Proof.
  intros Ha Hp Hg. unfold list_urls.
  destruct (command_guard_run message "❌ You are not authorized to use this command." b)
    as (refused & Hguard & _ & Hpass).
  rewrite (bind_run _ _ _ _ _ Hguard), (Hpass Ha Hp).
  erewrite bind_run by reflexivity. rewrite Hg. reflexivity.
Qed.

(** X24: after a [track] command that starts tracking (the page was
    fetched and its documents were extracted), the entry is the last of the
    list of the sender and the lists of the other users are untouched;
    [list_urls] of the sender then shows the URL last, and a second [track]
    of the same URL is refused and writes nothing. *)
Theorem tracked_url_is_listed_and_not_tracked_twice
  (env : BotEnv) (message : BotMessage) (b : Bot) (content : string)
  (documents : list Document) :
  sender_authorized b message = true ->
  chat_type message = "private" ->
  let user_id := py_str (from_user_id message) in
  let url := requested_url message in
  (startswith url "http://" || startswith url "https://") = true ->
  existsb (fun u => String.eqb (ui_url u) url) (tracked_by user_id (load_user_data b))
    = false ->
  fetch_url_content env url = Some content ->
  nonempty content = true ->
  bot_extract_documents env content url = Ret documents ->
  let b1 := exec (track env message) b in
  let entry := {| ui_url := url; ui_hash := bot_sha256 env content;
                  ui_documents := documents |} in
  result (track env message) b = Ret tt /\
  tracked_by user_id (load_user_data b1) =
    tracked_by user_id (load_user_data b) ++ [entry] /\
  (forall other, other <> user_id ->
     dict_get other (load_user_data b1) = dict_get other (load_user_data b)) /\
  outbox (exec (list_urls message) b1) =
    outbox b1 ++
    [Reply ("📜 Tracked URLs:" +:+ nl +:+ nl +:+
            String.concat nl
              (map ui_url (tracked_by user_id (load_user_data b)) ++ [url]))] /\
  user_data_json (exec (track env message) b1) = user_data_json b1 /\
  outbox (exec (track env message) b1) =
    outbox b1 ++ [Reply "❌ This URL is already being tracked"].
Proof.
  intros Hauth Hpriv user_id url Hurl Hfresh Hfetch Hne Hdocs b1 entry.
  assert (Htruthy : truthy_str (fetch_url_content env url) = Some content)
    by (rewrite Hfetch; cbn; rewrite Hne; reflexivity).
  assert (Hb1 : exists text,
    track env message b =
      (Ret tt,
       {| user_data_json :=
            Some (dict_set user_id
                    (tracked_by user_id (load_user_data b) ++ [entry])
                    (load_user_data b));
          sudo_users_json := sudo_users_json b;
          channels_json := channels_json b; text_files := text_files b;
          outbox := outbox b ++ [Reply text] |})).
  { destruct (track_run env message b)
      as [(text & _ & Hno)
         |[(c & ds & _ & _ & _ & Hf & _ & Hds & Hrun)
          |(c & e & _ & _ & _ & (c' & Hc' & _ & Hx) & _ & _)]].
    - destruct (Hno Hauth Hpriv Hurl) as [[Hdup _]|[Hnone _]].
      + fold user_id url in Hdup. congruence.
      + fold url in Hnone. congruence.
    - cbv zeta in Hrun. fold url in Hf, Hds.
      rewrite Hfetch in Hf. injection Hf as <-.
      rewrite Hdocs in Hds. injection Hds as <-.
      eexists. exact Hrun.
    - exfalso. fold url in Hc', Hx.
      rewrite Hfetch in Hc'. injection Hc' as <-.
      rewrite Hdocs in Hx. discriminate Hx. }
  destruct Hb1 as (text1 & Hrun1).
  assert (Hb1 : b1 = snd (track env message b)) by reflexivity.
  rewrite Hrun1 in Hb1. cbn [snd] in Hb1.
  split; [unfold result; rewrite Hrun1; reflexivity|].
  clearbody b1. subst b1.
  set (b1 := Build_Bot _ _ _ _ _).
  assert (Hload : load_user_data b1 =
                  dict_set user_id (tracked_by user_id (load_user_data b) ++ [entry])
                    (load_user_data b)) by reflexivity.
  assert (Htracked : tracked_by user_id (load_user_data b1) =
                     tracked_by user_id (load_user_data b) ++ [entry]).
  { unfold tracked_by at 1. rewrite Hload, dict_get_set_eq. reflexivity. }
  assert (Hauth1 : sender_authorized b1 message = true) by exact Hauth.
  split; [exact Htracked|]. split.
  { intros other Hother. rewrite Hload. apply dict_get_set_ne. exact Hother. }
  split.
  { unfold exec.
    destruct (tracked_by user_id (load_user_data b) ++ [entry]) as [|u us] eqn:Hlist;
      [destruct (tracked_by user_id (load_user_data b)); discriminate Hlist|].
    rewrite (list_urls_run message b1 u us Hauth1 Hpriv).
    - cbn [snd outbox]. rewrite <- Hlist, map_app. reflexivity.
    - fold user_id. rewrite Hload, dict_get_set_eq. reflexivity. }
  assert (Hdup1 : existsb (fun u => String.eqb (ui_url u) url)
                    (tracked_by user_id (load_user_data b1)) = true).
  { rewrite Htracked, existsb_app. cbn [existsb entry ui_url].
    rewrite String.eqb_refl. apply orb_true_iff. right. reflexivity. }
  unfold exec.
  destruct (track_run env message b1)
    as [(text & Hrun & Hwhy)
       |[(c & ds & _ & _ & Hd & _)|(c & e & _ & _ & Hd & _)]].
  - rewrite Hrun. cbn [snd user_data_json outbox]. split; [reflexivity|].
    destruct (Hwhy Hauth1 Hpriv Hurl) as [[_ ->]|[Hnone _]]; [reflexivity|].
    fold url in Hnone. congruence.
  - fold user_id url in Hd. congruence.
  - fold user_id url in Hd. congruence.
Qed.

Lemma tracked_url_is_listed_and_not_tracked_twice_witness :
  let env := sample_bot_env (Some "v2") in
  let b1 := exec (track env track_message) sample_bot in
  let entry := {| ui_url := "http://b/"; ui_hash := bot_sha256 env "v2";
                  ui_documents := [ {| doc_name := "A"; doc_url := "http://b/a.pdf" |} ] |} in
  result (track env track_message) sample_bot = Ret tt /\
  tracked_by "7" (load_user_data b1) =
    tracked_by "7" (load_user_data sample_bot) ++ [entry] /\
  (forall other, other <> "7" ->
     dict_get other (load_user_data b1) = dict_get other (load_user_data sample_bot)) /\
  outbox (exec (list_urls track_message) b1) =
    outbox b1 ++
    [Reply ("📜 Tracked URLs:" +:+ nl +:+ nl +:+
            String.concat nl
              (map ui_url (tracked_by "7" (load_user_data sample_bot)) ++ ["http://b/"]))] /\
  user_data_json (exec (track env track_message) b1) = user_data_json b1 /\
  outbox (exec (track env track_message) b1) =
    outbox b1 ++ [Reply "❌ This URL is already being tracked"].
Proof.
  apply (tracked_url_is_listed_and_not_tracked_twice (sample_bot_env (Some "v2"))
           track_message sample_bot "v2"
           [ {| doc_name := "A"; doc_url := "http://b/a.pdf" |} ]); reflexivity.
Defined.

(** ** The check cycle: what it counts *)

Lemma leaves_stats_emit e : leaves stats (emit e).
Proof. intros w. reflexivity. Qed.

Lemma leaves_stats_safe_send_rounds rounds user_id :
  forall text, leaves stats (safe_send_rounds rounds user_id text).
Proof.
  induction rounds as [|n IH]; intros text; cbn [safe_send_rounds].
  - apply leaves_ret.
  - destruct (nonempty text); [|apply leaves_ret].
    apply leaves_bind; [apply leaves_stats_emit|intros _; apply IH].
Qed.

Lemma leaves_stats_update_one_set env id u : leaves stats (update_one_set env id u).
Proof.
  intros w. unfold update_one_set, exec.
  destruct (store_accepts_dollar_fields env); reflexivity.
Qed.

Lemma leaves_counter {A} (c : M World A) u url e o :
  leaves stats c -> leaves (fun w => counter_total w u url e o) c.
Proof. intros H w. unfold counter_total. rewrite (H w). reflexivity. Qed.

Lemma leaves_counter_track_statistics event_type user_id url success u url' e o :
  (u, url', (e, o)) <> (user_id, url, (event_type, outcome_name success)) ->
  leaves (fun w => counter_total w u url' e o)
    (track_statistics event_type user_id url success).
Proof.
  intros Hne w. unfold track_statistics, exec.
  destruct (bool_decide (event_type ∈ valid_events)); cbn [negb snd]; [|reflexivity].
  unfold modify. cbn [snd]. rewrite counter_total_recorded, decide_False by exact Hne. lia.
Qed.

Lemma content_changes_valid : "content_changes" ∈ valid_events.
Proof. apply valid_events_cases. auto. Qed.

Lemma leaves_checks_detect_changes env user_id url td content hash u url' o :
  leaves (fun w => counter_total w u url' "checks" o)
    (detect_changes env user_id url td content hash).
Proof.
  unfold detect_changes. destruct (negb _); [|apply leaves_ret].
  apply leaves_bind; [|intros _; apply leaves_ret].
  apply leaves_counter_track_statistics. intros Heq. inversion Heq.
Qed.

Lemma leaves_checks_send_new_resources env user_id url td rs u url' o :
  forall acc,
    leaves (fun w => counter_total w u url' "checks" o)
      (send_new_resources env user_id url td rs acc).
Proof.
  induction rs as [|r rest IH]; intros acc; cbn [send_new_resources].
  - apply leaves_ret.
  - destruct (negb _); [|apply IH].
    apply leaves_bind.
    + apply leaves_counter. intros w.
      destruct (send_media_run env user_id r td w) as (evs & Hrun & _).
      unfold exec. rewrite Hrun. reflexivity.
    + intros [|]; (apply leaves_bind; [|intros _; apply IH]);
        apply leaves_counter_track_statistics; intros Heq; inversion Heq.
Qed.

Lemma run_cycle_checks env user_id url td w :
  exists wm r,
    (forall u' url' o,
       counter_total wm u' url' "checks" o = counter_total w u' url' "checks" o) /\
    run_cycle env user_id url td w =
      (r, match r with
          | Ret _ => set_stats (update_one_inc user_id url ("checks", "success")) wm
          | Raise _ => wm
          end).
Proof.
  unfold run_cycle.
  rewrite (bind_run _ _ _ _ _ (get_webpage_content_run env url w)).
  set (page := match http_get env url with
               | Some (content, tags) => (content, fold_left (scan_tag env url) tags [])
               | None => ("", [])
               end).
  cbv zeta. erewrite bind_run by reflexivity.
  set (w0 := set_archives _ (add_events [EvFetch url] w)).
  destruct (detect_changes_run env user_id url td (fst page)
              (sha256_hexdigest env (fst page)) w0) as (detected & wd & Hd & _).
  rewrite (bind_run _ _ _ _ _ Hd).
  assert (Hwd : forall u' url' o,
            counter_total wd u' url' "checks" o = counter_total w u' url' "checks" o).
  { intros u' url' o.
    pose proof (leaves_checks_detect_changes env user_id url td (fst page)
                  (sha256_hexdigest env (fst page)) u' url' o w0) as H.
    unfold exec in H. rewrite Hd in H. exact H. }
  destruct (send_new_resources_run env user_id url td
              (List.filter (fun resource => apply_filters env resource user_id) (snd page))
              [] wd) as (l & evs & wb & Hloop & _).
  cbn [app] in Hloop. rewrite (bind_run _ _ _ _ _ Hloop).
  assert (Hwb : forall u' url' o,
            counter_total wb u' url' "checks" o = counter_total w u' url' "checks" o).
  { intros u' url' o. rewrite <- Hwd.
    pose proof (leaves_checks_send_new_resources env user_id url td
                  (List.filter (fun resource => apply_filters env resource user_id)
                     (snd page)) u' url' o [] wd) as H.
    unfold exec in H. rewrite Hloop in H. exact H. }
  match goal with
  | |- context [bind ?c _ wb] =>
      assert (Hmid : leaves stats c);
      [|pose proof (Hmid wb) as Hstats; unfold exec in Hstats;
        unfold bind at 1; destruct (c wb) as [[x|e] wm]; cbn [snd] in Hstats]
  end.
  { destruct (_ || _); [|apply leaves_ret].
    apply leaves_bind; [|intros _; apply leaves_stats_update_one_set].
    destruct (nonempty _); [apply leaves_stats_safe_send_rounds|apply leaves_ret]. }
  - exists wm, (Ret tt). split.
    + intros u' url' o. rewrite <- Hwb. unfold counter_total. rewrite Hstats. reflexivity.
    + apply track_statistics_valid, checks_valid.
  - exists wm, (Raise e). split.
    + intros u' url' o. rewrite <- Hwb. unfold counter_total. rewrite Hstats. reflexivity.
    + reflexivity.
Qed.

(** X25: every call of [check_updates] for a target that is found counts
    exactly one check for it: the sum of [checks.success] and
    [checks.failure] of the target grows by one and neither of the two
    decreases, whether the cycle ran to its end, was skipped by night mode
    (a failure) or ended in the error handler.  The check counters of the
    other targets are not touched. *)
Theorem every_cycle_of_a_target_counts_exactly_one_check
  (env : Env) (user_id : Z) (url : string) (w : World) (tracked_data : TrackedData) :
  find_one user_id url (urls w) = Some tracked_data ->
  let w' := exec (check_updates env user_id url) w in
  checks_recorded w' user_id url = checks_recorded w user_id url + 1 /\
  counter_total w user_id url "checks" "success" <=
    counter_total w' user_id url "checks" "success" /\
  counter_total w user_id url "checks" "failure" <=
    counter_total w' user_id url "checks" "failure" /\
  (night_mode_skips env tracked_data = true ->
   counter_total w' user_id url "checks" "failure" =
     counter_total w user_id url "checks" "failure" + 1) /\
  (forall u' url' o, (u', url') <> (user_id, url) ->
     counter_total w' u' url' "checks" o = counter_total w u' url' "checks" o).
Proof.
  intros Hfind. cbv zeta. unfold checks_recorded.
  assert (Hcases : exists wm o,
    (forall u' url' o',
       counter_total wm u' url' "checks" o' = counter_total w u' url' "checks" o') /\
    stats (exec (check_updates env user_id url) w) =
      update_one_inc user_id url ("checks", outcome_name o) (stats wm) /\
    (night_mode_skips env tracked_data = true -> o = false)).
  { destruct (night_mode_skips env tracked_data) eqn:Hnight.
    - exists w, false. split; [reflexivity|]. split; [|reflexivity].
      unfold exec, check_updates, try_except, bind, gets. rewrite Hfind, Hnight.
      rewrite (track_statistics_valid "checks" user_id url false w checks_valid).
      reflexivity.
    - unfold exec.
      rewrite (check_updates_found env user_id url tracked_data w Hfind Hnight).
      unfold try_except.
      destruct (run_cycle_checks env user_id url tracked_data w)
        as (wm & [[]|e] & Hwm & Hrun); rewrite Hrun.
      + exists wm, true. split; [exact Hwm|]. split; [reflexivity|discriminate].
      + exists wm, false. split; [exact Hwm|]. split; [|discriminate].
        unfold cycle_failed.
        rewrite (bind_run _ _ _ _ _
                   (track_statistics_valid "checks" user_id url false wm checks_valid)).
        reflexivity. }
  destruct Hcases as (wm & o & Hwm & Hstats & Hnight).
  assert (Hcount : forall u' url' o',
    counter_total (exec (check_updates env user_id url) w) u' url' "checks" o' =
    counter_total w u' url' "checks" o'
    + (if decide ((u', url', ("checks", o')) = (user_id, url, ("checks", outcome_name o)))
       then 1 else 0)).
  { intros u' url' o'. rewrite <- Hwm. unfold counter_total at 1. rewrite Hstats.
    apply update_one_inc_total. }
  rewrite !Hcount.
  split; [|split; [|split; [|split]]].
  - destruct o; cbn [outcome_name]; repeat case_decide; try lia;
      try (exfalso; congruence);
      try match goal with H : (_, _, (_, _)) = _ |- _ => inversion H end.
  - case_decide; lia.
  - case_decide; lia.
  - intros Hn. rewrite (Hnight Hn). cbn [outcome_name].
    rewrite decide_True by reflexivity. reflexivity.
  - intros u' url' o' Hne. rewrite Hcount, decide_False by congruence. lia.
Qed.

Lemma every_cycle_of_a_target_counts_exactly_one_check_witness :
  let env := sample_env 12 (Some ("v1", [anchor "f.pdf"])) (Some 10) true in
  let w := world_of delivered_target in
  let w' := exec (check_updates env 7 url_a) w in
  checks_recorded w' 7 url_a = checks_recorded w 7 url_a + 1 /\
  counter_total w 7 url_a "checks" "success" <=
    counter_total w' 7 url_a "checks" "success" /\
  counter_total w 7 url_a "checks" "failure" <=
    counter_total w' 7 url_a "checks" "failure" /\
  (night_mode_skips env delivered_target = true ->
   counter_total w' 7 url_a "checks" "failure" =
     counter_total w 7 url_a "checks" "failure" + 1) /\
  (forall u' url' o, (u', url') <> (7, url_a) ->
     counter_total w' u' url' "checks" o = counter_total w u' url' "checks" o).
Proof.
  apply (every_cycle_of_a_target_counts_exactly_one_check
           (sample_env 12 (Some ("v1", [anchor "f.pdf"])) (Some 10) true) 7 url_a
           (world_of delivered_target) delivered_target).
  reflexivity.
Defined.

Lemma leaves_counter_detect_changes env user_id url td content hash u url' e o :
  e <> "content_changes" ->
  leaves (fun w => counter_total w u url' e o)
    (detect_changes env user_id url td content hash).
Proof.
  intros He. unfold detect_changes. destruct (negb _); [|apply leaves_ret].
  apply leaves_bind; [|intros _; apply leaves_ret].
  apply leaves_counter_track_statistics. congruence.
Qed.

Lemma leaves_stats_send_media env user_id r td : leaves stats (send_media env user_id r td).
Proof.
  intros w. destruct (send_media_run env user_id r td w) as (evs & Hrun & _).
  unfold exec. rewrite Hrun. reflexivity.
Qed.

Lemma length_filter_cons {A} (f : A -> bool) x l :
  Z.of_nat (length (List.filter f (x :: l))) =
  (if f x then 1 else 0) + Z.of_nat (length (List.filter f l)).
Proof. cbn [List.filter]. destruct (f x); cbn [length]; lia. Qed.

Lemma counter_total_add_events evs w u url e o :
  counter_total (add_events evs w) u url e o = counter_total w u url e o.
Proof. reflexivity. Qed.

Lemma send_new_resources_counts env user_id url td (success : bool) rs :
  forall acc w,
    counter_total (exec (send_new_resources env user_id url td rs acc) w)
      user_id url "downloads" (outcome_name success) =
    counter_total w user_id url "downloads" (outcome_name success)
    + Z.of_nat (length (List.filter
                          (fun r => negb (already_sent td r)
                                    && Bool.eqb (delivered env r) success) rs)).
Proof.
  induction rs as [|r rest IH]; intros acc w.
  - cbn. lia.
  - rewrite length_filter_cons. cbn [send_new_resources]. fold (already_sent td r).
    destruct (already_sent td r) eqn:Hsent; cbn [negb andb]; [rewrite IH; lia|].
    unfold exec.
    destruct (send_media_run env user_id r td w) as (evs & Hrun & _).
    rewrite (bind_run _ _ _ _ _ Hrun).
    destruct (delivered env r) eqn:Hdel.
    + rewrite (bind_run _ _ _ _ _
                 (track_statistics_valid "downloads" user_id url true _ downloads_valid)).
      fold (exec (send_new_resources env user_id url td rest (acc ++ [r_hash r]))
              (set_stats (update_one_inc user_id url ("downloads", outcome_name true))
                 (add_events evs w))).
      rewrite IH, counter_total_recorded.
      destruct success; cbn [Bool.eqb outcome_name].
      * rewrite decide_True by reflexivity. rewrite counter_total_add_events. lia.
      * rewrite decide_False by (intros Heq; inversion Heq).
        rewrite counter_total_add_events. lia.
    + rewrite (bind_run _ _ _ _ _
                 (track_statistics_valid "downloads" user_id url false _ downloads_valid)).
      fold (exec (send_new_resources env user_id url td rest acc)
              (set_stats (update_one_inc user_id url ("downloads", outcome_name false))
                 (add_events evs w))).
      rewrite IH, counter_total_recorded.
      destruct success; cbn [Bool.eqb outcome_name].
      * rewrite decide_False by (intros Heq; inversion Heq).
        rewrite counter_total_add_events. lia.
      * rewrite decide_True by reflexivity. rewrite counter_total_add_events. lia.
Qed.

(** X26: in a cycle that is not skipped, every resource that the guard on
    the stored fingerprints lets through is counted exactly once, as a
    successful download when its delivery returned [True] and as a failed
    one otherwise: each of the two download counters of the target grows by
    the number of those resources with that outcome.  No other step of the
    cycle, and not its error handler, touches these counters. *)
Theorem every_attempted_delivery_is_counted_once
  (env : Env) (user_id : Z) (url : string) (w : World) (tracked_data : TrackedData)
  (success : bool) :
  find_one user_id url (urls w) = Some tracked_data ->
  night_mode_skips env tracked_data = false ->
  counter_total (exec (check_updates env user_id url) w)
    user_id url "downloads" (outcome_name success) =
  counter_total w user_id url "downloads" (outcome_name success)
  + Z.of_nat (length (attempted env user_id url tracked_data success)).
Proof.
  intros Hfind Hnight. unfold exec.
  rewrite (check_updates_found env user_id url tracked_data w Hfind Hnight).
  set (f := fun w0 : World => counter_total w0 user_id url "downloads" (outcome_name success)).
  change (f (snd (try_except (run_cycle env user_id url tracked_data)
                    (cycle_failed user_id url) w)) =
          f w + Z.of_nat (length (attempted env user_id url tracked_data success))).
  unfold try_except, run_cycle.
  rewrite (bind_run _ _ _ _ _ (get_webpage_content_run env url w)).
  set (page := match http_get env url with
               | Some (content, tags) => (content, fold_left (scan_tag env url) tags [])
               | None => ("", [])
               end).
  assert (Hres : List.filter (fun resource => apply_filters env resource user_id)
                   (snd page) = cycle_resources env user_id url).
  { unfold cycle_resources, page.
    destruct (http_get env url) as [[content tags]|]; reflexivity. }
  cbv zeta. rewrite Hres. erewrite bind_run by reflexivity.
  set (w0 := set_archives _ (add_events [EvFetch url] w)).
  destruct (detect_changes_run env user_id url tracked_data (fst page)
              (sha256_hexdigest env (fst page)) w0) as (detected & wd & Hd & _).
  rewrite (bind_run _ _ _ _ _ Hd).
  assert (Hwd : f wd = f w).
  { pose proof (leaves_counter_detect_changes env user_id url tracked_data (fst page)
                  (sha256_hexdigest env (fst page)) user_id url "downloads"
                  (outcome_name success) ltac:(discriminate) w0) as H.
    unfold exec in H. rewrite Hd in H. exact H. }
  destruct (send_new_resources_run env user_id url tracked_data
              (cycle_resources env user_id url) [] wd) as (l & evs & wb & Hloop & _).
  cbn [app] in Hloop. rewrite (bind_run _ _ _ _ _ Hloop).
  assert (Hwb : f wb = f w + Z.of_nat (length (attempted env user_id url tracked_data success))).
  { pose proof (send_new_resources_counts env user_id url tracked_data success
                  (cycle_resources env user_id url) [] wd) as H.
    unfold exec in H. rewrite Hloop in H. cbn [snd] in H. unfold f. rewrite H.
    fold (f wd). rewrite Hwd. reflexivity. }
  rewrite <- Hwb.
  match goal with
  | |- f (snd (let (o, s') := ?tail wb in _)) = _ =>
      change (f (exec (try_except tail (cycle_failed user_id url)) wb) = f wb);
      assert (Htail : leaves f (try_except tail (cycle_failed user_id url)));
      [|exact (Htail wb)]
  end.
  apply leaves_try_except.
  - apply leaves_bind.
    + apply leaves_counter.
      destruct (_ || _); [|apply leaves_ret].
      apply leaves_bind; [|intros _; apply leaves_stats_update_one_set].
      destruct (nonempty _); [apply leaves_stats_safe_send_rounds|apply leaves_ret].
    + intros _. apply leaves_counter_track_statistics. intros Heq. inversion Heq.
  - intros e. unfold cycle_failed. apply leaves_bind.
    + apply leaves_counter_track_statistics. intros Heq. inversion Heq.
    + intros _. apply leaves_counter, leaves_stats_emit.
Qed.

Lemma every_attempted_delivery_is_counted_once_witness :
  let env := sample_env 12 (Some ("v1", [anchor "f.pdf"])) (Some 10) true in
  let w := world_of (fresh_target false) in
  counter_total (exec (check_updates env 7 url_a) w) 7 url_a "downloads"
    (outcome_name true) =
  counter_total w 7 url_a "downloads" (outcome_name true)
  + Z.of_nat (length (attempted env 7 url_a (fresh_target false) true)).
Proof.
  apply (every_attempted_delivery_is_counted_once
           (sample_env 12 (Some ("v1", [anchor "f.pdf"])) (Some 10) true) 7 url_a
           (world_of (fresh_target false)) (fresh_target false) true); reflexivity.
Defined.

(** ** The list of documents as a file *)

Lemma deliver_or_reply_run env chat url documents caption text b :
  let filename := netloc env url +:+ "_documents_" +:+ timestamp env +:+ ".txt" in
  try_except
    (txt_file <- create_document_file env url documents ;;
     bot_send_document env chat txt_file caption ;;;
     bot_remove txt_file)
    (fun _ => reply_text text) b =
  (Ret tt,
   if send_document_ok env chat filename
   then bot_step (delete filename (text_files b))
          [SendDocument chat filename caption; RemoveFile filename] b
   else bot_step (<[filename := document_lines documents]> (text_files b))
          [SendDocument chat filename caption; Reply text] b).
Proof.
  cbv zeta.
  unfold try_except, create_document_file, bot_send_document, bot_remove, reply_text.
  cbv [bind modify ret gets bot_emit raise text_files outbox user_data_json
       sudo_users_json channels_json].
  destruct (send_document_ok env chat _).
  - rewrite lookup_insert_eq. unfold bot_step. cbn.
    rewrite delete_insert_eq, <- app_assoc. reflexivity.
  - unfold bot_step. cbn. rewrite <- app_assoc. reflexivity.
Qed.

(** X27: [list_documents] for a URL of the sender that has stored
    documents writes them to a text file named after the domain and the
    time, sends the file to the sender and removes it after the send has
    returned; when the transport raises, the file stays on disk with one
    line per document and the sender gets the error reply.
    [user_data.json] is not written. *)
Theorem list_documents_sends_the_stored_list_and_removes_the_file
  (env : BotEnv) (message : BotMessage) (b : Bot) (url_info : UrlInfo) :
  sender_authorized b message = true ->
  chat_type message = "private" ->
  let user_id := py_str (from_user_id message) in
  let url := requested_url message in
  find (fun u => String.eqb (ui_url u) url) (tracked_by user_id (load_user_data b))
    = Some url_info ->
  ui_documents url_info <> [] ->
  let filename := netloc env url +:+ "_documents_" +:+ timestamp env +:+ ".txt" in
  let caption := "📑 Documents at " +:+ url +:+ " (" +:+
                 str_of_nat (length (ui_documents url_info)) +:+ ")" in
  let b' := exec (list_documents env message) b in
  user_data_json b' = user_data_json b /\
  if send_document_ok env user_id filename then
    outbox b' = outbox b ++ [SendDocument user_id filename caption; RemoveFile filename] /\
    text_files b' = delete filename (text_files b)
  else
    outbox b' = outbox b ++ [SendDocument user_id filename caption;
                             Reply "❌ Error sending documents"] /\
    text_files b' = <[filename := document_lines (ui_documents url_info)]> (text_files b).
Proof.
  intros Hauth Hpriv user_id url Hfind Hdocs filename caption b'. subst b'.
  unfold exec, list_documents.
  destruct (command_guard_run message "❌ You are not authorized to use this command." b)
    as (refused & Hguard & _ & Hpass).
  rewrite (bind_run _ _ _ _ _ Hguard), (Hpass Hauth Hpriv).
  erewrite bind_run by reflexivity.
  fold user_id. change (strip (String.concat " " (tail (bm_command message)))) with url.
  unfold tracked_by in Hfind.
  destruct (dict_get user_id (load_user_data b)) as [[|u us]|]; try discriminate Hfind.
  change (find (fun u0 => String.eqb (ui_url u0) url) (u :: us) = Some url_info) in Hfind.
  cbv zeta. rewrite Hfind.
  destruct (ui_documents url_info) as [|doc docs] eqn:Hd; [contradiction|].
  cbn [nonempty_list negb].
  rewrite deliver_or_reply_run. cbv zeta. fold filename. cbn [snd].
  destruct (send_document_ok env user_id filename); cbn; auto.
Qed.

Lemma list_documents_sends_the_stored_list_and_removes_the_file_witness :
  let env := sample_bot_env (Some "v1") in
  let filename := netloc env "http://a/" +:+ "_documents_" +:+ timestamp env +:+ ".txt" in
  let caption := "📑 Documents at " +:+ "http://a/" +:+ " (" +:+
                 str_of_nat (length (ui_documents stored_entry)) +:+ ")" in
  let b' := exec (list_documents env documents_message) sample_bot in
  user_data_json b' = user_data_json sample_bot /\
  if send_document_ok env "7" filename then
    outbox b' = outbox sample_bot ++
                [SendDocument "7" filename caption; RemoveFile filename] /\
    text_files b' = delete filename (text_files sample_bot)
  else
    outbox b' = outbox sample_bot ++
                [SendDocument "7" filename caption; Reply "❌ Error sending documents"] /\
    text_files b' =
      <[filename := document_lines (ui_documents stored_entry)]> (text_files sample_bot).
Proof.
  apply (list_documents_sends_the_stored_list_and_removes_the_file
           (sample_bot_env (Some "v1")) documents_message sample_bot stored_entry);
    try reflexivity.
  discriminate.
Defined.
